(** * env-flag: environment resolution and indicator lifecycle

    A shallow embedding of the [EnvFlag] class (TypeScript) and of the
    part of the browser it talks to, followed by the properties of its
    environment resolver, its configuration merge and its lifecycle. *)

From Stdlib Require Import String Ascii List Bool Arith Lia.
From stdpp Require Import base option list gmap strings.

Local Open Scope string_scope.

(** ** JavaScript values used by the class *)

(** A property that may be [undefined] is an [option]; [None] is
    [undefined]. *)

Definition truthy_bool (v : option bool) : bool :=
  match v with Some true => true | _ => false end.

Definition truthy_string (s : string) : bool := negb (String.eqb s "").

Definition truthy (v : option string) : bool :=
  match v with Some s => truthy_string s | None => false end.

(** [a || b] on possibly undefined strings. *)
Definition js_or (a b : option string) : option string :=
  if truthy a then a else b.

(** [String.prototype.includes]. *)
Fixpoint includes (s pat : string) : bool :=
  String.prefix pat s ||
  match s with
  | EmptyString => false
  | String _ rest => includes rest pat
  end.

(** Exceptions and completions of a call. *)
Inductive Exn : Type :=
| ReferenceError (name : string)
| TypeError (what : string).

Inductive Completion (A : Type) : Type :=
| Normal (a : A)
| Throw (e : Exn).

Arguments Normal {A} a.
Arguments Throw {A} e.

(** ** Types of the module *)

Inductive Environment : Type := development | production | staging | test.
Inductive Position : Type := top_right | top_left | bottom_right | bottom_left.
Inductive Size : Type := small | medium | large.

(** The run-time value of an [Environment] is its name. *)
Definition env_name (e : Environment) : string :=
  match e with
  | development => "development"
  | production => "production"
  | staging => "staging"
  | test => "test"
  end.

(** [this.config] as the object it is at run time: every property can be
    read as [undefined]. *)
Record Config : Type := mkConfig {
  productionColor : option string;
  developmentColor : option string;
  stagingColor : option string;
  testColor : option string;
  productionText : option string;
  developmentText : option string;
  stagingText : option string;
  testText : option string;
  position : option Position;
  size : option Size;
  autoDetectEnv : option bool;
  forceEnv : option Environment;
  enabled : option bool;
  debug : option bool
}.

(** An [EnvFlagConfig] argument: a property is absent ([None]), present
    and [undefined] ([Some None]), or present with a value. *)
Record EnvFlagConfig : Type := mkPartial {
  p_productionColor : option (option string);
  p_developmentColor : option (option string);
  p_stagingColor : option (option string);
  p_testColor : option (option string);
  p_productionText : option (option string);
  p_developmentText : option (option string);
  p_stagingText : option (option string);
  p_testText : option (option string);
  p_position : option (option Position);
  p_size : option (option Size);
  p_autoDetectEnv : option (option bool);
  p_forceEnv : option (option Environment);
  p_enabled : option (option bool);
  p_debug : option (option bool)
}.

Definition DEFAULT_CONFIG : Config := {|
  productionColor := Some "#f8285a";
  developmentColor := Some "#17c653";
  stagingColor := Some "#f39c12";
  testColor := Some "#9b59b6";
  productionText := Some "PROD";
  developmentText := Some "DEV";
  stagingText := Some "STAGING";
  testText := Some "TEST";
  position := Some bottom_right;
  size := Some medium;
  autoDetectEnv := Some true;
  forceEnv := None;
  enabled := Some true;
  debug := Some false
|}.

Definition ELEMENT_ID : string := "env-flag-indicator".
Definition Z_INDEX : string := "999999".

(** Copying one own property of the source object over the target:
    what object spread and [Object.assign] do per property. *)
Definition assign_prop {A : Type} (target : option A) (source : option (option A))
  : option A :=
  match source with
  | Some v => v
  | None => target
  end.

(** [Object.assign(target, source)] on configuration objects. *)
Definition object_assign (target : Config) (source : EnvFlagConfig) : Config := {|
  productionColor := assign_prop (productionColor target) (p_productionColor source);
  developmentColor := assign_prop (developmentColor target) (p_developmentColor source);
  stagingColor := assign_prop (stagingColor target) (p_stagingColor source);
  testColor := assign_prop (testColor target) (p_testColor source);
  productionText := assign_prop (productionText target) (p_productionText source);
  developmentText := assign_prop (developmentText target) (p_developmentText source);
  stagingText := assign_prop (stagingText target) (p_stagingText source);
  testText := assign_prop (testText target) (p_testText source);
  position := assign_prop (position target) (p_position source);
  size := assign_prop (size target) (p_size source);
  autoDetectEnv := assign_prop (autoDetectEnv target) (p_autoDetectEnv source);
  forceEnv := assign_prop (forceEnv target) (p_forceEnv source);
  enabled := assign_prop (enabled target) (p_enabled source);
  debug := assign_prop (debug target) (p_debug source)
|}.

(** The empty object [{}], default argument of the constructor. *)
Definition empty_config : EnvFlagConfig :=
  mkPartial None None None None None None None None None None None None None None.

(** ** Host signals *)

(** What the class reads from its host: which globals are declared, the
    page's hostname ([window.location?.hostname]), the two variable
    objects [import.meta.env] and [globalThis.process?.env] ([None] when
    falsy). *)
Record Host : Type := mkHost {
  window_declared : bool;
  document_declared : bool;
  navigator_declared : bool;
  requestAnimationFrame_declared : bool;
  location_hostname : option string;
  import_meta_env : option (gmap string string);
  process_env : option (gmap string string)
}.

(** ** Environment resolver *)

Definition ENVIRONMENT_NAMES : list string :=
  ["development"; "production"; "staging"; "test"].

Definition isValidEnvironmentString (env : string) : bool :=
  existsb (String.eqb env) ENVIRONMENT_NAMES.

Definition getNodeEnv (h : Host) : string :=
  let vite :=
    match import_meta_env h with
    | Some env =>
        let viteEnv := js_or (env !! "NODE_ENV") (env !! "VITE_NODE_ENV") in
        match viteEnv with
        | Some v => if truthy_string v && isValidEnvironmentString v
                    then Some v else None
        | None => None
        end
    | None => None
    end in
  match vite with
  | Some v => v
  | None =>
      match process_env h with
      | Some env =>
          match env !! "NODE_ENV" with
          | Some nodeEnv =>
              if truthy_string nodeEnv && isValidEnvironmentString nodeEnv
              then nodeEnv else ""
          | None => ""
          end
      | None => ""
      end
  end.

Definition customEnvVars : list string :=
  ["VITE_APP_NODE_ENV"; "VITE_APP_ENV"; "VITE_ENV"; "REACT_APP_NODE_ENV";
   "REACT_APP_ENV"; "VUE_APP_NODE_ENV"; "VUE_APP_ENV"].

(** One [for (const envVar of customEnvVars)] loop over a variable
    object; [Some value] is the loop's early return.  The debug
    [console.log] writes to the console only and is not modelled. *)
Fixpoint scanCustomEnv (env : gmap string string) (vars : list string)
  : option string :=
  match vars with
  | [] => None
  | envVar :: rest =>
      match env !! envVar with
      | Some value =>
          if truthy_string value && isValidEnvironmentString value
          then Some value
          else scanCustomEnv env rest
      | None => scanCustomEnv env rest
      end
  end.

Definition getCustomEnv (h : Host) : string :=
  match (env ← import_meta_env h; scanCustomEnv env customEnvVars) with
  | Some value => value
  | None =>
      match (env ← process_env h; scanCustomEnv env customEnvVars) with
      | Some value => value
      | None => ""
      end
  end.

(** [window.location?.hostname || ""]. *)
Definition hostname_of (h : Host) : string :=
  default "" (js_or (location_hostname h) (Some "")).

Definition detectEnvironment (h : Host) : Completion string :=
  if negb (window_declared h) then Throw (ReferenceError "window") else
  let hostname := hostname_of h in
  let nodeEnv := getNodeEnv h in
  let customEnv := getCustomEnv h in
  if negb (navigator_declared h) then Throw (ReferenceError "navigator") else
  if truthy_string customEnv then Normal customEnv
  else if truthy_string nodeEnv then Normal nodeEnv
  else if includes hostname "prod" ||
          (negb (includes hostname "localhost") &&
           negb (includes hostname "127.0.0.1") &&
           negb (includes hostname "dev") &&
           negb (includes hostname "staging") &&
           negb (includes hostname "test") &&
           Nat.ltb 0 (String.length hostname))
  then Normal "production"
  else if includes hostname "staging" || includes hostname "stage"
  then Normal "staging"
  else if includes hostname "test" then Normal "test"
  else Normal "development".

Definition getCurrentEnvironment (cfg : Config) (h : Host) : Completion string :=
  if truthy (env_name <$> forceEnv cfg)
  then Normal (default "" (env_name <$> forceEnv cfg))
  else if negb (truthy_bool (autoDetectEnv cfg)) then Normal "development"
  else detectEnvironment h.

(** *** Notions used to state the resolver's properties *)

(** A browser page with the given hostname and no bundler variables. *)
Definition page (hostname : string) : Host :=
  mkHost true true true true (Some hostname) None None.

(** The same host with both variable objects taken away. *)
Definition without_env (h : Host) : Host :=
  mkHost (window_declared h) (document_declared h) (navigator_declared h)
    (requestAnimationFrame_declared h) (location_hostname h) None None.

(** Priority 3 of [detectEnvironment] on its own, as a function of the
    hostname. *)
Definition hostname_rule (hostname : string) : string :=
  if includes hostname "prod" ||
     (negb (includes hostname "localhost") &&
      negb (includes hostname "127.0.0.1") &&
      negb (includes hostname "dev") &&
      negb (includes hostname "staging") &&
      negb (includes hostname "test") &&
      Nat.ltb 0 (String.length hostname))
  then "production"
  else if includes hostname "staging" || includes hostname "stage" then "staging"
  else if includes hostname "test" then "test"
  else "development".

(** The hostname heuristic in the words of the specification: staging
    markers first, then the test marker, then production for a non-empty
    hostname with no local, development, staging or test marker, and
    development otherwise. *)
Definition spec_hostname_heuristic (hostname : string) : string :=
  if includes hostname "staging" || includes hostname "stage" then "staging"
  else if includes hostname "test" then "test"
  else if negb (String.eqb hostname "") &&
          negb (includes hostname "localhost") &&
          negb (includes hostname "127.0.0.1") &&
          negb (includes hostname "dev") &&
          negb (includes hostname "staging") &&
          negb (includes hostname "test")
  then "production"
  else "development".

(** The same heuristic with the production marker in front. *)
Definition prod_first_heuristic (hostname : string) : string :=
  if includes hostname "prod" then "production"
  else spec_hostname_heuristic hostname.

(** Hostnames whose only marker is "stage". *)
Definition stage_only (hostname : string) : bool :=
  includes hostname "stage" &&
  negb (includes hostname "prod") &&
  negb (includes hostname "staging") &&
  negb (includes hostname "test") &&
  negb (includes hostname "localhost") &&
  negb (includes hostname "127.0.0.1") &&
  negb (includes hostname "dev").

(** Reading a variable of a variable object that may be missing. *)
Definition read_var (env : option (gmap string string)) (k : string) : option string :=
  env ≫= (fun m => m !! k).

Definition same_var (h1 h2 : Host) (pick : Host -> option (gmap string string))
    (k : string) : bool :=
  bool_decide (read_var (pick h1) k = read_var (pick h2) k).

(** Two hosts give the custom variables the same values. *)
Definition same_custom_vars (h1 h2 : Host) : bool :=
  forallb (same_var h1 h2 import_meta_env) customEnvVars &&
  forallb (same_var h1 h2 process_env) customEnvVars.

(** Two hosts give the generic mode variables the same values. *)
Definition same_node_vars (h1 h2 : Host) : bool :=
  same_var h1 h2 import_meta_env "NODE_ENV" &&
  same_var h1 h2 import_meta_env "VITE_NODE_ENV" &&
  same_var h1 h2 process_env "NODE_ENV".

(** No variable of the object holds a recognized environment name. *)
Definition no_recognized_value (env : option (gmap string string)) : Prop :=
  forall m k v, env = Some m -> m !! k = Some v -> isValidEnvironmentString v = false.

(** The value is held by the first variable of the list, in the given
    object, whose value is a recognized environment name. *)
Definition first_recognized (env : gmap string string) (vars : list string)
    (value : string) : Prop :=
  exists before envVar after,
    vars = (before ++ envVar :: after)%list /\
    env !! envVar = Some value /\
    isValidEnvironmentString value = true /\
    forall v x, In v before -> env !! v = Some x -> isValidEnvironmentString x = false.

(** A custom-variable match: [import.meta.env] is searched first, then
    [process.env]. *)
Definition custom_match (h : Host) (value : string) : Prop :=
  (exists env, import_meta_env h = Some env /\ first_recognized env customEnvVars value) \/
  ((forall env, import_meta_env h = Some env -> scanCustomEnv env customEnvVars = None) /\
   exists env, process_env h = Some env /\ first_recognized env customEnvVars value).

(** None of the listed custom variables of the object holds a
    recognized environment name. *)
Definition no_custom_value (env : option (gmap string string)) : Prop :=
  forall m envVar x,
    env = Some m -> In envVar customEnvVars -> m !! envVar = Some x ->
    isValidEnvironmentString x = false.

(** The custom-variable signal, read off the variables: the first
    listed variable of [import.meta.env] that holds a recognized name,
    or, when no listed variable of [import.meta.env] holds one, the
    first listed variable of [process.env] that does. *)
Definition custom_signal (h : Host) (value : string) : Prop :=
  (exists m, import_meta_env h = Some m /\ first_recognized m customEnvVars value) \/
  (no_custom_value (import_meta_env h) /\
   exists p, process_env h = Some p /\ first_recognized p customEnvVars value).

(** The value [import.meta.env] offers as mode: its [NODE_ENV] when
    that is a non-empty string, its [VITE_NODE_ENV] otherwise. *)
Definition vite_candidate (h : Host) (v : string) : Prop :=
  (read_var (import_meta_env h) "NODE_ENV" = Some v /\ v <> "") \/
  ((read_var (import_meta_env h) "NODE_ENV" = None \/
    read_var (import_meta_env h) "NODE_ENV" = Some "") /\
   read_var (import_meta_env h) "VITE_NODE_ENV" = Some v).

(** The generic mode signal, read off the variables: the mode offered
    by [import.meta.env] when it is a recognized name, and otherwise
    [process.env.NODE_ENV] when that is one. *)
Definition mode_signal (h : Host) (value : string) : Prop :=
  isValidEnvironmentString value = true /\
  (vite_candidate h value \/
   ((forall v, vite_candidate h v -> isValidEnvironmentString v = false) /\
    read_var (process_env h) "NODE_ENV" = Some value)).

(** Neither mode variable offers a recognized name. *)
Definition no_mode_signal (h : Host) : Prop :=
  (forall v, vite_candidate h v -> isValidEnvironmentString v = false) /\
  (forall v, read_var (process_env h) "NODE_ENV" = Some v ->
             isValidEnvironmentString v = false).

(** One loop of [getCustomEnv] over an object that may be missing. *)
Definition scan_opt (o : option (gmap string string)) (vars : list string) : option string :=
  env ← o; scanCustomEnv env vars.

(** [getNodeEnv] as a function of the three variables it reads. *)
Definition node_from (metaNode metaVite processNode : option string) : string :=
  match js_or metaNode metaVite with
  | Some v =>
      if isValidEnvironmentString v then v
      else match processNode with
           | Some n => if isValidEnvironmentString n then n else ""
           | None => ""
           end
  | None =>
      match processNode with
      | Some n => if isValidEnvironmentString n then n else ""
      | None => ""
      end
  end.

(** ** Style and layout lookups *)

(** Indexing an object literal whose keys are the four environment
    names with a string; any other key reads [undefined]. *)
Definition by_environment {A : Type} (environment : string)
    (prod dev stag tst : option A) : option A :=
  if String.eqb environment "production" then prod
  else if String.eqb environment "development" then dev
  else if String.eqb environment "staging" then stag
  else if String.eqb environment "test" then tst
  else None.

Record SizeStyles : Type := mkSizeStyles { fontSize : string; padding : string }.

(** [undefined] when [this.config.size] is. *)
Definition getSizeStyles (cfg : Config) : option SizeStyles :=
  match size cfg with
  | Some small => Some (mkSizeStyles "10px" "4px 8px")
  | Some medium => Some (mkSizeStyles "12px" "6px 12px")
  | Some large => Some (mkSizeStyles "14px" "8px 16px")
  | None => None
  end.

(** The [borderRadius] property of the object [getPositionStyles] returns. *)
Definition getPositionStyles (cfg : Config) : option string :=
  match position cfg with
  | Some top_right => Some "0 0 0 4px"
  | Some top_left => Some "0 0 4px 0"
  | Some bottom_left => Some "0 4px 0 0"
  | Some bottom_right => Some "4px 0 0 0"
  | None => None
  end.

(** The own properties of the object [getPositionCoordinates] returns;
    spreading [undefined] adds none. *)
Definition getPositionCoordinates (cfg : Config) : list (string * option string) :=
  match position cfg with
  | Some top_right => [("top", Some "0"); ("right", Some "0")]
  | Some top_left => [("top", Some "0"); ("left", Some "0")]
  | Some bottom_left => [("bottom", Some "0"); ("left", Some "0")]
  | Some bottom_right => [("bottom", Some "0"); ("right", Some "0")]
  | None => []
  end.

Record EnvFlagStyles : Type := mkStyles {
  st_backgroundColor : option string;
  st_color : string;
  st_fontSize : string;
  st_padding : string;
  st_borderRadius : option string;
  st_opacity : string
}.

(** [this.getSizeStyles().fontSize] throws when [getSizeStyles] returns
    [undefined]. *)
Definition getEnvironmentStyles (cfg : Config) (environment : string)
  : Completion EnvFlagStyles :=
  let backgroundColor :=
    by_environment environment (productionColor cfg) (developmentColor cfg)
      (stagingColor cfg) (testColor cfg) in
  match getSizeStyles cfg with
  | None => Throw (TypeError "fontSize")
  | Some sz =>
      Normal (mkStyles backgroundColor "#ffffff" (fontSize sz) (padding sz)
                (getPositionStyles cfg) "0.9")
  end.

Definition getEnvironmentText (cfg : Config) (environment : string) : option string :=
  by_environment environment (productionText cfg) (developmentText cfg)
    (stagingText cfg) (testText cfg).

(** ** The document and the component *)

(** Element objects live in a store and are named by references: the
    component, its listener registry and the document hold references to
    the same object. *)
Definition ref : Type := nat.

(** The functions made by [this.handleX.bind(this)]. *)
Inductive Handler : Type :=
| bound_handleClick
| bound_handleMouseEnter
| bound_handleMouseLeave
| bound_handleKeydown.

#[global] Instance Handler_eq_dec : EqDecision Handler.
Proof. solve_decision. Defined.

Record Element : Type := mkElement {
  el_tag : string;
  el_id : string;
  el_attributes : gmap string string;
  el_style : gmap string (option string);
  el_textContent : option string;
  el_listeners : list (string * Handler)
}.

Record Registration : Type := mkRegistration {
  reg_element : ref;
  reg_event : string;
  reg_handler : Handler
}.

(** The fields of one [EnvFlag] instance together with the part of the
    page it acts on: the element store, the children of [document.body]
    ([None] while [document.body] is [null]) and the number of
    animation-frame callbacks [createFlag] has scheduled that have not
    run yet. *)
Record World : Type := mkWorld {
  config : Config;
  flagElement : option ref;
  eventListeners : list Registration;
  elements : gmap ref Element;
  next_ref : ref;
  body : option (list ref);
  frames : nat
}.

Definition set_config (c : Config) (w : World) : World :=
  mkWorld c (flagElement w) (eventListeners w) (elements w) (next_ref w) (body w) (frames w).
Definition set_flagElement (f : option ref) (w : World) : World :=
  mkWorld (config w) f (eventListeners w) (elements w) (next_ref w) (body w) (frames w).
Definition set_eventListeners (l : list Registration) (w : World) : World :=
  mkWorld (config w) (flagElement w) l (elements w) (next_ref w) (body w) (frames w).
Definition set_elements (m : gmap ref Element) (w : World) : World :=
  mkWorld (config w) (flagElement w) (eventListeners w) m (next_ref w) (body w) (frames w).
Definition set_body (b : option (list ref)) (w : World) : World :=
  mkWorld (config w) (flagElement w) (eventListeners w) (elements w) (next_ref w) b (frames w).
Definition set_frames (n : nat) (w : World) : World :=
  mkWorld (config w) (flagElement w) (eventListeners w) (elements w) (next_ref w) (body w) n.

(** A call that changes the world and completes normally or throws; what
    it did before throwing stays done. *)
Definition Proc : Type := World -> Completion unit * World.

Definition ret (w : World) : Completion unit * World := (Normal tt, w).

Definition andThen (p q : Proc) : Proc :=
  fun w =>
    match p w with
    | (Normal _, w') => q w'
    | (Throw e, w') => (Throw e, w')
    end.

(** *** DOM operations *)

Definition mutate (r : ref) (f : Element -> Element) (w : World) : World :=
  set_elements (alter f r (elements w)) w.

Definition createElement (tag : string) (w : World) : ref * World :=
  let r := next_ref w in
  (r, mkWorld (config w) (flagElement w) (eventListeners w)
        (<[r := mkElement tag "" ∅ ∅ None []]> (elements w))
        (S r) (body w) (frames w)).

Definition set_id (v : string) (e : Element) : Element :=
  mkElement (el_tag e) v (el_attributes e) (el_style e) (el_textContent e) (el_listeners e).
Definition setAttribute (k v : string) (e : Element) : Element :=
  mkElement (el_tag e) (el_id e) (<[k := v]> (el_attributes e)) (el_style e)
    (el_textContent e) (el_listeners e).
Definition set_style (k : string) (v : option string) (e : Element) : Element :=
  mkElement (el_tag e) (el_id e) (el_attributes e) (<[k := v]> (el_style e))
    (el_textContent e) (el_listeners e).
Definition set_textContent (v : option string) (e : Element) : Element :=
  mkElement (el_tag e) (el_id e) (el_attributes e) (el_style e) v (el_listeners e).
Definition addEventListener (event : string) (handler : Handler) (e : Element) : Element :=
  mkElement (el_tag e) (el_id e) (el_attributes e) (el_style e) (el_textContent e)
    (el_listeners e ++ [(event, handler)]).
Definition removeEventListener (event : string) (handler : Handler) (e : Element) : Element :=
  mkElement (el_tag e) (el_id e) (el_attributes e) (el_style e) (el_textContent e)
    (List.filter (fun l => negb (bool_decide (l = (event, handler)))) (el_listeners e)).

(** [Object.assign(element.style, props)]. *)
Definition assign_style (props : list (string * option string)) (e : Element) : Element :=
  fold_left (fun acc kv => set_style (fst kv) (snd kv) acc) props e.

Definition contains (kids : list ref) (r : ref) : bool := existsb (Nat.eqb r) kids.
Definition removeChild (r : ref) (kids : list ref) : list ref :=
  List.filter (fun x => negb (Nat.eqb x r)) kids.
(** Appending a node that is already a child moves it to the end. *)
Definition appendChild (r : ref) (kids : list ref) : list ref := removeChild r kids ++ [r].

(** ** The class [EnvFlag] *)

(** [new EnvFlag(config)]: the instance fields, in a page with the given
    element store and body. *)
Definition constructor (cfg : EnvFlagConfig) (store : gmap ref Element)
    (next : ref) (page : option (list ref)) : World :=
  mkWorld (object_assign DEFAULT_CONFIG cfg) None [] store next page 0.

Definition isValidEnvironment (h : Host) : bool :=
  window_declared h && document_declared h.

Definition removeEventListeners (w : World) : World :=
  let w' :=
    fold_left
      (fun acc l => mutate (reg_element l) (removeEventListener (reg_event l) (reg_handler l)) acc)
      (eventListeners w) w in
  set_eventListeners [] w'.

Definition removeFlagElement (h : Host) : Proc :=
  fun w =>
    match flagElement w with
    | None => ret w
    | Some r =>
        if negb (document_declared h) then (Throw (ReferenceError "document"), w)
        else match body w with
             | Some kids =>
                 if contains kids r
                 then ret (set_flagElement None (set_body (Some (removeChild r kids)) w))
                 else ret w
             | None => ret w
             end
    end.

Definition destroy (h : Host) : Proc :=
  andThen (fun w => ret (removeEventListeners w)) (removeFlagElement h).

(** The quotation marks inside the font family are written as apostrophes. *)
Definition applyStyles (environment : string) : Proc :=
  fun w =>
    match flagElement w with
    | None => ret w
    | Some r =>
        let cfg := config w in
        match getEnvironmentStyles cfg environment with
        | Throw e => (Throw e, w)
        | Normal styles =>
            let positionStyles := getPositionStyles cfg in
            match getSizeStyles cfg with
            | None => (Throw (TypeError "fontSize"), w)
            | Some sizeStyles =>
                let props :=
                  ([("textContent", getEnvironmentText cfg environment);
                   ("backgroundColor", st_backgroundColor styles);
                   ("color", Some (st_color styles));
                   ("fontFamily", Some "'Segoe UI', system-ui, -apple-system, sans-serif");
                   ("fontWeight", Some "600");
                   ("fontSize", Some (fontSize sizeStyles));
                   ("lineHeight", Some "1");
                   ("textAlign", Some "center");
                   ("position", Some "fixed");
                   ("zIndex", Some Z_INDEX);
                   ("padding", Some (padding sizeStyles));
                   ("borderRadius", positionStyles);
                   ("opacity", Some (st_opacity styles));
                   ("cursor", Some "pointer");
                   ("userSelect", Some "none");
                   ("transition", Some "all 0.2s ease-in-out")]
                  ++ getPositionCoordinates cfg
                  ++ [("outline", Some "none")])%list in
                let w1 := mutate r (assign_style props) w in
                ret (mutate r (set_textContent (getEnvironmentText cfg environment)) w1)
            end
        end
    end.

Definition push (l : Registration) (w : World) : World :=
  set_eventListeners (eventListeners w ++ [l]) w.

Definition attachEventListeners (w : World) : World :=
  match flagElement w with
  | None => w
  | Some r =>
      let w1 := mutate r (addEventListener "click" bound_handleClick) w in
      let w2 := push (mkRegistration r "click" bound_handleClick) w1 in
      let w3 := mutate r (addEventListener "mouseenter" bound_handleMouseEnter) w2 in
      let w4 := mutate r (addEventListener "mouseleave" bound_handleMouseLeave) w3 in
      let w5 := push (mkRegistration r "mouseenter" bound_handleMouseEnter) w4 in
      let w6 := push (mkRegistration r "mouseleave" bound_handleMouseLeave) w5 in
      let w7 := mutate r (addEventListener "keydown" bound_handleKeydown) w6 in
      let w8 := mutate r (setAttribute "tabindex" "0") w7 in
      push (mkRegistration r "keydown" bound_handleKeydown) w8
  end.

(** The callback handed to [requestAnimationFrame]: it reads
    [this.flagElement] and [document.body] when it runs. *)
Definition insertFlag (w : World) : World :=
  match flagElement w, body w with
  | Some r, Some kids => set_body (Some (appendChild r kids)) w
  | _, _ => w
  end.

Definition requestAnimationFrame (h : Host) : Proc :=
  fun w =>
    if requestAnimationFrame_declared h then ret (set_frames (S (frames w)) w)
    else (Throw (ReferenceError "requestAnimationFrame"), w).

Definition createFlag (h : Host) : Proc :=
  fun w =>
    match getCurrentEnvironment (config w) h with
    | Throw e => (Throw e, w)
    | Normal environment =>
        if negb (document_declared h) then (Throw (ReferenceError "document"), w)
        else
          let '(r, w0) := createElement "div" w in
          let w1 := set_flagElement (Some r) w0 in
          let w2 := mutate r (set_id ELEMENT_ID) w1 in
          let w3 := mutate r (setAttribute "data-env" environment) w2 in
          let w4 := mutate r (setAttribute "role" "status") w3 in
          let w5 := mutate r (setAttribute "aria-label" ("Environment: " ++ environment)) w4 in
          andThen (applyStyles environment)
            (andThen (fun w' => ret (attachEventListeners w')) (requestAnimationFrame h)) w5
    end.

Definition init (h : Host) : Proc :=
  fun w =>
    if negb (isValidEnvironment h) then ret w
    else if negb (truthy_bool (enabled (config w))) then ret w
    else andThen (destroy h) (createFlag h) w.

Definition updateConfig (h : Host) (newConfig : EnvFlagConfig) : Proc :=
  fun w => init h (set_config (object_assign (config w) newConfig) w).

Definition handleClick (h : Host) : Proc := destroy h.

Definition handleMouseEnter (w : World) : World :=
  match flagElement w with
  | Some r => mutate r (set_style "transform" (Some "scale(1.05)"))
                (mutate r (set_style "opacity" (Some "1")) w)
  | None => w
  end.

Definition handleMouseLeave (w : World) : World :=
  match flagElement w with
  | Some r => mutate r (set_style "transform" (Some "scale(1)"))
                (mutate r (set_style "opacity" (Some "0.9")) w)
  | None => w
  end.

(** [preventDefault] acts on the event only. *)
Definition handleKeydown (h : Host) (key : string) : Proc :=
  fun w =>
    if String.eqb key "Enter" || String.eqb key " " then destroy h w else ret w.

(** *** The page's animation frames *)

(** Running the oldest scheduled callback, if there is one. *)
Definition frame (w : World) : World :=
  match frames w with
  | 0 => w
  | S n => insertFlag (set_frames n w)
  end.

Fixpoint run_frames (n : nat) (w : World) : World :=
  match n with
  | 0 => w
  | S n' => run_frames n' (frame w)
  end.

(** Running every callback scheduled so far. *)
Definition flush (w : World) : World := run_frames (frames w) w.

(** *** Observations *)

Definition children (w : World) : list ref := default [] (body w).

Definition is_indicator (w : World) (r : ref) : bool :=
  match elements w !! r with
  | Some e => String.eqb (el_id e) ELEMENT_ID
  | None => false
  end.

(** The indicator elements in the document. *)
Definition indicators (w : World) : list ref :=
  List.filter (is_indicator w) (children w).

(** ** The packaged class

    [src/index.ts], from which [dist/index.js] is built, is an earlier
    text of the same class.  It has no custom variables, reads the mode
    from [process.env] alone, has its own hostname rule, and wraps
    [init] and [destroy] in [try]/[catch]. *)
Module Published.

Definition DEFAULT_CONFIG : Config := {|
  productionColor := Some "#e74c3c";
  developmentColor := Some "#3498db";
  stagingColor := Some "#f39c12";
  testColor := Some "#9b59b6";
  productionText := Some "PROD";
  developmentText := Some "DEV";
  stagingText := Some "STAGING";
  testText := Some "TEST";
  position := Some bottom_right;
  size := Some medium;
  autoDetectEnv := Some true;
  forceEnv := None;
  enabled := Some true;
  debug := Some false
|}.

Definition constructor (cfg : EnvFlagConfig) (store : gmap ref Element)
    (next : ref) (page : option (list ref)) : World :=
  mkWorld (object_assign DEFAULT_CONFIG cfg) None [] store next page 0.

(** [try { body } catch (error) { console.error(...) }]. *)
Definition tryCatch (p : Proc) : Proc :=
  fun w => ret (snd (p w)).

Definition detectEnvironment (h : Host) : Completion string :=
  if negb (window_declared h) then Throw (ReferenceError "window") else
  let hostname := hostname_of h in
  let nodeEnv := default "" (js_or (read_var (process_env h) "NODE_ENV") (Some "")) in
  if negb (navigator_declared h) then Throw (ReferenceError "navigator") else
  if String.eqb nodeEnv "production" ||
     includes hostname "prod" ||
     (negb (includes hostname "localhost") &&
      negb (includes hostname "127.0.0.1") &&
      negb (includes hostname "dev") &&
      negb (includes hostname "staging"))
  then Normal "production"
  else if String.eqb nodeEnv "staging" ||
          includes hostname "staging" ||
          includes hostname "stage"
  then Normal "staging"
  else if String.eqb nodeEnv "test" || includes hostname "test"
  then Normal "test"
  else Normal "development".

Definition getCurrentEnvironment (cfg : Config) (h : Host) : Completion string :=
  if truthy (env_name <$> forceEnv cfg)
  then Normal (default "" (env_name <$> forceEnv cfg))
  else if negb (truthy_bool (autoDetectEnv cfg)) then Normal "development"
  else detectEnvironment h.

Definition applyStyles (environment : string) : Proc :=
  fun w =>
    match flagElement w with
    | None => ret w
    | Some r =>
        let cfg := config w in
        match getEnvironmentStyles cfg environment with
        | Throw e => (Throw e, w)
        | Normal styles =>
            let positionStyles := getPositionStyles cfg in
            match getSizeStyles cfg with
            | None => (Throw (TypeError "fontSize"), w)
            | Some sizeStyles =>
                let props :=
                  ([("textContent", getEnvironmentText cfg environment);
                   ("backgroundColor", st_backgroundColor styles);
                   ("color", Some (st_color styles));
                   ("fontFamily", Some "'Segoe UI', system-ui, -apple-system, sans-serif");
                   ("fontWeight", Some "600");
                   ("fontSize", Some (fontSize sizeStyles));
                   ("lineHeight", Some "1");
                   ("textAlign", Some "center");
                   ("position", Some "fixed");
                   ("zIndex", Some Z_INDEX);
                   ("padding", Some (padding sizeStyles));
                   ("borderRadius", positionStyles);
                   ("boxShadow", Some "0 2px 8px rgba(0, 0, 0, 0.15)");
                   ("backdropFilter", Some "blur(8px)");
                   ("opacity", Some (st_opacity styles));
                   ("cursor", Some "pointer");
                   ("userSelect", Some "none");
                   ("transition", Some "all 0.2s ease-in-out")]
                  ++ getPositionCoordinates cfg
                  ++ [("outline", Some "none")])%list in
                let w1 := mutate r (assign_style props) w in
                ret (mutate r (set_textContent (getEnvironmentText cfg environment)) w1)
            end
        end
    end.

Definition createFlag (h : Host) : Proc :=
  fun w =>
    match getCurrentEnvironment (config w) h with
    | Throw e => (Throw e, w)
    | Normal environment =>
        if negb (document_declared h) then (Throw (ReferenceError "document"), w)
        else
          let '(r, w0) := createElement "div" w in
          let w1 := set_flagElement (Some r) w0 in
          let w2 := mutate r (set_id ELEMENT_ID) w1 in
          let w3 := mutate r (setAttribute "data-env" environment) w2 in
          let w4 := mutate r (setAttribute "role" "status") w3 in
          let w5 := mutate r (setAttribute "aria-label" ("Environment: " ++ environment)) w4 in
          andThen (applyStyles environment)
            (andThen (fun w' => ret (attachEventListeners w')) (requestAnimationFrame h)) w5
    end.

Definition destroy (h : Host) : Proc :=
  tryCatch (andThen (fun w => ret (removeEventListeners w)) (removeFlagElement h)).

Definition init (h : Host) : Proc :=
  tryCatch
    (fun w =>
       if negb (isValidEnvironment h) then ret w
       else if negb (truthy_bool (enabled (config w))) then ret w
       else andThen (destroy h) (createFlag h) w).

Definition updateConfig (h : Host) (newConfig : EnvFlagConfig) : Proc :=
  fun w => init h (set_config (object_assign (config w) newConfig) w).

End Published.

(** *** Notions used to state the lifecycle's properties *)

Definition defined {A : Type} (v : option A) : bool :=
  match v with Some _ => true | None => false end.

(** Every property but the optional override holds a value. *)
Definition resolved (c : Config) : bool :=
  defined (productionColor c) && defined (developmentColor c) &&
  defined (stagingColor c) && defined (testColor c) &&
  defined (productionText c) && defined (developmentText c) &&
  defined (stagingText c) && defined (testText c) &&
  defined (position c) && defined (size c) &&
  defined (autoDetectEnv c) && defined (enabled c) && defined (debug c).

(** The property, when the argument names it, carries a value. *)
Definition names_value {A : Type} (source : option (option A)) : bool :=
  match source with
  | Some None => false
  | _ => true
  end.

(** No property of the argument other than the override is present and
    [undefined]. *)
Definition names_values (p : EnvFlagConfig) : bool :=
  names_value (p_productionColor p) && names_value (p_developmentColor p) &&
  names_value (p_stagingColor p) && names_value (p_testColor p) &&
  names_value (p_productionText p) && names_value (p_developmentText p) &&
  names_value (p_stagingText p) && names_value (p_testText p) &&
  names_value (p_position p) && names_value (p_size p) &&
  names_value (p_autoDetectEnv p) && names_value (p_enabled p) &&
  names_value (p_debug p).

(** A property after a merge: the given one when the argument names it,
    the old one otherwise. *)
Definition merged_prop {A : Type} (old new : option A) (source : option (option A)) : Prop :=
  match source with
  | Some v => new = v
  | None => new = old
  end.

Definition merged (old : Config) (p : EnvFlagConfig) (new : Config) : Prop :=
  merged_prop (productionColor old) (productionColor new) (p_productionColor p) /\
  merged_prop (developmentColor old) (developmentColor new) (p_developmentColor p) /\
  merged_prop (stagingColor old) (stagingColor new) (p_stagingColor p) /\
  merged_prop (testColor old) (testColor new) (p_testColor p) /\
  merged_prop (productionText old) (productionText new) (p_productionText p) /\
  merged_prop (developmentText old) (developmentText new) (p_developmentText p) /\
  merged_prop (stagingText old) (stagingText new) (p_stagingText p) /\
  merged_prop (testText old) (testText new) (p_testText p) /\
  merged_prop (position old) (position new) (p_position p) /\
  merged_prop (size old) (size new) (p_size p) /\
  merged_prop (autoDetectEnv old) (autoDetectEnv new) (p_autoDetectEnv p) /\
  merged_prop (forceEnv old) (forceEnv new) (p_forceEnv p) /\
  merged_prop (enabled old) (enabled new) (p_enabled p) /\
  merged_prop (debug old) (debug new) (p_debug p).

(** A browser: every global the class uses is declared. *)
Definition browser (h : Host) : bool :=
  window_declared h && document_declared h && navigator_declared h &&
  requestAnimationFrame_declared h.

(** Every indicator element in the document is the component's current
    element. *)
Definition owns_indicators (w : World) : bool :=
  forallb (fun r => implb (is_indicator w r) (bool_decide (flagElement w = Some r)))
    (children w).

(** References in use are below the allocation counter. *)
Definition allocated (w : World) : bool :=
  forallb (fun r => Nat.ltb r (next_ref w)) (children w) &&
  match flagElement w with
  | Some r => Nat.ltb r (next_ref w)
  | None => true
  end.

(** A node is a child of the body at most once. *)
Definition distinct_children (w : World) : bool :=
  bool_decide (NoDup (children w)).

(** The state invariant of one component in its page. *)
Definition page_ok (w : World) : bool :=
  owns_indicators w && allocated w && distinct_children w.

(** Two worlds that differ at most in the listener registry and in
    properties of elements other than their [id]. *)
Definition same_page (w w' : World) : Prop :=
  config w' = config w /\
  flagElement w' = flagElement w /\
  next_ref w' = next_ref w /\
  body w' = body w /\
  frames w' = frames w /\
  forall x, is_indicator w' x = is_indicator w x.

(** What can happen to a component: calls of its public methods, an
    animation frame of the page, and events on its element. *)
Inductive Event : Type :=
| Init
| Destroy
| UpdateConfig (newConfig : EnvFlagConfig)
| Frame
| Click
| Keydown (key : string)
| MouseEnter
| MouseLeave.

Definition step (h : Host) (w : World) (ev : Event) : World :=
  match ev with
  | Init => snd (init h w)
  | Destroy => snd (destroy h w)
  | UpdateConfig newConfig => snd (updateConfig h newConfig w)
  | Frame => frame w
  | Click => snd (handleClick h w)
  | Keydown key => snd (handleKeydown h key w)
  | MouseEnter => handleMouseEnter w
  | MouseLeave => handleMouseLeave w
  end.

Definition run (h : Host) (evs : list Event) (w : World) : World :=
  fold_left (step h) evs w.

(** The DOM listeners of the component's current element. *)
Definition flag_listeners (w : World) : list (string * Handler) :=
  match flagElement w ≫= (fun r => elements w !! r) with
  | Some e => el_listeners e
  | None => []
  end.

(** [w'] is [w] with a fresh indicator element as the component's
    current element, not yet in the document. *)
Definition created (w w' : World) : Prop :=
  config w' = config w /\
  flagElement w' = Some (next_ref w) /\
  next_ref w' = S (next_ref w) /\
  body w' = body w /\
  forall x, is_indicator w' x = Nat.eqb x (next_ref w) || is_indicator w x.

(** The component's current element is the indicator [r] and the page
    has a body. *)
Definition shown (w : World) (r : ref) : Prop :=
  flagElement w = Some r /\
  is_indicator w r = true /\
  defined (body w) = true /\
  page_ok w = true.

(** *** Notions used to state further properties *)

(** The element object the component holds, if any. *)
Definition current (w : World) : option Element :=
  flagElement w ≫= (fun r => elements w !! r).

(** The listeners [attachEventListeners] puts on an element, in order. *)
Definition flag_handlers : list (string * Handler) :=
  [("click", bound_handleClick); ("mouseenter", bound_handleMouseEnter);
   ("mouseleave", bound_handleMouseLeave); ("keydown", bound_handleKeydown)].

Definition flag_registrations (r : ref) : list Registration :=
  map (fun l => mkRegistration r (fst l) (snd l)) flag_handlers.

(** Every listener on an element of the store is in the registry. *)
Definition recorded (w : World) : Prop :=
  forall r el event handler,
    elements w !! r = Some el ->
    In (event, handler) (el_listeners el) ->
    In (mkRegistration r event handler) (eventListeners w).

(** The value the last assignment to [k] in a list of style assignments
    gives it, if the list assigns [k] at all. *)
Fixpoint last_assigned (k : string) (props : list (string * option string))
  : option (option string) :=
  match props with
  | [] => None
  | kv :: rest =>
      match last_assigned k rest with
      | Some v => Some v
      | None => if String.eqb (fst kv) k then Some (snd kv) else None
      end
  end.

(** The element shows the given environment under the given
    configuration: identifier, accessibility attributes, listeners,
    label and the styles that depend on the configuration. *)
Definition renders (cfg : Config) (environment : string) (sz : SizeStyles)
    (el : Element) : Prop :=
  el_tag el = "div" /\ el_id el = ELEMENT_ID /\
  el_attributes el !! "data-env" = Some environment /\
  el_attributes el !! "role" = Some "status" /\
  el_attributes el !! "aria-label" = Some ("Environment: " ++ environment) /\
  el_attributes el !! "tabindex" = Some "0" /\
  el_listeners el = flag_handlers /\
  el_textContent el = getEnvironmentText cfg environment /\
  el_style el !! "backgroundColor"
    = Some (by_environment environment (productionColor cfg)
              (developmentColor cfg) (stagingColor cfg) (testColor cfg)) /\
  el_style el !! "color" = Some (Some "#ffffff") /\
  el_style el !! "fontSize" = Some (Some (fontSize sz)) /\
  el_style el !! "padding" = Some (Some (padding sz)) /\
  el_style el !! "position" = Some (Some "fixed") /\
  el_style el !! "zIndex" = Some (Some Z_INDEX) /\
  el_style el !! "borderRadius" = Some (getPositionStyles cfg) /\
  el_style el !! "opacity" = Some (Some "0.9") /\
  (forall k v, In (k, v) (getPositionCoordinates cfg) -> el_style el !! k = Some v).

(** A node that is not the component's current element and was
    allocated before the component's next element. *)
Definition foreign (w : World) (x : ref) : Prop :=
  flagElement w <> Some x /\ x < next_ref w.

(** No element of the store has a listener. *)
Definition stripped (w : World) : Prop :=
  forall r el, elements w !! r = Some el -> el_listeners el = [].

(** The object [{...p, ...q}]: per property, the one of [q] when [q] has
    it, the one of [p] otherwise. *)
Definition spread_prop {A : Type} (p q : option (option A)) : option (option A) :=
  match q with
  | Some v => Some v
  | None => p
  end.

Definition spread (p q : EnvFlagConfig) : EnvFlagConfig := {|
  p_productionColor := spread_prop (p_productionColor p) (p_productionColor q);
  p_developmentColor := spread_prop (p_developmentColor p) (p_developmentColor q);
  p_stagingColor := spread_prop (p_stagingColor p) (p_stagingColor q);
  p_testColor := spread_prop (p_testColor p) (p_testColor q);
  p_productionText := spread_prop (p_productionText p) (p_productionText q);
  p_developmentText := spread_prop (p_developmentText p) (p_developmentText q);
  p_stagingText := spread_prop (p_stagingText p) (p_stagingText q);
  p_testText := spread_prop (p_testText p) (p_testText q);
  p_position := spread_prop (p_position p) (p_position q);
  p_size := spread_prop (p_size p) (p_size q);
  p_autoDetectEnv := spread_prop (p_autoDetectEnv p) (p_autoDetectEnv q);
  p_forceEnv := spread_prop (p_forceEnv p) (p_forceEnv q);
  p_enabled := spread_prop (p_enabled p) (p_enabled q);
  p_debug := spread_prop (p_debug p) (p_debug q)
|}.

(** ** Automatic initialisation

    The statements at the end of the module, run when it is loaded: in a
    host with a [window] they make an instance with [debug] on and call
    its [init], at once or when [DOMContentLoaded] fires if the document
    is still loading. *)
Record Load : Type := mkLoad {
  load_completion : Completion unit;
  load_instance : option World;
  load_waiting : bool
}.

(** [{ debug: true }]. *)
Definition debug_config : EnvFlagConfig :=
  mkPartial None None None None None None None None None None None None None
    (Some (Some true)).

Definition autoInitialization (h : Host) (readyState : string)
    (store : gmap ref Element) (next : ref) (page : option (list ref)) : Load :=
  if negb (window_declared h) then mkLoad (Normal tt) None false
  else
    let autoEnvFlag := constructor debug_config store next page in
    if negb (document_declared h)
    then mkLoad (Throw (ReferenceError "document")) (Some autoEnvFlag) false
    else if String.eqb readyState "loading"
    then mkLoad (Normal tt) (Some autoEnvFlag) true
    else mkLoad (fst (init h autoEnvFlag)) (Some (snd (init h autoEnvFlag))) false.

(** The [DOMContentLoaded] event reaching the listener, if one waits. *)
Definition domContentLoaded (h : Host) (l : Load) : Load :=
  match load_waiting l, load_instance l with
  | true, Some w => mkLoad (fst (init h w)) (Some (snd (init h w))) false
  | _, _ => l
  end.

(** * Properties *)

(** ** Strings and truthiness *)

Lemma env_name_truthy (e : Environment) : truthy_string (env_name e) = true.
Proof. destruct e; reflexivity. Qed.

Lemma env_name_valid (e : Environment) : isValidEnvironmentString (env_name e) = true.
Proof. destruct e; reflexivity. Qed.

Lemma valid_is_env_name (s : string) :
  isValidEnvironmentString s = true -> exists e, s = env_name e.
Proof.
  unfold isValidEnvironmentString, ENVIRONMENT_NAMES. cbn [existsb].
  rewrite !orb_true_iff, !String.eqb_eq.
  intros [->|[->|[->|[->|H]]]];
    [exists development|exists production|exists staging|exists test|discriminate H];
    reflexivity.
Qed.

Lemma nonempty_length (s : string) :
  Nat.ltb 0 (String.length s) = negb (String.eqb s "").
Proof. destruct s; reflexivity. Qed.

Lemma empty_not_valid : isValidEnvironmentString "" = false.
Proof. reflexivity. Qed.

Lemma truthy_string_false (s : string) : truthy_string s = false -> s = "".
Proof.
  unfold truthy_string. intros H. apply negb_false_iff in H.
  now apply String.eqb_eq.
Qed.

(** [includes] finds exactly the substrings. *)
Lemma prefix_app (pat s : string) :
  String.prefix pat s = true <-> exists b, s = pat ++ b.
Proof.
  revert s. induction pat as [|c pat IH]; intros s.
  - split; [intros _; now exists s|intros _; destruct s; reflexivity].
  - destruct s as [|d s]; cbn.
    + split; [discriminate|intros [b Hb]; discriminate].
    + destruct (ascii_dec c d) as [->|Hne].
      * rewrite IH. split; intros [b Hb]; exists b.
        -- now rewrite Hb.
        -- now injection Hb.
      * split; [discriminate|]. intros [b Hb]. injection Hb as Hc _. congruence.
Qed.

Lemma includes_spec (s pat : string) :
  includes s pat = true <-> exists a b, s = a ++ pat ++ b.
Proof.
  induction s as [|c s IH]; cbn [includes]; rewrite orb_true_iff, prefix_app.
  - split.
    + intros [[b Hb]|H]; [|discriminate]. now exists "", b.
    + intros (a & b & H). left. destruct a; [|discriminate]. now exists b.
  - rewrite IH. split.
    + intros [[b Hb]|(a & b & H)]; [now exists "", b|].
      exists (String c a), b. cbn. now rewrite H.
    + intros (a & b & H). destruct a as [|d a]; [left; now exists b|].
      right. exists a, b. cbn in H. now injection H.
Qed.

Example includes_examples :
  includes "my-test-site.io" "test" = true /\
  includes "app.example.com" "dev" = false /\
  includes "" "" = true /\
  includes "" "prod" = false.
Proof. repeat split. Qed.

(** ** The resolver *)

Lemma detect_unfold (h : Host) :
  window_declared h = true -> navigator_declared h = true ->
  detectEnvironment h =
    Normal (if truthy_string (getCustomEnv h) then getCustomEnv h
            else if truthy_string (getNodeEnv h) then getNodeEnv h
            else hostname_rule (hostname_of h)).
Proof.
  intros Hw Hn. unfold detectEnvironment, hostname_rule. rewrite Hw, Hn. cbn [negb].
  repeat match goal with |- context [if ?b then _ else _] => destruct b end;
    reflexivity.
Qed.

Lemma current_unfold (cfg : Config) (h : Host) :
  forceEnv cfg = None -> truthy_bool (autoDetectEnv cfg) = true ->
  getCurrentEnvironment cfg h = detectEnvironment h.
Proof.
  intros Hf Ha. unfold getCurrentEnvironment. rewrite Hf, Ha. reflexivity.
Qed.

Lemma detect_by_hostname (cfg : Config) (h : Host) :
  forceEnv cfg = None -> truthy_bool (autoDetectEnv cfg) = true ->
  window_declared h = true -> navigator_declared h = true ->
  getCustomEnv h = "" -> getNodeEnv h = "" ->
  getCurrentEnvironment cfg h = Normal (hostname_rule (hostname_of h)).
Proof.
  intros Hf Ha Hw Hn Hc Hg.
  rewrite current_unfold, detect_unfold by assumption.
  rewrite Hc, Hg. reflexivity.
Qed.

Lemma hostname_rule_prod_first (hostname : string) :
  stage_only hostname = false ->
  hostname_rule hostname = prod_first_heuristic hostname.
Proof.
  unfold stage_only, hostname_rule, prod_first_heuristic, spec_hostname_heuristic.
  rewrite nonempty_length.
  destruct (includes hostname "prod"), (includes hostname "staging"),
    (includes hostname "stage"), (includes hostname "test"),
    (includes hostname "localhost"), (includes hostname "127.0.0.1"),
    (includes hostname "dev"), (String.eqb hostname "");
    cbn; intros H; try reflexivity; discriminate H.
Qed.

(** C1 (as amended): with no override, auto-detect on and no matching
    variable, a hostname that has the marker "prod" resolves to
    production; otherwise staging markers, then the test marker, then
    production for a non-empty hostname without local, development,
    staging or test marker, then development.  Hostnames whose only
    marker is "stage" are left out of the statement. *)
Theorem hostname_heuristic_prod_first (cfg : Config) (h : Host) :
  forceEnv cfg = None ->
  truthy_bool (autoDetectEnv cfg) = true ->
  window_declared h = true ->
  navigator_declared h = true ->
  getCustomEnv h = "" ->
  getNodeEnv h = "" ->
  stage_only (hostname_of h) = false ->
  getCurrentEnvironment cfg h = Normal (prod_first_heuristic (hostname_of h)).
Proof.
  intros Hf Ha Hw Hn Hc Hg Hs.
  rewrite detect_by_hostname by assumption.
  now rewrite hostname_rule_prod_first.
Qed.

Lemma hostname_heuristic_prod_first_witness :
  getCurrentEnvironment DEFAULT_CONFIG (page "dev-stage.example.com")
  = Normal (prod_first_heuristic "dev-stage.example.com").
Proof.
  apply (hostname_heuristic_prod_first DEFAULT_CONFIG (page "dev-stage.example.com"));
    reflexivity.
Defined.

(** The heuristic as the specification words it fails on a hostname with
    the production marker and a staging marker: the class answers
    production, the specification's order staging. *)
Lemma hostname_heuristic_counterexample :
  let h := page "prod-staging.example.com" in
  forceEnv DEFAULT_CONFIG = None /\
  truthy_bool (autoDetectEnv DEFAULT_CONFIG) = true /\
  getCustomEnv h = "" /\ getNodeEnv h = "" /\
  getCurrentEnvironment DEFAULT_CONFIG h = Normal "production" /\
  spec_hostname_heuristic (hostname_of h) = "staging" /\
  getCurrentEnvironment DEFAULT_CONFIG h
    <> Normal (spec_hostname_heuristic (hostname_of h)).
Proof. cbv zeta. repeat split; try reflexivity. vm_compute. discriminate. Qed.

(** What the amended statement leaves out: a hostname whose only marker
    is "stage" resolves to production, the staging branch that tests for
    "stage" being reached only after the production test. *)
Lemma stage_only_hostname_is_production :
  stage_only "stage.example.com" = true /\
  getCurrentEnvironment DEFAULT_CONFIG (page "stage.example.com") = Normal "production".
Proof. split; reflexivity. Qed.

(** C3: the five hostnames of the specification. *)
Theorem concrete_hostnames (cfg : Config) (h : Host) :
  forceEnv cfg = None ->
  truthy_bool (autoDetectEnv cfg) = true ->
  window_declared h = true ->
  navigator_declared h = true ->
  getCustomEnv h = "" ->
  getNodeEnv h = "" ->
  (hostname_of h = "staging.example.com" ->
     getCurrentEnvironment cfg h = Normal (env_name staging)) /\
  (hostname_of h = "my-test-site.io" ->
     getCurrentEnvironment cfg h = Normal (env_name test)) /\
  (hostname_of h = "app.example.com" ->
     getCurrentEnvironment cfg h = Normal (env_name production)) /\
  (hostname_of h = "localhost" ->
     getCurrentEnvironment cfg h = Normal (env_name development)) /\
  (hostname_of h = "" ->
     getCurrentEnvironment cfg h = Normal (env_name development)).
Proof.
  intros Hf Ha Hw Hn Hc Hg.
  rewrite detect_by_hostname by assumption.
  repeat split; intros ->; reflexivity.
Qed.

Lemma concrete_hostnames_witness :
  getCurrentEnvironment DEFAULT_CONFIG (page "staging.example.com") = Normal "staging" /\
  getCurrentEnvironment DEFAULT_CONFIG (page "my-test-site.io") = Normal "test" /\
  getCurrentEnvironment DEFAULT_CONFIG (page "app.example.com") = Normal "production" /\
  getCurrentEnvironment DEFAULT_CONFIG (page "localhost") = Normal "development" /\
  getCurrentEnvironment DEFAULT_CONFIG (page "") = Normal "development".
Proof.
  pose proof (fun hn => concrete_hostnames DEFAULT_CONFIG (page hn)
                          eq_refl eq_refl eq_refl eq_refl eq_refl eq_refl) as H.
  refine (conj _ (conj _ (conj _ (conj _ _)))).
  - exact (proj1 (H "staging.example.com") eq_refl).
  - exact (proj1 (proj2 (H "my-test-site.io")) eq_refl).
  - exact (proj1 (proj2 (proj2 (H "app.example.com"))) eq_refl).
  - exact (proj1 (proj2 (proj2 (proj2 (H "localhost")))) eq_refl).
  - exact (proj2 (proj2 (proj2 (proj2 (H "")))) eq_refl).
Defined.

(** C4: a forced environment is returned whatever the host and whatever
    the auto-detect toggle. *)
Theorem forced_environment (cfg : Config) (h : Host) (e : Environment) :
  forceEnv cfg = Some e ->
  getCurrentEnvironment cfg h = Normal (env_name e).
Proof.
  intros Hf. unfold getCurrentEnvironment. rewrite Hf. cbn.
  now rewrite env_name_truthy.
Qed.

Lemma forced_environment_witness :
  getCurrentEnvironment
    (object_assign DEFAULT_CONFIG
       (mkPartial None None None None None None None None None None
          (Some (Some false)) (Some (Some staging)) None None))
    (mkHost false false false false None None None)
  = Normal "staging".
Proof.
  apply (forced_environment _ _ staging). reflexivity.
Defined.

(** *** Variables *)

Lemma valid_truthy (s : string) :
  isValidEnvironmentString s = true -> truthy_string s = true.
Proof. intros H. destruct (valid_is_env_name s H) as [e ->]. apply env_name_truthy. Qed.

Lemma recognized_test (s : string) :
  truthy_string s && isValidEnvironmentString s = isValidEnvironmentString s.
Proof.
  destruct (isValidEnvironmentString s) eqn:E.
  - now rewrite valid_truthy.
  - apply andb_false_r.
Qed.

Lemma scanCustomEnv_first (env : gmap string string) (vars : list string) (value : string) :
  scanCustomEnv env vars = Some value -> first_recognized env vars value.
Proof.
  induction vars as [|envVar rest IH]; cbn; [discriminate|].
  destruct (env !! envVar) as [x|] eqn:Hx.
  - rewrite recognized_test. destruct (isValidEnvironmentString x) eqn:Hv.
    + intros [= ->]. exists [], envVar, rest. repeat split; auto.
      intros v y [].
    + intros H. destruct (IH H) as (before & v & after & -> & Hl & Hval & Hbefore).
      exists (envVar :: before), v, after. repeat split; auto.
      intros v' y [<-|Hin] Hy; [congruence|eauto].
  - intros H. destruct (IH H) as (before & v & after & -> & Hl & Hval & Hbefore).
    exists (envVar :: before), v, after. repeat split; auto.
    intros v' y [<-|Hin] Hy; [congruence|eauto].
Qed.

Lemma scanCustomEnv_none (env : gmap string string) (vars : list string) :
  (forall k v, env !! k = Some v -> isValidEnvironmentString v = false) ->
  scanCustomEnv env vars = None.
Proof.
  intros H. induction vars as [|envVar rest IH]; cbn; [reflexivity|].
  destruct (env !! envVar) as [x|] eqn:Hx; [|exact IH].
  now rewrite recognized_test, (H _ _ Hx).
Qed.

(** An unrecognized value does not stop the loop. *)
Lemma scanCustomEnv_skip (env : gmap string string) (envVar value : string)
    (rest : list string) :
  env !! envVar = Some value ->
  isValidEnvironmentString value = false ->
  scanCustomEnv env (envVar :: rest) = scanCustomEnv env rest.
Proof. intros Hl Hv. cbn. now rewrite Hl, recognized_test, Hv. Qed.

Lemma scan_opt_cons (o : option (gmap string string)) (v : string) (rest : list string) :
  scan_opt o (v :: rest) =
    match read_var o v with
    | Some value => if isValidEnvironmentString value then Some value else scan_opt o rest
    | None => scan_opt o rest
    end.
Proof.
  destruct o as [env|]; cbn; [|reflexivity].
  destruct (env !! v) as [x|]; [|reflexivity].
  now rewrite recognized_test.
Qed.

Lemma scan_opt_ext (o1 o2 : option (gmap string string)) (vars : list string) :
  (forall v, In v vars -> read_var o1 v = read_var o2 v) ->
  scan_opt o1 vars = scan_opt o2 vars.
Proof.
  induction vars as [|v rest IH]; intros H.
  - destruct o1, o2; reflexivity.
  - rewrite !scan_opt_cons, (H v (or_introl eq_refl)), IH; [reflexivity|].
    intros v' Hin. apply H. now right.
Qed.

Lemma getCustomEnv_scan (h : Host) :
  getCustomEnv h =
    match scan_opt (import_meta_env h) customEnvVars with
    | Some value => value
    | None => default "" (scan_opt (process_env h) customEnvVars)
    end.
Proof. unfold getCustomEnv, scan_opt. repeat case_match; reflexivity. Qed.

Lemma same_var_forall (h1 h2 : Host) (pick : Host -> option (gmap string string))
    (vars : list string) :
  forallb (same_var h1 h2 pick) vars = true ->
  forall v, In v vars -> read_var (pick h1) v = read_var (pick h2) v.
Proof.
  intros H v Hin. rewrite forallb_forall in H.
  specialize (H v Hin). unfold same_var in H. now apply bool_decide_eq_true in H.
Qed.

Lemma getCustomEnv_ext (h1 h2 : Host) :
  same_custom_vars h1 h2 = true -> getCustomEnv h1 = getCustomEnv h2.
Proof.
  unfold same_custom_vars. rewrite andb_true_iff. intros [Hm Hp].
  rewrite !getCustomEnv_scan.
  rewrite (scan_opt_ext (import_meta_env h1) (import_meta_env h2)),
          (scan_opt_ext (process_env h1) (process_env h2));
    [reflexivity| |]; now apply same_var_forall.
Qed.

Lemma getNodeEnv_reads (h : Host) :
  getNodeEnv h =
    node_from (read_var (import_meta_env h) "NODE_ENV")
              (read_var (import_meta_env h) "VITE_NODE_ENV")
              (read_var (process_env h) "NODE_ENV").
Proof.
  unfold getNodeEnv, node_from, read_var.
  destruct (import_meta_env h) as [m|], (process_env h) as [p|];
    cbn [mbind option_bind js_or truthy];
    try destruct (js_or (m !! "NODE_ENV") (m !! "VITE_NODE_ENV")) as [v|];
    rewrite ?recognized_test;
    try destruct (isValidEnvironmentString v);
    try destruct (p !! "NODE_ENV") as [n|];
    rewrite ?recognized_test;
    try destruct (isValidEnvironmentString n); reflexivity.
Qed.

Lemma getNodeEnv_ext (h1 h2 : Host) :
  same_node_vars h1 h2 = true -> getNodeEnv h1 = getNodeEnv h2.
Proof.
  unfold same_node_vars, same_var. rewrite !andb_true_iff.
  intros [[H1 H2] H3]. apply bool_decide_eq_true in H1, H2, H3.
  rewrite !getNodeEnv_reads, H1, H2, H3. reflexivity.
Qed.

Lemma getCustomEnv_match (h : Host) :
  getCustomEnv h <> "" -> custom_match h (getCustomEnv h).
Proof.
  unfold getCustomEnv, custom_match.
  destruct (import_meta_env h) as [m|]; cbn [mbind option_bind].
  - destruct (scanCustomEnv m customEnvVars) as [v|] eqn:Hm.
    + intros _. left. exists m. split; [reflexivity|]. apply scanCustomEnv_first, Hm.
    + destruct (process_env h) as [p|]; cbn [mbind option_bind]; [|congruence].
      destruct (scanCustomEnv p customEnvVars) as [v|] eqn:Hp; [|congruence].
      intros _. right. split; [intros env [= <-]; exact Hm|].
      exists p. split; [reflexivity|]. apply scanCustomEnv_first, Hp.
  - destruct (process_env h) as [p|]; cbn [mbind option_bind]; [|congruence].
    destruct (scanCustomEnv p customEnvVars) as [v|] eqn:Hp; [|congruence].
    intros _. right. split; [intros env [=]|].
    exists p. split; [reflexivity|]. apply scanCustomEnv_first, Hp.
Qed.

Lemma truthy_string_true (s : string) : s <> "" -> truthy_string s = true.
Proof.
  intros H. unfold truthy_string. apply negb_true_iff.
  now apply String.eqb_neq.
Qed.

(** The order of the three signals in terms of what [getCustomEnv] and
    [getNodeEnv] return, for two hosts whose variables agree. *)
Lemma priority_of_outputs (cfg : Config) (h h' : Host) :
  forceEnv cfg = None ->
  truthy_bool (autoDetectEnv cfg) = true ->
  window_declared h' = true ->
  navigator_declared h' = true ->
  same_custom_vars h h' = true ->
  (getCustomEnv h <> "" ->
     custom_match h (getCustomEnv h) /\
     getCurrentEnvironment cfg h' = Normal (getCustomEnv h)) /\
  (getCustomEnv h = "" -> same_node_vars h h' = true -> getNodeEnv h <> "" ->
     getCurrentEnvironment cfg h' = Normal (getNodeEnv h)) /\
  (getCustomEnv h = "" -> same_node_vars h h' = true -> getNodeEnv h = "" ->
     getCurrentEnvironment cfg h' = Normal (hostname_rule (hostname_of h'))).
Proof.
  intros Hf Ha Hw Hn Hsame.
  rewrite current_unfold, detect_unfold by assumption.
  rewrite <- (getCustomEnv_ext h h' Hsame).
  split; [|split].
  - intros Hc. split; [now apply getCustomEnv_match|].
    now rewrite truthy_string_true.
  - intros Hc Hnode Hg. rewrite <- (getNodeEnv_ext h h' Hnode), Hc. cbn.
    now rewrite truthy_string_true.
  - intros Hc Hnode Hg. rewrite <- (getNodeEnv_ext h h' Hnode), Hc, Hg. reflexivity.
Qed.

Lemma truthy_string_neq (s : string) : truthy_string s = true -> s <> "".
Proof.
  unfold truthy_string. intros H. apply negb_true_iff in H.
  now apply String.eqb_neq.
Qed.

Lemma scanCustomEnv_finds (env : gmap string string) (vars : list string)
    (value : string) :
  first_recognized env vars value -> scanCustomEnv env vars = Some value.
Proof.
  intros (before & envVar & after & -> & Hl & Hv & Hbefore).
  induction before as [|v before IH]; cbn [app scanCustomEnv].
  - now rewrite Hl, recognized_test, Hv.
  - destruct (env !! v) as [x|] eqn:Hx.
    + rewrite recognized_test, (Hbefore v x (or_introl eq_refl) Hx).
      apply IH. intros v' y Hin. apply Hbefore. now right.
    + apply IH. intros v' y Hin. apply Hbefore. now right.
Qed.

Lemma scanCustomEnv_finds_none (env : gmap string string) (vars : list string) :
  (forall envVar x, In envVar vars -> env !! envVar = Some x ->
                    isValidEnvironmentString x = false) ->
  scanCustomEnv env vars = None.
Proof.
  intros H. induction vars as [|v rest IH]; cbn [scanCustomEnv]; [reflexivity|].
  destruct (env !! v) as [x|] eqn:Hx.
  - rewrite recognized_test, (H v x (or_introl eq_refl) Hx).
    apply IH. intros envVar y Hin. apply H. now right.
  - apply IH. intros envVar y Hin. apply H. now right.
Qed.

Lemma no_custom_value_scan (env : option (gmap string string)) :
  no_custom_value env -> scan_opt env customEnvVars = None.
Proof.
  intros H. destruct env as [m|]; [|reflexivity].
  unfold scan_opt. cbn [mbind option_bind].
  apply scanCustomEnv_finds_none. intros envVar x. now apply (H m).
Qed.

Lemma first_recognized_valid (env : gmap string string) (vars : list string)
    (value : string) :
  first_recognized env vars value -> isValidEnvironmentString value = true.
Proof. intros (? & ? & ? & _ & _ & Hv & _). exact Hv. Qed.

Lemma custom_signal_returned (h : Host) (value : string) :
  custom_signal h value ->
  getCustomEnv h = value /\ isValidEnvironmentString value = true.
Proof.
  rewrite getCustomEnv_scan.
  intros [(m & Hm & Hf)|(Hnone & p & Hp & Hf)].
  - rewrite Hm. cbn [scan_opt mbind option_bind].
    rewrite (scanCustomEnv_finds _ _ _ Hf).
    split; [reflexivity|]. exact (first_recognized_valid _ _ _ Hf).
  - rewrite (no_custom_value_scan _ Hnone), Hp. cbn [scan_opt mbind option_bind].
    rewrite (scanCustomEnv_finds _ _ _ Hf).
    split; [reflexivity|]. exact (first_recognized_valid _ _ _ Hf).
Qed.

Lemma no_custom_signal_returned (h : Host) :
  no_custom_value (import_meta_env h) -> no_custom_value (process_env h) ->
  getCustomEnv h = "".
Proof.
  intros Hm Hp. rewrite getCustomEnv_scan.
  now rewrite (no_custom_value_scan _ Hm), (no_custom_value_scan _ Hp).
Qed.

Lemma vite_candidate_js_or (h : Host) (v : string) :
  vite_candidate h v <->
  js_or (read_var (import_meta_env h) "NODE_ENV")
        (read_var (import_meta_env h) "VITE_NODE_ENV") = Some v.
Proof.
  unfold vite_candidate, js_or, truthy.
  destruct (read_var (import_meta_env h) "NODE_ENV") as [a|].
  - destruct (truthy_string a) eqn:Ha.
    + apply truthy_string_neq in Ha. split.
      * intros [[[= ->] _]|[[[=]|[= ->]] _]]; [reflexivity|congruence].
      * intros [= ->]. left. now split.
    + apply truthy_string_false in Ha. subst a. split.
      * intros [[[= <-] Hne]|[_ Hb]]; [congruence|exact Hb].
      * intros Hb. right. split; [now right|exact Hb].
  - split.
    + intros [[[=] _]|[_ Hb]]. exact Hb.
    + intros Hb. right. split; [now left|exact Hb].
Qed.

Lemma mode_signal_returned (h : Host) (value : string) :
  mode_signal h value -> getNodeEnv h = value.
Proof.
  intros [Hv Hs]. rewrite getNodeEnv_reads. unfold node_from.
  destruct Hs as [Hc|[Hnone Hp]].
  - apply vite_candidate_js_or in Hc. now rewrite Hc, Hv.
  - destruct (js_or (read_var (import_meta_env h) "NODE_ENV")
                    (read_var (import_meta_env h) "VITE_NODE_ENV")) as [v|] eqn:Hj.
    + apply vite_candidate_js_or in Hj. rewrite (Hnone v Hj), Hp, Hv. reflexivity.
    + rewrite Hp, Hv. reflexivity.
Qed.

Lemma no_mode_signal_returned (h : Host) : no_mode_signal h -> getNodeEnv h = "".
Proof.
  intros [Hnone Hp]. rewrite getNodeEnv_reads. unfold node_from.
  destruct (js_or (read_var (import_meta_env h) "NODE_ENV")
                  (read_var (import_meta_env h) "VITE_NODE_ENV")) as [v|] eqn:Hj.
  - apply vite_candidate_js_or in Hj. rewrite (Hnone v Hj).
    destruct (read_var (process_env h) "NODE_ENV") as [n|] eqn:Hn; [|reflexivity].
    now rewrite (Hp n eq_refl).
  - destruct (read_var (process_env h) "NODE_ENV") as [n|] eqn:Hn; [|reflexivity].
    now rewrite (Hp n eq_refl).
Qed.

(** C2: read off the variables of the host.  When a listed custom
    variable holds a recognized name, the first such variable (of
    [import.meta.env], else of [process.env]) gives the result, whatever
    the mode variables and the hostname are.  When no listed custom
    variable holds one and a mode variable does ([import.meta.env]'s
    mode, else [process.env.NODE_ENV]), that value is the result,
    whatever the hostname is.  Only when neither kind of variable holds
    a recognized name does the hostname decide. *)
Theorem detection_priority (cfg : Config) (h : Host) :
  forceEnv cfg = None ->
  truthy_bool (autoDetectEnv cfg) = true ->
  window_declared h = true ->
  navigator_declared h = true ->
  (forall value,
     custom_signal h value ->
     getCurrentEnvironment cfg h = Normal value) /\
  (forall value,
     no_custom_value (import_meta_env h) ->
     no_custom_value (process_env h) ->
     mode_signal h value ->
     getCurrentEnvironment cfg h = Normal value) /\
  (no_custom_value (import_meta_env h) ->
   no_custom_value (process_env h) ->
   no_mode_signal h ->
   getCurrentEnvironment cfg h = Normal (hostname_rule (hostname_of h))).
Proof.
  intros Hf Ha Hw Hn.
  rewrite current_unfold, detect_unfold by assumption.
  split; [|split].
  - intros value Hc. destruct (custom_signal_returned h value Hc) as [-> Hv].
    now rewrite (valid_truthy _ Hv).
  - intros value Hm Hp Hs.
    rewrite (no_custom_signal_returned h Hm Hp). cbn.
    destruct Hs as [Hv Hs']. rewrite (mode_signal_returned h value (conj Hv Hs')).
    now rewrite (valid_truthy _ Hv).
  - intros Hm Hp Hs.
    rewrite (no_custom_signal_returned h Hm Hp), (no_mode_signal_returned h Hs).
    reflexivity.
Qed.

Lemma detection_priority_witness :
  getCurrentEnvironment DEFAULT_CONFIG
    (mkHost true true true true (Some "localhost")
       (Some {[ "VITE_APP_NODE_ENV" := "qa"; "VITE_APP_ENV" := "staging";
                "NODE_ENV" := "production" ]})
       (Some {[ "VITE_APP_NODE_ENV" := "test" ]}))
  = Normal "staging".
Proof.
  apply (proj1 (detection_priority DEFAULT_CONFIG
                  (mkHost true true true true (Some "localhost")
                     (Some {[ "VITE_APP_NODE_ENV" := "qa"; "VITE_APP_ENV" := "staging";
                              "NODE_ENV" := "production" ]})
                     (Some {[ "VITE_APP_NODE_ENV" := "test" ]}))
                  eq_refl eq_refl eq_refl eq_refl)).
  left. eexists. split; [reflexivity|].
  exists ["VITE_APP_NODE_ENV"], "VITE_APP_ENV",
         ["VITE_ENV"; "REACT_APP_NODE_ENV"; "REACT_APP_ENV"; "VUE_APP_NODE_ENV";
          "VUE_APP_ENV"].
  split; [reflexivity|]. split; [reflexivity|]. split; [reflexivity|].
  intros v x [<-|[]] Hx. vm_compute in Hx. injection Hx as <-. reflexivity.
Defined.

Lemma getCustomEnv_valid (h : Host) :
  getCustomEnv h <> "" -> isValidEnvironmentString (getCustomEnv h) = true.
Proof.
  intros H. destruct (getCustomEnv_match h H) as [(env & _ & Hf)|(_ & env & _ & Hf)];
    destruct Hf as (? & ? & ? & _ & _ & Hv & _); exact Hv.
Qed.

Lemma node_from_valid (a b c : option string) :
  node_from a b c <> "" -> isValidEnvironmentString (node_from a b c) = true.
Proof.
  unfold node_from.
  destruct (js_or a b) as [v|]; [destruct (isValidEnvironmentString v) eqn:Hv|];
    try (intros _; exact Hv);
    (destruct c as [n|]; [destruct (isValidEnvironmentString n) eqn:Hn|]);
    try (intros _; exact Hn); congruence.
Qed.

Lemma getNodeEnv_valid (h : Host) :
  getNodeEnv h <> "" -> isValidEnvironmentString (getNodeEnv h) = true.
Proof. rewrite getNodeEnv_reads. apply node_from_valid. Qed.

Lemma hostname_rule_name (hostname : string) :
  exists e, hostname_rule hostname = env_name e.
Proof.
  unfold hostname_rule.
  repeat match goal with |- context [if ?b then _ else _] => destruct b end;
    [exists production|exists staging|exists test|exists development]; reflexivity.
Qed.

Lemma detect_name (h : Host) :
  window_declared h = true -> navigator_declared h = true ->
  exists e, detectEnvironment h = Normal (env_name e).
Proof.
  intros Hw Hn. rewrite detect_unfold by assumption.
  destruct (truthy_string (getCustomEnv h)) eqn:Hc.
  - destruct (valid_is_env_name _ (getCustomEnv_valid h (truthy_string_neq _ Hc))) as [e He].
    exists e. now rewrite He.
  - destruct (truthy_string (getNodeEnv h)) eqn:Hg.
    + destruct (valid_is_env_name _ (getNodeEnv_valid h (truthy_string_neq _ Hg))) as [e He].
      exists e. now rewrite He.
    + destruct (hostname_rule_name (hostname_of h)) as [e He].
      exists e. now rewrite He.
Qed.

Lemma read_var_unrecognized (env : option (gmap string string)) (k v : string) :
  no_recognized_value env -> read_var env k = Some v ->
  isValidEnvironmentString v = false.
Proof.
  intros H. destruct env as [m|]; cbn; [|discriminate].
  intros Hl. exact (H m k v eq_refl Hl).
Qed.

Lemma getCustomEnv_unrecognized (h : Host) :
  no_recognized_value (import_meta_env h) ->
  no_recognized_value (process_env h) ->
  getCustomEnv h = "".
Proof.
  intros Hm Hp. unfold getCustomEnv.
  destruct (import_meta_env h) as [m|]; cbn [mbind option_bind];
    [rewrite (scanCustomEnv_none m) by (intros k v; apply (Hm m k v eq_refl))|];
    (destruct (process_env h) as [p|]; cbn [mbind option_bind];
     [rewrite (scanCustomEnv_none p) by (intros k v; apply (Hp p k v eq_refl))|]);
    reflexivity.
Qed.

Lemma getNodeEnv_unrecognized (h : Host) :
  no_recognized_value (import_meta_env h) ->
  no_recognized_value (process_env h) ->
  getNodeEnv h = "".
Proof.
  intros Hm Hp. rewrite getNodeEnv_reads. unfold node_from, js_or.
  destruct (truthy (read_var (import_meta_env h) "NODE_ENV")).
  - destruct (read_var (import_meta_env h) "NODE_ENV") as [v|] eqn:E.
    + rewrite (read_var_unrecognized _ _ _ Hm E).
      destruct (read_var (process_env h) "NODE_ENV") as [n|] eqn:En; [|reflexivity].
      now rewrite (read_var_unrecognized _ _ _ Hp En).
    + destruct (read_var (process_env h) "NODE_ENV") as [n|] eqn:En; [|reflexivity].
      now rewrite (read_var_unrecognized _ _ _ Hp En).
  - destruct (read_var (import_meta_env h) "VITE_NODE_ENV") as [v|] eqn:E.
    + rewrite (read_var_unrecognized _ _ _ Hm E).
      destruct (read_var (process_env h) "NODE_ENV") as [n|] eqn:En; [|reflexivity].
      now rewrite (read_var_unrecognized _ _ _ Hp En).
    + destruct (read_var (process_env h) "NODE_ENV") as [n|] eqn:En; [|reflexivity].
      now rewrite (read_var_unrecognized _ _ _ Hp En).
Qed.

Lemma current_name (cfg : Config) (h : Host) :
  window_declared h = true -> navigator_declared h = true ->
  exists e, getCurrentEnvironment cfg h = Normal (env_name e).
Proof.
  intros Hw Hn. unfold getCurrentEnvironment.
  destruct (forceEnv cfg) as [e|]; cbn.
  - rewrite env_name_truthy. now exists e.
  - destruct (truthy_bool (autoDetectEnv cfg)); cbn.
    + now apply detect_name.
    + now exists development.
Qed.

(** C10: on a page, whatever the configuration, the variables and the
    hostname hold, [getCurrentEnvironment] completes normally with one of
    the four environment names; variables holding other values are
    passed over, so that a page whose variables hold only such values
    resolves as the same page without variables. *)
Theorem getCurrentEnvironment_total (cfg : Config) (h : Host) :
  window_declared h = true ->
  navigator_declared h = true ->
  (exists e, getCurrentEnvironment cfg h = Normal (env_name e)) /\
  (no_recognized_value (import_meta_env h) ->
   no_recognized_value (process_env h) ->
   getCurrentEnvironment cfg h = getCurrentEnvironment cfg (without_env h)).
Proof.
  intros Hw Hn. split.
  - now apply current_name.
  - intros Hm Hp. unfold getCurrentEnvironment.
    destruct (truthy (env_name <$> forceEnv cfg)); [reflexivity|].
    destruct (negb (truthy_bool (autoDetectEnv cfg))); [reflexivity|].
    rewrite !detect_unfold by assumption.
    rewrite getCustomEnv_unrecognized, getNodeEnv_unrecognized by assumption.
    reflexivity.
Qed.

Lemma getCurrentEnvironment_total_witness :
  exists e,
    getCurrentEnvironment DEFAULT_CONFIG
      (mkHost true true true true (Some "my host!")
         (Some {[ "VITE_APP_ENV" := "prod"; "NODE_ENV" := "Production" ]})
         (Some {[ "REACT_APP_ENV" := "qa" ]}))
    = Normal (env_name e).
Proof.
  exact (proj1 (getCurrentEnvironment_total DEFAULT_CONFIG
                  (mkHost true true true true (Some "my host!")
                     (Some {[ "VITE_APP_ENV" := "prod"; "NODE_ENV" := "Production" ]})
                     (Some {[ "REACT_APP_ENV" := "qa" ]}))
                  eq_refl eq_refl)).
Defined.

(** ** The lifecycle *)

(** *** Worlds that show the same page *)

Lemma same_page_refl (w : World) : same_page w w.
Proof. repeat split. Qed.

Lemma same_page_trans (w1 w2 w3 : World) :
  same_page w1 w2 -> same_page w2 w3 -> same_page w1 w3.
Proof.
  intros (A1 & A2 & A3 & A4 & A5 & A6) (B1 & B2 & B3 & B4 & B5 & B6).
  repeat split; try congruence.
  all: intros x; now rewrite B6, A6.
Qed.

Lemma is_indicator_mutate (r : ref) (f : Element -> Element) (w : World) (x : ref) :
  (forall e, el_id (f e) = el_id e) ->
  is_indicator (mutate r f w) x = is_indicator w x.
Proof.
  intros Hf. unfold is_indicator, mutate. cbn.
  rewrite lookup_alter. case_decide as Hd; [subst x|reflexivity].
  destruct (elements w !! r) as [e|]; cbn; [now rewrite Hf|reflexivity].
Qed.

Lemma same_page_mutate (r : ref) (f : Element -> Element) (w : World) :
  (forall e, el_id (f e) = el_id e) -> same_page w (mutate r f w).
Proof.
  intros Hf. repeat split. intros x. now apply is_indicator_mutate.
Qed.

Lemma same_page_set_eventListeners (l : list Registration) (w : World) :
  same_page w (set_eventListeners l w).
Proof. repeat split. Qed.

Lemma assign_style_id (props : list (string * option string)) (e : Element) :
  el_id (assign_style props e) = el_id e.
Proof.
  unfold assign_style. revert e.
  induction props as [|kv rest IH]; intros e; cbn; [reflexivity|].
  now rewrite IH.
Qed.

Lemma same_page_children (w w' : World) : same_page w w' -> children w' = children w.
Proof. intros (_ & _ & _ & Hb & _). unfold children. now rewrite Hb. Qed.

Lemma same_page_indicators (w w' : World) : same_page w w' -> indicators w' = indicators w.
Proof.
  intros H. unfold indicators. rewrite (same_page_children _ _ H).
  apply filter_ext. intros x. apply H.
Qed.

Lemma forallb_pointwise {A : Type} (f g : A -> bool) (l : list A) :
  (forall x, f x = g x) -> forallb f l = forallb g l.
Proof.
  intros H. induction l as [|a l IH]; cbn; [reflexivity|]. now rewrite H, IH.
Qed.

Lemma same_page_ok (w w' : World) : same_page w w' -> page_ok w' = page_ok w.
Proof.
  intros H. pose proof (same_page_children _ _ H) as Hc.
  destruct H as (_ & Hf & Hn & _ & _ & Hi).
  unfold page_ok, owns_indicators, allocated, distinct_children.
  rewrite Hc, Hf, Hn. f_equal. f_equal.
  apply forallb_pointwise. intros x. now rewrite Hi.
Qed.

(** *** Teardown *)

Lemma removeEventListeners_fold (l : list Registration) (w : World) :
  same_page w
    (fold_left
       (fun acc r => mutate (reg_element r) (removeEventListener (reg_event r) (reg_handler r)) acc)
       l w).
Proof.
  revert w. induction l as [|r rest IH]; intros w; cbn; [apply same_page_refl|].
  eapply same_page_trans; [|apply IH].
  now apply same_page_mutate.
Qed.

Lemma removeEventListeners_same_page (w : World) :
  same_page w (removeEventListeners w).
Proof.
  unfold removeEventListeners.
  eapply same_page_trans; [apply removeEventListeners_fold|].
  apply same_page_set_eventListeners.
Qed.

Lemma removeEventListeners_empty (w : World) :
  eventListeners (removeEventListeners w) = [].
Proof. reflexivity. Qed.

Lemma removeFlagElement_registry (h : Host) (w : World) :
  eventListeners (snd (removeFlagElement h w)) = eventListeners w.
Proof.
  unfold removeFlagElement.
  destruct (flagElement w); [|reflexivity].
  destruct (negb (document_declared h)); [reflexivity|].
  destruct (body w) as [kids|]; [|reflexivity].
  destruct (contains kids r); reflexivity.
Qed.

Lemma destroy_unfold (h : Host) (w : World) :
  destroy h w = removeFlagElement h (removeEventListeners w).
Proof. reflexivity. Qed.

(** After [destroy] the listener registry is empty, however the call
    completes. *)
Lemma destroy_registry_empty (h : Host) (w : World) :
  eventListeners (snd (destroy h w)) = [].
Proof. rewrite destroy_unfold, removeFlagElement_registry. reflexivity. Qed.

Lemma contains_In (kids : list ref) (r : ref) : contains kids r = true <-> In r kids.
Proof.
  unfold contains. rewrite existsb_exists. split.
  - intros (x & Hin & Heq). apply Nat.eqb_eq in Heq. now subst.
  - intros Hin. exists r. split; [assumption|apply Nat.eqb_refl].
Qed.

Lemma removeChild_In (r x : ref) (kids : list ref) :
  In x (removeChild r kids) <-> In x kids /\ x <> r.
Proof.
  unfold removeChild. rewrite filter_In, negb_true_iff, Nat.eqb_neq. reflexivity.
Qed.

Lemma removeChild_NoDup (r : ref) (kids : list ref) :
  NoDup kids -> NoDup (removeChild r kids).
Proof.
  rewrite !NoDup_ListNoDup. intros H. unfold removeChild. now apply List.NoDup_filter.
Qed.

Lemma owns_spec (w : World) :
  owns_indicators w = true <->
  forall x, In x (children w) -> is_indicator w x = true -> flagElement w = Some x.
Proof.
  unfold owns_indicators. rewrite forallb_forall. split.
  - intros H x Hin Hi. specialize (H x Hin). rewrite Hi in H. cbn in H.
    now apply bool_decide_eq_true in H.
  - intros H x Hin. destruct (is_indicator w x) eqn:Hi; [|reflexivity].
    cbn. apply bool_decide_eq_true. now apply H.
Qed.

Lemma allocated_spec (w : World) :
  allocated w = true <->
  (forall x, In x (children w) -> x < next_ref w) /\
  (forall r, flagElement w = Some r -> r < next_ref w).
Proof.
  unfold allocated. rewrite andb_true_iff, forallb_forall. split.
  - intros [H1 H2]. split.
    + intros x Hin. apply Nat.ltb_lt. now apply H1.
    + intros r Hr. rewrite Hr in H2. now apply Nat.ltb_lt.
  - intros [H1 H2]. split.
    + intros x Hin. apply Nat.ltb_lt. now apply H1.
    + destruct (flagElement w) as [r|]; [|reflexivity].
      apply Nat.ltb_lt. now apply H2.
Qed.

Lemma distinct_spec (w : World) :
  distinct_children w = true <-> NoDup (children w).
Proof. unfold distinct_children. apply bool_decide_eq_true. Qed.

Lemma page_ok_spec (w : World) :
  page_ok w = true <->
  (forall x, In x (children w) -> is_indicator w x = true -> flagElement w = Some x) /\
  ((forall x, In x (children w) -> x < next_ref w) /\
   (forall r, flagElement w = Some r -> r < next_ref w)) /\
  NoDup (children w).
Proof.
  unfold page_ok. rewrite !andb_true_iff, owns_spec, allocated_spec, distinct_spec.
  tauto.
Qed.

Lemma indicators_nil (w : World) :
  indicators w = [] <-> forall x, In x (children w) -> is_indicator w x = false.
Proof.
  unfold indicators. split.
  - intros H x Hin. destruct (is_indicator w x) eqn:Hi; [|reflexivity].
    assert (In x (List.filter (is_indicator w) (children w))) as Hx
      by (apply filter_In; auto).
    rewrite H in Hx. destruct Hx.
  - intros H. induction (children w) as [|a l IH]; [reflexivity|].
    cbn. rewrite (H a (or_introl eq_refl)). apply IH.
    intros x Hin. apply H. now right.
Qed.

Lemma filter_none {A : Type} (f : A -> bool) (l : list A) :
  (forall x, In x l -> f x = false) -> List.filter f l = [].
Proof.
  intros H. induction l as [|a l IH]; [reflexivity|].
  cbn. rewrite (H a (or_introl eq_refl)). apply IH.
  intros x Hin. apply H. now right.
Qed.

Lemma removeFlagElement_ok (h : Host) (w : World) :
  page_ok w = true -> page_ok (snd (removeFlagElement h w)) = true.
Proof.
  intros Hok. unfold removeFlagElement.
  destruct (flagElement w) as [r|] eqn:Hf; [|exact Hok].
  destruct (negb (document_declared h)); [exact Hok|].
  destruct (body w) as [kids|] eqn:Hb; [|exact Hok].
  destruct (contains kids r) eqn:Hc; [|exact Hok].
  cbn [snd ret]. apply page_ok_spec in Hok. apply page_ok_spec.
  destruct Hok as (Hown & (Hkids & Hflag) & Hnd).
  unfold children in *. rewrite Hb in *. cbn in *.
  split; [|split; [split|]].
  - intros x Hin Hi. apply removeChild_In in Hin as [Hin Hne].
    specialize (Hown x Hin Hi). congruence.
  - intros x Hin. apply removeChild_In in Hin as [Hin _]. now apply Hkids.
  - intros r' [=].
  - now apply removeChild_NoDup.
Qed.

Lemma removeFlagElement_cleared (h : Host) (w : World) :
  document_declared h = true -> page_ok w = true ->
  fst (removeFlagElement h w) = Normal tt /\
  indicators (snd (removeFlagElement h w)) = [].
Proof.
  intros Hd Hok. unfold removeFlagElement. rewrite Hd. cbn [negb].
  apply page_ok_spec in Hok. destruct Hok as (Hown & _ & _).
  destruct (flagElement w) as [r|] eqn:Hf.
  - destruct (body w) as [kids|] eqn:Hb.
    + destruct (contains kids r) eqn:Hc; (split; [reflexivity|]); cbn [snd ret].
      * apply filter_none. unfold children. cbn. intros x Hin.
        apply removeChild_In in Hin as [Hin Hne].
        destruct (is_indicator w x) eqn:Hi; [|exact Hi].
        unfold children in Hown. rewrite Hb in Hown.
        specialize (Hown x Hin Hi). congruence.
      * apply filter_none. intros x Hin.
        destruct (is_indicator w x) eqn:Hi; [|reflexivity].
        specialize (Hown x Hin Hi). assert (x = r) as -> by congruence.
        unfold children in Hin. rewrite Hb in Hin. cbn in Hin.
        apply contains_In in Hin. congruence.
    + split; [reflexivity|]. cbn [snd ret]. unfold indicators, children.
      rewrite Hb. reflexivity.
  - split; [reflexivity|]. cbn [snd ret]. apply filter_none. intros x Hin.
    destruct (is_indicator w x) eqn:Hi; [|reflexivity].
    specialize (Hown x Hin Hi). congruence.
Qed.

Lemma removeFlagElement_stable (h : Host) (w : World) :
  config (snd (removeFlagElement h w)) = config w /\
  next_ref (snd (removeFlagElement h w)) = next_ref w /\
  frames (snd (removeFlagElement h w)) = frames w /\
  defined (body (snd (removeFlagElement h w))) = defined (body w) /\
  forall x, is_indicator (snd (removeFlagElement h w)) x = is_indicator w x.
Proof.
  unfold removeFlagElement.
  destruct (flagElement w) as [r|]; [|now repeat split].
  destruct (negb (document_declared h)); [now repeat split|].
  destruct (body w) as [kids|] eqn:Hb; [|cbn [snd ret]; rewrite Hb; now repeat split].
  destruct (contains kids r); cbn [snd ret]; [|rewrite Hb]; now repeat split.
Qed.

Lemma destroy_ok (h : Host) (w : World) :
  page_ok w = true -> page_ok (snd (destroy h w)) = true.
Proof.
  intros Hok. rewrite destroy_unfold. apply removeFlagElement_ok.
  now rewrite (same_page_ok _ _ (removeEventListeners_same_page w)).
Qed.

Lemma destroy_cleared (h : Host) (w : World) :
  document_declared h = true -> page_ok w = true ->
  fst (destroy h w) = Normal tt /\ indicators (snd (destroy h w)) = [].
Proof.
  intros Hd Hok. rewrite destroy_unfold. apply removeFlagElement_cleared; [assumption|].
  now rewrite (same_page_ok _ _ (removeEventListeners_same_page w)).
Qed.

Lemma destroy_stable (h : Host) (w : World) :
  config (snd (destroy h w)) = config w /\
  next_ref (snd (destroy h w)) = next_ref w /\
  frames (snd (destroy h w)) = frames w /\
  defined (body (snd (destroy h w))) = defined (body w) /\
  forall x, is_indicator (snd (destroy h w)) x = is_indicator w x.
Proof.
  rewrite destroy_unfold.
  destruct (removeFlagElement_stable h (removeEventListeners w)) as (A & B & C & D & E).
  destruct (removeEventListeners_same_page w) as (A' & _ & B' & D' & C' & E').
  rewrite A, B, C, D, A', B', C', D'. repeat split.
  intros x. now rewrite E, E'.
Qed.

(** *** Creation *)

Lemma applyStyles_same_page (environment : string) (w : World) :
  same_page w (snd (applyStyles environment w)).
Proof.
  unfold applyStyles.
  destruct (flagElement w) as [r|]; [|apply same_page_refl].
  destruct (getEnvironmentStyles (config w) environment); [|apply same_page_refl].
  destruct (getSizeStyles (config w)); [|apply same_page_refl].
  cbn [snd ret].
  eapply same_page_trans; apply same_page_mutate; [|reflexivity].
  intros e. apply assign_style_id.
Qed.

Lemma applyStyles_normal (environment : string) (w : World) :
  defined (size (config w)) = true ->
  fst (applyStyles environment w) = Normal tt.
Proof.
  intros Hs. unfold applyStyles, getEnvironmentStyles, getSizeStyles.
  destruct (flagElement w) as [r|]; [|reflexivity].
  destruct (size (config w)) as [[]|]; try discriminate; reflexivity.
Qed.

Lemma same_page_push (l : Registration) (w : World) : same_page w (push l w).
Proof. apply same_page_set_eventListeners. Qed.

Lemma attachEventListeners_same_page (w : World) :
  same_page w (attachEventListeners w).
Proof.
  unfold attachEventListeners.
  destruct (flagElement w) as [r|]; [|apply same_page_refl].
  repeat first
    [ apply same_page_push
    | apply same_page_mutate; reflexivity
    | eapply same_page_trans; [|first [apply same_page_push
                                      | apply same_page_mutate; reflexivity]] ].
Qed.

Lemma created_same_page (w w1 w2 : World) :
  created w w1 -> same_page w1 w2 -> created w w2.
Proof.
  intros (A1 & A2 & A3 & A4 & A5) (B1 & B2 & B3 & B4 & _ & B6).
  repeat split; try congruence. all: intros x; now rewrite B6, A5.
Qed.

Lemma created_set_frames (w w' : World) (n : nat) :
  created w w' -> created w (set_frames n w').
Proof. intros H. exact H. Qed.

Lemma createElement_created (w : World) (environment : string) :
  let r := next_ref w in
  created w
    (mutate r (setAttribute "aria-label" ("Environment: " ++ environment))
       (mutate r (setAttribute "role" "status")
          (mutate r (setAttribute "data-env" environment)
             (mutate r (set_id ELEMENT_ID)
                (set_flagElement (Some r) (snd (createElement "div" w))))))).
Proof.
  intros r. repeat split.
  intros x. rewrite !is_indicator_mutate by reflexivity.
  unfold is_indicator, mutate, set_flagElement, createElement. cbn.
  rewrite lookup_alter. case_decide as Hd.
  - subst x. rewrite lookup_insert_eq. cbn. unfold r. now rewrite Nat.eqb_refl.
  - rewrite lookup_insert_ne by assumption.
    replace (Nat.eqb x (next_ref w)) with false; [reflexivity|].
    symmetry. apply Nat.eqb_neq. unfold r in Hd. congruence.
Qed.

Lemma browser_spec (h : Host) :
  browser h = true ->
  window_declared h = true /\ document_declared h = true /\
  navigator_declared h = true /\ requestAnimationFrame_declared h = true.
Proof. unfold browser. rewrite !andb_true_iff. tauto. Qed.

Lemma getCurrentEnvironment_normal (cfg : Config) (h : Host) :
  window_declared h = true -> navigator_declared h = true ->
  exists environment, getCurrentEnvironment cfg h = Normal environment.
Proof.
  intros Hw Hn.
  destruct (current_name cfg h Hw Hn) as [e He]. eauto.
Qed.

(** The tail of [createFlag], from [applyStyles] on. *)
Lemma createFlag_tail (h : Host) (environment : string) (w0 w : World) :
  created w0 w ->
  let res := andThen (applyStyles environment)
               (andThen (fun w' => ret (attachEventListeners w'))
                  (requestAnimationFrame h)) w in
  created w0 (snd res) /\
  ((fst res = Normal tt /\ frames (snd res) = S (frames w)) \/
   ((exists e, fst res = Throw e) /\ frames (snd res) = frames w)) /\
  (requestAnimationFrame_declared h = true -> defined (size (config w)) = true ->
   fst res = Normal tt).
Proof.
  intros Hc res. subst res. unfold andThen.
  pose proof (applyStyles_same_page environment w) as Hs.
  pose proof (applyStyles_normal environment w) as Hn.
  destruct (applyStyles environment w) as [[[]|e] w1]; cbn [fst snd] in *.
  - pose proof (attachEventListeners_same_page w1) as Ha.
    pose proof (same_page_trans _ _ _ Hs Ha) as Hsa.
    unfold ret, requestAnimationFrame.
    destruct (requestAnimationFrame_declared h); cbn [fst snd ret].
    + split; [|split].
      * apply created_set_frames. eapply created_same_page; eassumption.
      * left. split; [reflexivity|]. cbn. f_equal. apply Hsa.
      * reflexivity.
    + split; [|split].
      * eapply created_same_page; eassumption.
      * right. split; [eauto|]. apply Hsa.
      * discriminate.
  - split; [|split].
    + eapply created_same_page; eassumption.
    + right. split; [eauto|]. apply Hs.
    + intros _ Hsz. specialize (Hn Hsz). discriminate.
Qed.

Lemma createFlag_cases (h : Host) (w : World) :
  (snd (createFlag h w) = w /\ exists e, fst (createFlag h w) = Throw e) \/
  (created w (snd (createFlag h w)) /\
   ((fst (createFlag h w) = Normal tt /\ frames (snd (createFlag h w)) = S (frames w)) \/
    ((exists e, fst (createFlag h w) = Throw e) /\
     frames (snd (createFlag h w)) = frames w))).
Proof.
  unfold createFlag.
  destruct (getCurrentEnvironment (config w) h) as [environment|e]; [|left; eauto].
  destruct (negb (document_declared h)); [left; eauto|].
  right. cbv zeta. cbn [createElement].
  pose proof (createElement_created w environment) as Hc. cbv zeta in Hc. cbn [createElement snd] in Hc.
  destruct (createFlag_tail h environment w _ Hc) as (H1 & H2 & _).
  split; [exact H1|]. exact H2.
Qed.

Lemma createFlag_normal (h : Host) (w : World) :
  browser h = true -> defined (size (config w)) = true ->
  fst (createFlag h w) = Normal tt.
Proof.
  intros Hb Hs. apply browser_spec in Hb as (Hw & Hd & Hn & Hr).
  unfold createFlag.
  destruct (getCurrentEnvironment_normal (config w) h Hw Hn) as [environment ->].
  rewrite Hd. cbn [negb]. cbv zeta. cbn [createElement].
  pose proof (createElement_created w environment) as Hc. cbv zeta in Hc. cbn [createElement snd] in Hc.
  destruct (createFlag_tail h environment w _ Hc) as (_ & _ & H3).
  apply H3; [assumption|]. exact Hs.
Qed.

Lemma created_ok (w w' : World) :
  page_ok w = true -> indicators w = [] -> created w w' ->
  page_ok w' = true /\ indicators w' = [] /\ is_indicator w' (next_ref w) = true.
Proof.
  intros Hok Hnil (Hcfg & Hflag & Hnext & Hbody & Hind).
  apply page_ok_spec in Hok. destruct Hok as (Hown & (Hkids & Hfl) & Hnd).
  assert (children w' = children w) as Hch by (unfold children; now rewrite Hbody).
  assert (forall x, In x (children w) -> is_indicator w' x = false) as Hno.
  { intros x Hin. rewrite Hind.
    rewrite (proj1 (indicators_nil w) Hnil x Hin), orb_false_r.
    apply Nat.eqb_neq. specialize (Hkids x Hin). lia. }
  split; [|split].
  - apply page_ok_spec. rewrite Hch, Hflag, Hnext. split; [|split; [split|]].
    + intros x Hin Hi. rewrite (Hno x Hin) in Hi. discriminate.
    + intros x Hin. specialize (Hkids x Hin). lia.
    + intros r [= <-]. lia.
    + exact Hnd.
  - apply indicators_nil. now rewrite Hch.
  - now rewrite Hind, Nat.eqb_refl.
Qed.

(** *** Initialisation *)

Lemma init_unfold (h : Host) (w : World) :
  isValidEnvironment h = true -> truthy_bool (enabled (config w)) = true ->
  init h w = andThen (destroy h) (createFlag h) w.
Proof. intros Hv He. unfold init. now rewrite Hv, He. Qed.

Lemma isValidEnvironment_document (h : Host) :
  isValidEnvironment h = true -> document_declared h = true.
Proof. unfold isValidEnvironment. rewrite andb_true_iff. tauto. Qed.

Lemma init_ok (h : Host) (w : World) :
  page_ok w = true -> page_ok (snd (init h w)) = true.
Proof.
  intros Hok. unfold init.
  destruct (isValidEnvironment h) eqn:Hv; [|exact Hok].
  destruct (truthy_bool (enabled (config w))); [|exact Hok].
  cbn [negb]. unfold andThen.
  destruct (destroy_cleared h w (isValidEnvironment_document h Hv) Hok) as [Hn Hc].
  pose proof (destroy_ok h w Hok) as Hd.
  destruct (destroy h w) as [c wd]. cbn [fst snd] in *. subst c.
  destruct (createFlag_cases h wd) as [[-> _]|[Hcr _]]; [exact Hd|].
  now destruct (created_ok _ _ Hd Hc Hcr).
Qed.

(** A successful [init] in a page with a body leaves a fresh indicator
    as the current element, outside the document, with its insertion
    scheduled. *)
Lemma init_shown (h : Host) (w : World) :
  browser h = true ->
  truthy_bool (enabled (config w)) = true ->
  defined (size (config w)) = true ->
  defined (body w) = true ->
  page_ok w = true ->
  fst (init h w) = Normal tt /\
  exists r, shown (snd (init h w)) r /\ indicators (snd (init h w)) = [] /\
            0 < frames (snd (init h w)) /\ config (snd (init h w)) = config w.
Proof.
  intros Hb He Hs Hbody Hok.
  pose proof (browser_spec h Hb) as (Hw & Hd & Hn & Hr).
  rewrite init_unfold by (assumption || (unfold isValidEnvironment; now rewrite Hw, Hd)).
  unfold andThen.
  destruct (destroy_cleared h w Hd Hok) as [Hnd Hc].
  pose proof (destroy_ok h w Hok) as Hdok.
  destruct (destroy_stable h w) as (Scfg & _ & _ & Sbody & _).
  destruct (destroy h w) as [c wd]. cbn [fst snd] in *. subst c.
  assert (defined (size (config wd)) = true) as Hs' by now rewrite Scfg.
  pose proof (createFlag_normal h wd Hb Hs') as Hnormal.
  split; [exact Hnormal|].
  destruct (createFlag_cases h wd) as [[_ [e He']]|[Hcr [[_ Hfr]|[[e He'] _]]]];
    try congruence.
  destruct (created_ok _ _ Hdok Hc Hcr) as (Hok' & Hnil & Hind).
  exists (next_ref wd). split; [|split; [|split]].
  - destruct Hcr as (_ & Hflag & _ & Hb' & _).
    repeat split; try assumption. now rewrite Hb', Sbody.
  - exact Hnil.
  - lia.
  - destruct Hcr as (Hcfg & _). congruence.
Qed.

(** *** Animation frames *)

Lemma appendChild_In (r x : ref) (kids : list ref) :
  In x (appendChild r kids) <-> (In x kids /\ x <> r) \/ x = r.
Proof.
  unfold appendChild. rewrite in_app_iff, removeChild_In. cbn. intuition.
Qed.

Lemma appendChild_NoDup (r : ref) (kids : list ref) :
  NoDup kids -> NoDup (appendChild r kids).
Proof.
  intros H. unfold appendChild. apply NoDup_app. split; [|split].
  - now apply removeChild_NoDup.
  - intros x Hin Hx. apply list_elem_of_In in Hin. apply removeChild_In in Hin as [_ Hne].
    apply list_elem_of_In in Hx. cbn in Hx. intuition.
  - apply NoDup_singleton.
Qed.

Lemma insertFlag_ok (w : World) : page_ok w = true -> page_ok (insertFlag w) = true.
Proof.
  intros Hok. unfold insertFlag.
  destruct (flagElement w) as [r|] eqn:Hf; [|exact Hok].
  destruct (body w) as [kids|] eqn:Hb; [|exact Hok].
  apply page_ok_spec in Hok. apply page_ok_spec.
  destruct Hok as (Hown & (Hkids & Hflag) & Hnd).
  unfold children in *. rewrite Hb in Hown, Hkids, Hnd. cbn [default from_option id] in *.
  change (flagElement (set_body (Some (appendChild r kids)) w)) with (flagElement w).
  change (next_ref (set_body (Some (appendChild r kids)) w)) with (next_ref w).
  change (body (set_body (Some (appendChild r kids)) w)) with (Some (appendChild r kids)).
  cbn [default from_option id].
  split; [|split; [split|]].
  - intros x Hin Hi. apply appendChild_In in Hin as [[Hin _]| ->]; [|exact Hf].
    now apply Hown.
  - intros x Hin. apply appendChild_In in Hin as [[Hin _]| ->]; [now apply Hkids|].
    now apply Hflag.
  - exact Hflag.
  - now apply appendChild_NoDup.
Qed.

Lemma frame_ok (w : World) : page_ok w = true -> page_ok (frame w) = true.
Proof.
  intros Hok. unfold frame. destruct (frames w); [exact Hok|].
  now apply insertFlag_ok.
Qed.

Lemma insertFlag_shown (w : World) (r : ref) :
  shown w r -> shown (insertFlag w) r /\ indicators (insertFlag w) = [r].
Proof.
  intros (Hf & Hi & Hb & Hok).
  pose proof (insertFlag_ok w Hok) as Hok'.
  unfold insertFlag in *. rewrite Hf in *.
  destruct (body w) as [kids|] eqn:Hbody; [|discriminate].
  split; [repeat split; assumption|].
  apply page_ok_spec in Hok. destruct Hok as (Hown & _ & _).
  unfold children in Hown. rewrite Hbody in Hown. cbn [default from_option id] in Hown.
  unfold indicators, children.
  change (body (set_body (Some (appendChild r kids)) w)) with (Some (appendChild r kids)).
  cbn [default from_option id]. unfold appendChild.
  rewrite List.filter_app.
  change (is_indicator (set_body (Some (removeChild r kids ++ [r])%list) w))
    with (is_indicator w).
  rewrite filter_none.
  - cbn. now rewrite Hi.
  - intros x Hin. apply removeChild_In in Hin as [Hin Hne].
    destruct (is_indicator w x) eqn:Hx; [|reflexivity].
    specialize (Hown x Hin Hx). congruence.
Qed.

Lemma shown_set_frames (w : World) (r : ref) (n : nat) :
  shown w r -> shown (set_frames n w) r.
Proof. intros H. exact H. Qed.

Lemma frame_shown (w : World) (r : ref) :
  shown w r ->
  shown (frame w) r /\
  (indicators w = [r] \/ 0 < frames w -> indicators (frame w) = [r]).
Proof.
  intros Hs. unfold frame. destruct (frames w) as [|n].
  - split; [exact Hs|]. intros [H|H]; [exact H|lia].
  - destruct (insertFlag_shown _ r (shown_set_frames w r n Hs)) as [H1 H2].
    split; [exact H1|]. intros _. exact H2.
Qed.

Lemma run_frames_shown (n : nat) (w : World) (r : ref) :
  shown w r ->
  shown (run_frames n w) r /\
  (indicators w = [r] \/ (0 < n /\ 0 < frames w) -> indicators (run_frames n w) = [r]).
Proof.
  revert w. induction n as [|n IH]; intros w Hs; cbn.
  - split; [exact Hs|]. intros [H|[H _]]; [exact H|lia].
  - destruct (frame_shown w r Hs) as [Hs' Hone].
    destruct (IH (frame w) Hs') as [H1 H2].
    split; [exact H1|]. intros H. apply H2. left. apply Hone.
    destruct H as [H|[_ H]]; auto.
Qed.

Lemma run_frames_ok (n : nat) (w : World) :
  page_ok w = true -> page_ok (run_frames n w) = true.
Proof.
  revert w. induction n as [|n IH]; intros w Hok; cbn; [exact Hok|].
  apply IH. now apply frame_ok.
Qed.

Lemma frame_stable (w : World) :
  config (frame w) = config w /\ defined (body (frame w)) = defined (body w).
Proof.
  unfold frame. destruct (frames w); [now split|].
  unfold insertFlag.
  change (flagElement (set_frames n w)) with (flagElement w).
  change (body (set_frames n w)) with (body w).
  destruct (flagElement w); [|now split].
  destruct (body w) eqn:Hb; cbn; [|rewrite Hb]; now split.
Qed.

Lemma run_frames_stable (n : nat) (w : World) :
  config (run_frames n w) = config w /\
  defined (body (run_frames n w)) = defined (body w).
Proof.
  revert w. induction n as [|n IH]; intros w; cbn; [now split|].
  destruct (IH (frame w)) as [A B]. destruct (frame_stable w) as [C D].
  split; congruence.
Qed.

(** *** The invariant along any history *)

Lemma handler_ok (w : World) (r : ref) (k : string) (v : option string) :
  page_ok (mutate r (set_style k v) w) = page_ok w.
Proof. apply same_page_ok. now apply same_page_mutate. Qed.

Lemma step_ok (h : Host) (w : World) (ev : Event) :
  page_ok w = true -> page_ok (step h w ev) = true.
Proof.
  intros Hok. destruct ev; cbn [step].
  - now apply init_ok.
  - now apply destroy_ok.
  - unfold updateConfig. now apply init_ok.
  - now apply frame_ok.
  - now apply destroy_ok.
  - unfold handleKeydown.
    destruct (String.eqb key "Enter" || String.eqb key " "); [now apply destroy_ok|exact Hok].
  - unfold handleMouseEnter. destruct (flagElement w); [|exact Hok].
    now rewrite !handler_ok.
  - unfold handleMouseLeave. destruct (flagElement w); [|exact Hok].
    now rewrite !handler_ok.
Qed.

Lemma run_ok (h : Host) (evs : list Event) (w : World) :
  page_ok w = true -> page_ok (run h evs w) = true.
Proof.
  unfold run. revert w. induction evs as [|ev evs IH]; intros w Hok; cbn; [exact Hok|].
  apply IH. now apply step_ok.
Qed.

Lemma page_ok_at_most_one (w : World) :
  page_ok w = true -> length (indicators w) <= 1.
Proof.
  intros Hok. apply page_ok_spec in Hok. destruct Hok as (Hown & _ & Hnd).
  unfold indicators.
  assert (forall x, In x (List.filter (is_indicator w) (children w)) ->
                    flagElement w = Some x) as Hall.
  { intros x Hin. apply filter_In in Hin as [Hin Hi]. now apply Hown. }
  assert (NoDup (List.filter (is_indicator w) (children w))) as Hnd'.
  { apply NoDup_ListNoDup. apply List.NoDup_filter. now apply NoDup_ListNoDup. }
  destruct (List.filter (is_indicator w) (children w)) as [|a [|b l]]; cbn; try lia.
  pose proof (Hall a (or_introl eq_refl)) as Ha.
  pose proof (Hall b (or_intror (or_introl eq_refl))) as Hb.
  assert (a = b) as -> by congruence.
  apply NoDup_cons in Hnd' as [Hnotin _]. exfalso. apply Hnotin. left.
Qed.

(** A new component is in a good state in any page that holds no
    indicator element yet. *)
Lemma constructor_ok (cfg : EnvFlagConfig) (store : gmap ref Element) (next : ref)
    (kids : list ref) :
  NoDup kids ->
  (forall x, In x kids -> x < next) ->
  (forall x e, In x kids -> store !! x = Some e -> el_id e <> ELEMENT_ID) ->
  page_ok (constructor cfg store next (Some kids)) = true /\
  indicators (constructor cfg store next (Some kids)) = [].
Proof.
  intros Hnd Hlt Hid.
  assert (forall x, In x kids ->
            is_indicator (constructor cfg store next (Some kids)) x = false) as Hno.
  { intros x Hin. unfold is_indicator, constructor. cbn.
    destruct (store !! x) as [e|] eqn:He; [|reflexivity].
    apply String.eqb_neq. now apply (Hid x e). }
  split.
  - apply page_ok_spec. unfold children, constructor. cbn.
    split; [|split; [split|]]; try assumption.
    + intros x Hin Hi. unfold constructor in Hno. rewrite (Hno x Hin) in Hi. discriminate.
    + intros r [=].
  - apply indicators_nil. exact Hno.
Qed.

(** Along any history of a component created in a page without
    indicator, the document holds at most one indicator element. *)
Lemma history_at_most_one (h : Host) (cfg : EnvFlagConfig) (store : gmap ref Element)
    (next : ref) (kids : list ref) (evs : list Event) :
  NoDup kids ->
  (forall x, In x kids -> x < next) ->
  (forall x e, In x kids -> store !! x = Some e -> el_id e <> ELEMENT_ID) ->
  length (indicators (run h evs (constructor cfg store next (Some kids)))) <= 1.
Proof.
  intros Hnd Hlt Hid. apply page_ok_at_most_one, run_ok.
  now apply constructor_ok.
Qed.

(** C5: whatever happened to the component before, and whether or not
    the insertion scheduled by the first [init] has run, two calls of
    [init] never put two indicator elements in the document: at most one
    is there after any history, and in a browser, with the component
    enabled and configured, exactly one is there once the scheduled
    insertions have run. *)
Theorem init_twice_one_indicator (h : Host) (w : World) :
  page_ok w = true ->
  (forall evs, length (indicators (run h evs w)) <= 1) /\
  (forall k,
     length (indicators (snd (init h (run_frames k (snd (init h w)))))) <= 1) /\
  (browser h = true ->
   truthy_bool (enabled (config w)) = true ->
   defined (size (config w)) = true ->
   defined (body w) = true ->
   forall k,
     let w2 := snd (init h (run_frames k (snd (init h w)))) in
     fst (init h w) = Normal tt /\
     fst (init h (run_frames k (snd (init h w)))) = Normal tt /\
     length (indicators (flush w2)) = 1 /\
     forall n, length (indicators (run_frames n (flush w2))) = 1).
Proof.
  intros Hok. split; [|split].
  - intros evs. apply page_ok_at_most_one. now apply run_ok.
  - intros k. apply page_ok_at_most_one, init_ok, run_frames_ok, init_ok, Hok.
  - intros Hb He Hs Hbody k w2.
    destruct (init_shown h w Hb He Hs Hbody Hok) as (Hn1 & r1 & Hsh1 & _ & _ & Hcfg1).
    set (w1 := run_frames k (snd (init h w))) in *.
    destruct (run_frames_stable k (snd (init h w))) as [Hcfg Hbd].
    destruct (run_frames_shown k _ r1 Hsh1) as [(_ & _ & Hb1 & Hok1) _].
    fold w1 in Hcfg, Hbd, Hb1, Hok1.
    assert (truthy_bool (enabled (config w1)) = true) as He1 by (rewrite Hcfg, Hcfg1; exact He).
    assert (defined (size (config w1)) = true) as Hs1 by (rewrite Hcfg, Hcfg1; exact Hs).
    destruct (init_shown h w1 Hb He1 Hs1 Hb1 Hok1) as (Hn2 & r2 & Hsh2 & _ & Hfr & _).
    fold w2 in Hsh2, Hfr.
    split; [exact Hn1|]. split; [exact Hn2|].
    destruct (run_frames_shown (frames w2) w2 r2 Hsh2) as [Hsh3 Hone].
    assert (indicators (flush w2) = [r2]) as Hflush.
    { unfold flush. apply Hone. right. split; assumption. }
    split; [now rewrite Hflush|].
    intros n. destruct (run_frames_shown n (flush w2) r2 Hsh3) as [_ Hone'].
    rewrite Hone'; [reflexivity|]. now left.
Qed.

Lemma init_twice_one_indicator_witness :
  let h := page "localhost" in
  let w := snd (init h (constructor empty_config ∅ 0 (Some []))) in
  length (indicators (flush (snd (init h (run_frames 0 (snd (init h w))))))) = 1.
Proof.
  intros h w.
  assert (page_ok w = true) as Hok by (vm_compute; reflexivity).
  refine (proj1 (proj2 (proj2
    (proj2 (proj2 (init_twice_one_indicator h w Hok)) _ _ _ _ 0)))).
  all: vm_compute; reflexivity.
Defined.

(** *** [init] followed by [destroy] *)

Lemma frames_frame (w : World) : frames (frame w) = pred (frames w).
Proof.
  unfold frame. destruct (frames w) as [|n] eqn:Hn; [now rewrite Hn|].
  unfold insertFlag.
  change (flagElement (set_frames n w)) with (flagElement w).
  change (body (set_frames n w)) with (body w).
  destruct (flagElement w); [|reflexivity].
  destruct (body w); reflexivity.
Qed.

Lemma frames_run_frames (n : nat) (w : World) :
  frames (run_frames n w) = frames w - n.
Proof.
  revert w. induction n as [|n IH]; intros w; cbn; [lia|].
  rewrite IH, frames_frame. lia.
Qed.

Lemma run_frames_idle (n : nat) (w : World) : frames w = 0 -> run_frames n w = w.
Proof.
  intros H. induction n as [|n IH]; cbn; [reflexivity|].
  unfold frame. now rewrite H.
Qed.

(** When the scheduled insertions have run before [destroy] is called,
    [destroy] leaves no indicator in the document, an empty registry,
    and nothing scheduled. *)
Lemma destroy_after_frames (h : Host) (w : World) :
  document_declared h = true -> page_ok w = true ->
  let w' := snd (destroy h (flush w)) in
  eventListeners w' = [] /\
  forall n, indicators (run_frames n w') = [].
Proof.
  intros Hd Hok w'. split; [apply destroy_registry_empty|].
  intros n. subst w'.
  assert (page_ok (flush w) = true) as Hok' by now apply run_frames_ok.
  destruct (destroy_cleared h (flush w) Hd Hok') as [_ Hc].
  destruct (destroy_stable h (flush w)) as (_ & _ & Hf & _).
  rewrite run_frames_idle; [exact Hc|].
  rewrite Hf. unfold flush. rewrite frames_run_frames. lia.
Qed.

(** C6 (the class departs from it): when [destroy] is called before the
    insertion scheduled by [init] has run, the registry is emptied but
    the component keeps its element, and the animation frame then puts
    that element, stripped of its listeners, in the document. *)
Theorem destroy_before_frame_leaves_indicator :
  let h := page "localhost" in
  let w := constructor empty_config ∅ 0 (Some []) in
  let w1 := snd (init h w) in
  let w2 := snd (destroy h w1) in
  let w3 := frame w2 in
  page_ok w = true /\
  fst (init h w) = Normal tt /\
  fst (destroy h w1) = Normal tt /\
  indicators w2 = [] /\ eventListeners w2 = [] /\
  flagElement w2 = Some 0 /\ frames w2 = 1 /\
  indicators w3 = [0] /\ eventListeners w3 = [] /\ flag_listeners w3 = [].
Proof. vm_compute. repeat split. Qed.

(** *** A disabled component *)

(** C7 (as amended): when [enabled] is false, [init] does nothing: it
    completes normally and leaves the component and the page as they
    were, so that a document without indicator and without scheduled
    insertion stays without indicator. *)
Theorem init_disabled_noop (h : Host) (w : World) :
  truthy_bool (enabled (config w)) = false ->
  init h w = (Normal tt, w) /\
  (indicators w = [] -> frames w = 0 ->
   forall n, indicators (run_frames n (snd (init h w))) = []).
Proof.
  intros He.
  assert (init h w = (Normal tt, w)) as Hinit.
  { unfold init. rewrite He. now destruct (negb (isValidEnvironment h)). }
  split; [exact Hinit|].
  intros Hnil Hfr n. rewrite Hinit. cbn [snd]. now rewrite run_frames_idle.
Qed.

Lemma init_disabled_noop_witness :
  let p := mkPartial None None None None None None None None None None
             None None (Some (Some false)) None in
  let w := constructor p ∅ 0 (Some []) in
  init (page "app.example.com") w = (Normal tt, w).
Proof.
  intros p w.
  exact (proj1 (init_disabled_noop (page "app.example.com") w eq_refl)).
Defined.

(** An indicator that is in the document when the component is disabled
    is still there after [init]. *)
Lemma init_disabled_counterexample :
  let h := page "app.example.com" in
  let off := mkPartial None None None None None None None None None None
               None None (Some (Some false)) None in
  let w0 := constructor empty_config ∅ 0 (Some []) in
  let w := snd (updateConfig h off (flush (snd (init h w0)))) in
  truthy_bool (enabled (config w)) = false /\
  getCurrentEnvironment (config w) h = Normal "production" /\
  indicators w = [0] /\
  indicators (snd (init h w)) = [0] /\
  indicators (snd (init h w)) <> [].
Proof. vm_compute. repeat split. discriminate. Qed.

(** *** Exceptions *)

(** C8 (the class departs from it): [init] has no handler of its own, so
    an exception raised while the indicator is built reaches the caller.
    In a host that declares [window], [document] and [navigator] but no
    [requestAnimationFrame], [init] throws after the element has been
    created and its four listeners registered; with a [size] that is
    [undefined] it throws once the element has been created, and when an
    insertion is still scheduled from an earlier [init], the next
    animation frame puts that element, without style, text or listener,
    in the document. *)
Theorem init_propagates_exception :
  let w := constructor empty_config ∅ 0 (Some []) in
  let h := mkHost true true true false (Some "localhost") None None in
  let unsized := mkPartial None None None None None None None None None
                   (Some None) None None None None in
  (fst (init h w) = Throw (ReferenceError "requestAnimationFrame") /\
   flagElement (snd (init h w)) = Some 0 /\
   length (eventListeners (snd (init h w))) = 4 /\
   length (flag_listeners (snd (init h w))) = 4 /\
   frames (snd (init h w)) = 0 /\
   indicators (flush (snd (init h w))) = []) /\
  (fst (init (page "localhost") (constructor unsized ∅ 0 (Some [])))
     = Throw (TypeError "fontSize") /\
   flagElement (snd (init (page "localhost") (constructor unsized ∅ 0 (Some []))))
     = Some 0) /\
  (let r := updateConfig (page "localhost") unsized (snd (init (page "localhost") w)) in
   fst r = Throw (TypeError "fontSize") /\
   flagElement (snd r) = Some 1 /\
   indicators (flush (snd r)) = [1] /\
   el_style <$> elements (flush (snd r)) !! 1 = Some ∅ /\
   el_textContent <$> elements (flush (snd r)) !! 1 = Some None /\
   flag_listeners (flush (snd r)) = []).
Proof. vm_compute. repeat split. Qed.

(** The packaged class catches: its [init] and [destroy] complete
    normally in every host and state. *)
Lemma Published_never_throws (h : Host) (w : World) :
  fst (Published.init h w) = Normal tt /\ fst (Published.destroy h w) = Normal tt.
Proof. split; reflexivity. Qed.

(** The packaged class too can leave a half-built indicator: the
    exception from an [undefined] size is caught, and the insertion
    scheduled by the earlier [init] puts the new element, without style,
    text or listener, in the document. *)
Lemma Published_half_built_indicator :
  let w := Published.constructor empty_config ∅ 0 (Some []) in
  let unsized := mkPartial None None None None None None None None None
                   (Some None) None None None None in
  let r := Published.updateConfig (page "localhost") unsized
             (snd (Published.init (page "localhost") w)) in
  fst r = Normal tt /\
  indicators (flush (snd r)) = [1] /\
  el_style <$> elements (flush (snd r)) !! 1 = Some ∅ /\
  el_textContent <$> elements (flush (snd r)) !! 1 = Some None /\
  flag_listeners (flush (snd r)) = [].
Proof. vm_compute. repeat split. Qed.

(** The packaged class differs from the class above on two of the five
    hostnames of the specification. *)
Lemma Published_hostnames :
  Published.getCurrentEnvironment Published.DEFAULT_CONFIG (page "staging.example.com")
    = Normal "staging" /\
  Published.getCurrentEnvironment Published.DEFAULT_CONFIG (page "my-test-site.io")
    = Normal "production" /\
  Published.getCurrentEnvironment Published.DEFAULT_CONFIG (page "app.example.com")
    = Normal "production" /\
  Published.getCurrentEnvironment Published.DEFAULT_CONFIG (page "localhost")
    = Normal "development" /\
  Published.getCurrentEnvironment Published.DEFAULT_CONFIG (page "")
    = Normal "production".
Proof. repeat split. Qed.

(** *** Configuration *)

Lemma init_config (h : Host) (w : World) : config (snd (init h w)) = config w.
Proof.
  unfold init.
  destruct (negb (isValidEnvironment h)); [reflexivity|].
  destruct (negb (truthy_bool (enabled (config w)))); [reflexivity|].
  unfold andThen.
  destruct (destroy_stable h w) as (Hc & _).
  destruct (destroy h w) as [[[]|e] wd]; cbn [snd] in *; [|exact Hc].
  destruct (createFlag_cases h wd) as [[-> _]|[(Hcfg & _) _]]; congruence.
Qed.

Lemma assign_prop_defined {A : Type} (old : option A) (source : option (option A)) :
  defined old = true -> names_value source = true ->
  defined (assign_prop old source) = true.
Proof. destruct source as [[v|]|]; cbn; auto; discriminate. Qed.

Lemma object_assign_merged (c : Config) (p : EnvFlagConfig) :
  merged c p (object_assign c p).
Proof.
  destruct p; unfold merged, object_assign, merged_prop; cbn.
  repeat split;
    match goal with |- match ?s with _ => _ end => destruct s; reflexivity end.
Qed.

Lemma object_assign_resolved (c : Config) (p : EnvFlagConfig) :
  resolved c = true -> names_values p = true -> resolved (object_assign c p) = true.
Proof.
  unfold resolved, names_values, object_assign. cbn.
  rewrite !andb_true_iff.
  intros H1 H2. repeat split; apply assign_prop_defined; tauto.
Qed.




(** * Further properties of the class *)

(** ** The resolver's errors and variables *)

(** X1: [getCurrentEnvironment] throws exactly when detection is
    reached (no override, auto-detect on) in a host that does not declare
    [window] or [navigator]; the error names [window] first. *)
Theorem getCurrentEnvironment_throws_iff (cfg : Config) (h : Host) (e : Exn) :
  getCurrentEnvironment cfg h = Throw e <->
  forceEnv cfg = None /\ truthy_bool (autoDetectEnv cfg) = true /\
  ((window_declared h = false /\ e = ReferenceError "window") \/
   (window_declared h = true /\ navigator_declared h = false /\
    e = ReferenceError "navigator")).
Proof.
  unfold getCurrentEnvironment.
  destruct (forceEnv cfg) as [f|]; cbn.
  - rewrite env_name_truthy. split; [discriminate|]. intros ([=] & _).
  - destruct (truthy_bool (autoDetectEnv cfg)); cbn.
    + destruct (window_declared h) eqn:Hw.
      * destruct (navigator_declared h) eqn:Hn.
        -- rewrite detect_unfold by assumption. split; [discriminate|].
           intros (_ & _ & [[[=] _]|(_ & [=] & _)]).
        -- unfold detectEnvironment. rewrite Hw, Hn. cbn. split.
           ++ intros [= <-]. auto 10.
           ++ intros (_ & _ & [[[=] _]|(_ & _ & ->)]). reflexivity.
      * unfold detectEnvironment. rewrite Hw. cbn. split.
        -- intros [= <-]. auto 10.
        -- intros (_ & _ & [[_ ->]|([=] & _)]). reflexivity.
    + split; [discriminate|]. intros (_ & [=] & _).
Qed.

(** X2: a non-empty [NODE_ENV] of [import.meta.env] hides
    [VITE_NODE_ENV]: it is returned when it is a recognized name, and
    otherwise the result is [process.env.NODE_ENV] when that is
    recognized and the empty string when it is not. *)
Theorem vite_node_env_hidden (h : Host) (v : string) :
  read_var (import_meta_env h) "NODE_ENV" = Some v ->
  v <> "" ->
  getNodeEnv h =
    if isValidEnvironmentString v then v
    else match read_var (process_env h) "NODE_ENV" with
         | Some n => if isValidEnvironmentString n then n else ""
         | None => ""
         end.
Proof.
  intros Hv Hne. rewrite getNodeEnv_reads, Hv. unfold node_from, js_or.
  cbn [truthy]. rewrite (truthy_string_true v Hne). reflexivity.
Qed.

Lemma vite_node_env_hidden_witness :
  getNodeEnv (mkHost true true true true (Some "localhost")
                (Some {[ "NODE_ENV" := "prod"; "VITE_NODE_ENV" := "production" ]})
                None) = "".
Proof.
  exact (vite_node_env_hidden
           (mkHost true true true true (Some "localhost")
              (Some {[ "NODE_ENV" := "prod"; "VITE_NODE_ENV" := "production" ]})
              None) "prod" eq_refl ltac:(discriminate)).
Defined.

Lemma scanCustomEnv_value (env : gmap string string) (vars : list string) (value : string) :
  scanCustomEnv env vars = Some value ->
  isValidEnvironmentString value = true /\
  exists envVar, In envVar vars /\ env !! envVar = Some value.
Proof.
  intros H. destruct (scanCustomEnv_first env vars value H)
    as (before & envVar & after & -> & Hl & Hv & _).
  split; [exact Hv|]. exists envVar. split; [|exact Hl].
  apply in_or_app. right. now left.
Qed.

Lemma scanCustomEnv_none_iff (env : gmap string string) (vars : list string) :
  scanCustomEnv env vars = None <->
  forall envVar x, In envVar vars -> env !! envVar = Some x ->
                   isValidEnvironmentString x = false.
Proof.
  induction vars as [|v rest IH]; cbn [scanCustomEnv].
  - split; [intros _ envVar x []|reflexivity].
  - destruct (env !! v) as [y|] eqn:Hy.
    + rewrite recognized_test. destruct (isValidEnvironmentString y) eqn:Hval.
      * split; [discriminate|]. intros H.
        specialize (H v y (or_introl eq_refl) Hy). congruence.
      * rewrite IH. split.
        -- intros H envVar x [<-|Hin] Hx; [congruence|eauto].
        -- intros H envVar x Hin Hx. apply (H envVar x); [now right|exact Hx].
    + rewrite IH. split.
      * intros H envVar x [<-|Hin] Hx; [congruence|eauto].
      * intros H envVar x Hin Hx. apply (H envVar x); [now right|exact Hx].
Qed.

(** X3: [getCustomEnv] returns the empty string exactly when none of
    the seven listed variables holds a recognized name, in
    [import.meta.env] or in [process.env]; what it returns otherwise is
    a recognized name held by a listed variable. *)
Theorem getCustomEnv_empty_iff (h : Host) :
  (getCustomEnv h = "" <->
   forall env envVar x,
     import_meta_env h = Some env \/ process_env h = Some env ->
     In envVar customEnvVars -> env !! envVar = Some x ->
     isValidEnvironmentString x = false) /\
  (getCustomEnv h <> "" ->
   isValidEnvironmentString (getCustomEnv h) = true /\
   exists env envVar,
     (import_meta_env h = Some env \/ process_env h = Some env) /\
     In envVar customEnvVars /\ env !! envVar = Some (getCustomEnv h)).
Proof.
  split.
  - unfold getCustomEnv.
    destruct (import_meta_env h) as [m|]; cbn [mbind option_bind].
    + destruct (scanCustomEnv m customEnvVars) as [v|] eqn:Hm.
      * destruct (scanCustomEnv_value _ _ _ Hm) as (Hv & envVar & Hin & Hl).
        split.
        -- intros ->. discriminate.
        -- intros H. specialize (H m envVar v (or_introl eq_refl) Hin Hl). congruence.
      * pose proof (proj1 (scanCustomEnv_none_iff _ _) Hm) as Hnone.
        destruct (process_env h) as [p|]; cbn [mbind option_bind].
        -- destruct (scanCustomEnv p customEnvVars) as [v|] eqn:Hp.
           ++ destruct (scanCustomEnv_value _ _ _ Hp) as (Hv & envVar & Hin & Hl).
              split.
              ** intros ->. discriminate.
              ** intros H. specialize (H p envVar v (or_intror eq_refl) Hin Hl). congruence.
           ++ pose proof (proj1 (scanCustomEnv_none_iff _ _) Hp) as Hnone'.
              split; [|reflexivity].
              intros _ env envVar x [[= <-]|[= <-]]; eauto.
        -- split; [|reflexivity].
           intros _ env envVar x [[= <-]|[=]]; eauto.
    + destruct (process_env h) as [p|]; cbn [mbind option_bind].
      * destruct (scanCustomEnv p customEnvVars) as [v|] eqn:Hp.
        -- destruct (scanCustomEnv_value _ _ _ Hp) as (Hv & envVar & Hin & Hl).
           split.
           ++ intros ->. discriminate.
           ++ intros H. specialize (H p envVar v (or_intror eq_refl) Hin Hl). congruence.
        -- pose proof (proj1 (scanCustomEnv_none_iff _ _) Hp) as Hnone'.
           split; [|reflexivity].
           intros _ env envVar x [[=]|[= <-]]; eauto.
      * split; [|reflexivity]. intros _ env envVar x [[=]|[=]].
  - intros Hne. split; [now apply getCustomEnv_valid|].
    destruct (getCustomEnv_match h Hne) as [(env & He & Hf)|(_ & env & He & Hf)];
      destruct Hf as (before & envVar & after & Hvars & Hl & _);
      exists env, envVar; (split; [auto|]); (split; [|exact Hl]);
      rewrite Hvars; apply in_or_app; right; now left.
Qed.

(** ** What [init] builds *)

Lemma destroy_normal (h : Host) (w : World) :
  document_declared h = true -> fst (destroy h w) = Normal tt.
Proof.
  intros Hd. rewrite destroy_unfold. unfold removeFlagElement. rewrite Hd. cbn [negb].
  destruct (flagElement (removeEventListeners w)); [|reflexivity].
  destruct (body (removeEventListeners w)) as [kids|]; [|reflexivity].
  destruct (contains kids r); reflexivity.
Qed.

Lemma current_mutate (r : ref) (f : Element -> Element) (w : World) :
  flagElement w = Some r -> current (mutate r f w) = f <$> current w.
Proof.
  intros Hf. unfold current, mutate. cbn [flagElement elements set_elements].
  rewrite Hf. cbn [mbind option_bind]. apply lookup_alter_eq.
Qed.

Lemma current_set_eventListeners (l : list Registration) (w : World) :
  current (set_eventListeners l w) = current w.
Proof. reflexivity. Qed.

Lemma registry_mutate (r : ref) (f : Element -> Element) (w : World) :
  eventListeners (mutate r f w) = eventListeners w.
Proof. reflexivity. Qed.

Lemma applyStyles_registry (environment : string) (w : World) :
  eventListeners (snd (applyStyles environment w)) = eventListeners w.
Proof.
  unfold applyStyles.
  destruct (flagElement w); [|reflexivity].
  destruct (getEnvironmentStyles (config w) environment); [|reflexivity].
  destruct (getSizeStyles (config w)); reflexivity.
Qed.

Lemma attachEventListeners_registry (w : World) (r : ref) :
  flagElement w = Some r ->
  eventListeners (attachEventListeners w) = (eventListeners w ++ flag_registrations r)%list.
Proof.
  intros Hf. unfold attachEventListeners. rewrite Hf.
  unfold push. cbn [eventListeners set_eventListeners mutate set_elements].
  rewrite <- !app_assoc. reflexivity.
Qed.

Lemma attachEventListeners_current (w : World) (r : ref) :
  flagElement w = Some r ->
  current (attachEventListeners w) =
    (fun e => setAttribute "tabindex" "0"
                (addEventListener "keydown" bound_handleKeydown
                   (addEventListener "mouseleave" bound_handleMouseLeave
                      (addEventListener "mouseenter" bound_handleMouseEnter
                         (addEventListener "click" bound_handleClick e))))) <$> current w.
Proof.
  intros Hf. unfold attachEventListeners. rewrite Hf. unfold push.
  rewrite current_set_eventListeners.
  rewrite !current_mutate by exact Hf.
  repeat (rewrite ?current_set_eventListeners; rewrite ?current_mutate by exact Hf).
  destruct (current w); reflexivity.
Qed.

Lemma assign_style_frame (props : list (string * option string)) (e : Element) :
  el_tag (assign_style props e) = el_tag e /\
  el_attributes (assign_style props e) = el_attributes e /\
  el_textContent (assign_style props e) = el_textContent e /\
  el_listeners (assign_style props e) = el_listeners e.
Proof.
  unfold assign_style. revert e.
  induction props as [|kv rest IH]; intros e; cbn [fold_left]; [now repeat split|].
  destruct (IH (set_style (fst kv) (snd kv) e)) as (A & B & C & D).
  rewrite A, B, C, D. now repeat split.
Qed.

Lemma assign_style_lookup (props : list (string * option string)) (e : Element) (k : string) :
  el_style (assign_style props e) !! k =
    match last_assigned k props with
    | Some v => Some v
    | None => el_style e !! k
    end.
Proof.
  unfold assign_style. revert e.
  induction props as [|kv rest IH]; intros e; cbn [fold_left last_assigned]; [reflexivity|].
  rewrite IH. destruct (last_assigned k rest); [reflexivity|].
  cbn [set_style el_style]. destruct (String.eqb (fst kv) k) eqn:Hk.
  - apply String.eqb_eq in Hk. subst k. apply lookup_insert_eq.
  - apply String.eqb_neq in Hk. now apply lookup_insert_ne.
Qed.

(** What [applyStyles] does to the current element. *)
Lemma applyStyles_current (environment : string) (w : World) (r : ref) (e : Element)
    (sz : SizeStyles) :
  flagElement w = Some r -> current w = Some e -> getSizeStyles (config w) = Some sz ->
  exists e',
    current (snd (applyStyles environment w)) = Some e' /\
    el_tag e' = el_tag e /\ el_id e' = el_id e /\
    el_attributes e' = el_attributes e /\ el_listeners e' = el_listeners e /\
    el_textContent e' = getEnvironmentText (config w) environment /\
    el_style e' !! "backgroundColor"
      = Some (by_environment environment (productionColor (config w))
                (developmentColor (config w)) (stagingColor (config w))
                (testColor (config w))) /\
    el_style e' !! "color" = Some (Some "#ffffff") /\
    el_style e' !! "fontSize" = Some (Some (fontSize sz)) /\
    el_style e' !! "padding" = Some (Some (padding sz)) /\
    el_style e' !! "position" = Some (Some "fixed") /\
    el_style e' !! "zIndex" = Some (Some Z_INDEX) /\
    el_style e' !! "borderRadius" = Some (getPositionStyles (config w)) /\
    el_style e' !! "opacity" = Some (Some "0.9") /\
    (forall k v, In (k, v) (getPositionCoordinates (config w)) ->
                 el_style e' !! k = Some v).
Proof.
  intros Hf Hc Hs. unfold applyStyles, getEnvironmentStyles. rewrite Hf, Hs.
  cbn [snd ret st_backgroundColor st_color st_opacity].
  rewrite !current_mutate by exact Hf. rewrite Hc. cbn [fmap option_fmap option_map].
  eexists. split; [reflexivity|].
  cbn [set_textContent el_tag el_id el_attributes el_listeners el_textContent el_style].
  rewrite assign_style_id.
  match goal with |- context [assign_style ?p e] =>
    destruct (assign_style_frame p e) as (A & B & _ & D); rewrite A, B, D;
    clear A B D end.
  rewrite !assign_style_lookup.
  unfold getPositionStyles, getPositionCoordinates.
  destruct (position (config w)) as [[]|];
    repeat (split; [reflexivity|]);
    intros k v Hin; cbn in Hin;
    repeat (destruct Hin as [H|Hin];
            [injection H as <- <-; rewrite assign_style_lookup; reflexivity|]);
    destruct Hin.
Qed.

Lemma getSizeStyles_defined (cfg : Config) (sz : SizeStyles) :
  getSizeStyles cfg = Some sz -> defined (size cfg) = true.
Proof. unfold getSizeStyles. destruct (size cfg) as [[]|]; [reflexivity..|discriminate]. Qed.

Lemma defined_getSizeStyles (cfg : Config) :
  defined (size cfg) = true -> exists sz, getSizeStyles cfg = Some sz.
Proof. unfold getSizeStyles. destruct (size cfg) as [[]|]; [eauto..|discriminate]. Qed.

(** The element [createFlag] leaves as the current one, and the
    registrations it adds. *)
Lemma createFlag_builds (h : Host) (w : World) (environment : string) (sz : SizeStyles) :
  document_declared h = true ->
  requestAnimationFrame_declared h = true ->
  getCurrentEnvironment (config w) h = Normal environment ->
  getSizeStyles (config w) = Some sz ->
  fst (createFlag h w) = Normal tt /\
  flagElement (snd (createFlag h w)) = Some (next_ref w) /\
  eventListeners (snd (createFlag h w))
    = (eventListeners w ++ flag_registrations (next_ref w))%list /\
  exists el,
    current (snd (createFlag h w)) = Some el /\
    el_tag el = "div" /\ el_id el = ELEMENT_ID /\
    el_attributes el !! "data-env" = Some environment /\
    el_attributes el !! "role" = Some "status" /\
    el_attributes el !! "aria-label" = Some ("Environment: " ++ environment) /\
    el_attributes el !! "tabindex" = Some "0" /\
    el_listeners el = flag_handlers /\
    el_textContent el = getEnvironmentText (config w) environment /\
    el_style el !! "backgroundColor"
      = Some (by_environment environment (productionColor (config w))
                (developmentColor (config w)) (stagingColor (config w))
                (testColor (config w))) /\
    el_style el !! "color" = Some (Some "#ffffff") /\
    el_style el !! "fontSize" = Some (Some (fontSize sz)) /\
    el_style el !! "padding" = Some (Some (padding sz)) /\
    el_style el !! "position" = Some (Some "fixed") /\
    el_style el !! "zIndex" = Some (Some Z_INDEX) /\
    el_style el !! "borderRadius" = Some (getPositionStyles (config w)) /\
    el_style el !! "opacity" = Some (Some "0.9") /\
    (forall k v, In (k, v) (getPositionCoordinates (config w)) ->
                 el_style el !! k = Some v).
Proof.
  intros Hd Hr Henv Hs. unfold createFlag. rewrite Henv, Hd. cbn [negb].
  cbv zeta. cbn [createElement].
  match goal with |- context [andThen _ _ ?x] => set (w5 := x) end.
  assert (flagElement w5 = Some (next_ref w)) as Hf by reflexivity.
  assert (config w5 = config w) as Hcfg by reflexivity.
  assert (eventListeners w5 = eventListeners w) as Hreg by reflexivity.
  assert (exists e5, current w5 = Some e5 /\ el_tag e5 = "div" /\ el_id e5 = ELEMENT_ID /\
            el_attributes e5 !! "data-env" = Some environment /\
            el_attributes e5 !! "role" = Some "status" /\
            el_attributes e5 !! "aria-label" = Some ("Environment: " ++ environment) /\
            el_listeners e5 = []) as (e5 & Hcur & Htag & Hid & Ha1 & Ha2 & Ha3 & Hl).
  { subst w5. rewrite !current_mutate by reflexivity.
    unfold current, set_flagElement. cbn [flagElement elements mbind option_bind].
    rewrite lookup_insert_eq. cbn [fmap option_fmap option_map].
    eexists. split; [reflexivity|].
    cbn [setAttribute set_id el_tag el_id el_attributes el_listeners].
    repeat split. }
  clearbody w5.
  rewrite <- Hcfg in Hs.
  destruct (applyStyles_current environment w5 _ e5 sz Hf Hcur Hs)
    as (e6 & Hcur6 & T6 & I6 & A6 & L6 & X6 & S6).
  pose proof (applyStyles_normal environment w5 (getSizeStyles_defined _ _ Hs)) as Hn.
  pose proof (applyStyles_same_page environment w5) as (_ & Hf6 & _).
  pose proof (applyStyles_registry environment w5) as Hreg6.
  unfold andThen.
  destruct (applyStyles environment w5) as [c w6]. cbn [fst snd] in *. subst c.
  rewrite Hf in Hf6.
  unfold ret, requestAnimationFrame. rewrite Hr. cbn [fst snd ret].
  split; [reflexivity|].
  change (flagElement (set_frames (S (frames (attachEventListeners w6)))
                         (attachEventListeners w6)))
    with (flagElement (attachEventListeners w6)).
  change (eventListeners (set_frames (S (frames (attachEventListeners w6)))
                            (attachEventListeners w6)))
    with (eventListeners (attachEventListeners w6)).
  change (current (set_frames (S (frames (attachEventListeners w6)))
                     (attachEventListeners w6)))
    with (current (attachEventListeners w6)).
  split; [|split].
  - destruct (attachEventListeners_same_page w6) as (_ & -> & _). exact Hf6.
  - rewrite (attachEventListeners_registry w6 _ Hf6). congruence.
  - rewrite (attachEventListeners_current w6 _ Hf6), Hcur6.
    cbn [fmap option_fmap option_map]. eexists. split; [reflexivity|].
    cbn [setAttribute addEventListener el_tag el_id el_attributes el_listeners
           el_textContent el_style].
    rewrite T6, I6, A6, L6, Hl, Hcfg in *.
    repeat (split; [first [assumption | reflexivity
                          | rewrite lookup_insert_ne by discriminate; assumption
                          | apply lookup_insert_eq]|]).
    apply S6.
Qed.

Lemma init_builds (h : Host) (w : World) (environment : string) (sz : SizeStyles) :
  browser h = true ->
  truthy_bool (enabled (config w)) = true ->
  getCurrentEnvironment (config w) h = Normal environment ->
  getSizeStyles (config w) = Some sz ->
  fst (init h w) = Normal tt /\
  flagElement (snd (init h w)) = Some (next_ref w) /\
  eventListeners (snd (init h w)) = flag_registrations (next_ref w) /\
  exists el, current (snd (init h w)) = Some el /\ renders (config w) environment sz el.
Proof.
  intros Hb He Henv Hs.
  pose proof (browser_spec h Hb) as (Hw & Hd & Hn & Hr).
  rewrite init_unfold by (assumption || (unfold isValidEnvironment; now rewrite Hw, Hd)).
  unfold andThen.
  pose proof (destroy_normal h w Hd) as Hnormal.
  pose proof (destroy_registry_empty h w) as Hreg.
  destruct (destroy_stable h w) as (Hcfg & Hnext & _).
  destruct (destroy h w) as [c wd]. cbn [fst snd] in *. subst c.
  rewrite <- Hcfg in Henv, Hs.
  destruct (createFlag_builds h wd environment sz Hd Hr Henv Hs)
    as (H1 & H2 & H3 & el & H4 & H5).
  rewrite Hreg in H3. rewrite Hnext in H2, H3. rewrite Hcfg in H5.
  split; [exact H1|]. split; [exact H2|]. split; [exact H3|].
  exists el. split; [exact H4|exact H5].
Qed.

(** X4: in a browser, for an enabled component with a defined size,
    [init] completes normally and leaves as current element a new [div]
    with the fixed identifier, the attributes [data-env], [role],
    [aria-label] and [tabindex], the label and colours of the resolved
    environment, the font size and padding of the configured size, and
    the four listeners, which are exactly the registry. *)
Theorem init_builds_indicator (h : Host) (w : World) (environment : string)
    (sz : SizeStyles) :
  browser h = true ->
  truthy_bool (enabled (config w)) = true ->
  getCurrentEnvironment (config w) h = Normal environment ->
  getSizeStyles (config w) = Some sz ->
  fst (init h w) = Normal tt /\
  flagElement (snd (init h w)) = Some (next_ref w) /\
  eventListeners (snd (init h w)) = flag_registrations (next_ref w) /\
  exists el, current (snd (init h w)) = Some el /\ renders (config w) environment sz el.
Proof. apply init_builds. Qed.

Lemma init_builds_indicator_witness :
  let w := constructor empty_config ∅ 0 (Some []) in
  exists el,
    current (snd (init (page "staging.example.com") w)) = Some el /\
    renders (config w) "staging" (mkSizeStyles "12px" "6px 12px") el.
Proof.
  intros w.
  exact (proj2 (proj2 (proj2
    (init_builds_indicator (page "staging.example.com") w "staging"
       (mkSizeStyles "12px" "6px 12px") eq_refl eq_refl eq_refl eq_refl)))).
Defined.

(** *** Nodes the component does not own *)

Lemma frame_flag (w : World) :
  flagElement (frame w) = flagElement w /\ next_ref (frame w) = next_ref w /\
  elements (frame w) = elements w /\ eventListeners (frame w) = eventListeners w.
Proof.
  unfold frame. destruct (frames w); [now repeat split|].
  unfold insertFlag.
  change (flagElement (set_frames n w)) with (flagElement w).
  change (body (set_frames n w)) with (body w).
  destruct (flagElement w) eqn:Hf; [|cbn; rewrite Hf; now repeat split].
  destruct (body w); cbn; rewrite Hf; now repeat split.
Qed.

Lemma run_frames_flag (n : nat) (w : World) :
  flagElement (run_frames n w) = flagElement w /\
  next_ref (run_frames n w) = next_ref w /\
  elements (run_frames n w) = elements w /\
  eventListeners (run_frames n w) = eventListeners w.
Proof.
  revert w. induction n as [|n IH]; intros w; cbn [run_frames]; [now repeat split|].
  destruct (IH (frame w)) as (A & B & C & D). destruct (frame_flag w) as (A' & B' & C' & D').
  repeat split; congruence.
Qed.

Lemma frame_children (w : World) (x : ref) :
  flagElement w <> Some x ->
  (In x (children (frame w)) <-> In x (children w)).
Proof.
  intros Hx. unfold frame. destruct (frames w); [reflexivity|].
  unfold insertFlag.
  change (flagElement (set_frames n w)) with (flagElement w).
  change (body (set_frames n w)) with (body w).
  destruct (flagElement w) as [r|] eqn:Hf; [|reflexivity].
  unfold children.
  destruct (body w) as [kids|] eqn:Hb; cbn [body set_frames set_body default from_option id].
  - rewrite appendChild_In. split; [intros [[H _]|H]; [exact H|congruence]|].
    intros H. left. split; [exact H|congruence].
  - now rewrite Hb.
Qed.

Lemma run_frames_children (n : nat) (w : World) (x : ref) :
  flagElement w <> Some x ->
  (In x (children (run_frames n w)) <-> In x (children w)).
Proof.
  revert w. induction n as [|n IH]; intros w Hx; cbn [run_frames]; [reflexivity|].
  rewrite IH; [now apply frame_children|].
  destruct (frame_flag w) as (-> & _). exact Hx.
Qed.

Lemma removeFlagElement_children (h : Host) (w : World) (x : ref) :
  flagElement w <> Some x ->
  flagElement (snd (removeFlagElement h w)) <> Some x /\
  (In x (children (snd (removeFlagElement h w))) <-> In x (children w)).
Proof.
  intros Hx. unfold removeFlagElement.
  destruct (flagElement w) as [r|] eqn:Hf; [|cbn [snd ret]; rewrite Hf; now split].
  destruct (negb (document_declared h)); [cbn [snd]; rewrite Hf; now split|].
  unfold children.
  destruct (body w) as [kids|] eqn:Hb; [|cbn [snd ret]; rewrite Hf, Hb; now split].
  destruct (contains kids r); cbn [snd ret]; [|rewrite Hf, Hb; now split].
  split; [discriminate|].
  cbn [body set_flagElement set_body default from_option id].
  rewrite removeChild_In. split; [tauto|]. intros H. split; [exact H|congruence].
Qed.

Lemma destroy_children (h : Host) (w : World) (x : ref) :
  flagElement w <> Some x ->
  flagElement (snd (destroy h w)) <> Some x /\
  (In x (children (snd (destroy h w))) <-> In x (children w)).
Proof.
  intros Hx. rewrite destroy_unfold.
  pose proof (removeEventListeners_same_page w) as Hs.
  destruct (removeFlagElement_children h (removeEventListeners w) x) as [A B].
  - destruct Hs as (_ & -> & _). exact Hx.
  - split; [exact A|]. now rewrite B, (same_page_children _ _ Hs).
Qed.

Lemma createFlag_children (h : Host) (w : World) (x : ref) :
  foreign w x ->
  foreign (snd (createFlag h w)) x /\
  children (snd (createFlag h w)) = children w /\
  is_indicator (snd (createFlag h w)) x = is_indicator w x.
Proof.
  intros [Hx Hlt].
  destruct (createFlag_cases h w) as [[-> _]|[(_ & Hf & Hn & Hb & Hi) _]];
    [now repeat split|].
  split; [split|split].
  - rewrite Hf. intros [= <-]. lia.
  - rewrite Hn. lia.
  - unfold children. now rewrite Hb.
  - rewrite Hi. replace (Nat.eqb x (next_ref w)) with false; [reflexivity|].
    symmetry. apply Nat.eqb_neq. lia.
Qed.

Lemma destroy_foreign (h : Host) (w : World) (x : ref) :
  foreign w x ->
  foreign (snd (destroy h w)) x /\
  (In x (children (snd (destroy h w))) <-> In x (children w)) /\
  is_indicator (snd (destroy h w)) x = is_indicator w x.
Proof.
  intros [Hx Hlt]. destruct (destroy_children h w x Hx) as [A B].
  destruct (destroy_stable h w) as (_ & Hn & _ & _ & Hi).
  split; [split; [exact A|now rewrite Hn]|]. split; [exact B|apply Hi].
Qed.

Lemma init_foreign (h : Host) (w : World) (x : ref) :
  foreign w x ->
  foreign (snd (init h w)) x /\
  (In x (children (snd (init h w))) <-> In x (children w)) /\
  is_indicator (snd (init h w)) x = is_indicator w x.
Proof.
  intros Hx. unfold init.
  destruct (negb (isValidEnvironment h)); [split; [exact Hx|now split]|].
  destruct (negb (truthy_bool (enabled (config w)))); [split; [exact Hx|now split]|].
  unfold andThen.
  destruct (destroy_foreign h w x Hx) as (A & B & C).
  destruct (destroy h w) as [[[]|e] wd]; cbn [snd] in *; [|split; [exact A|now split]].
  destruct (createFlag_children h wd x A) as (A' & B' & C').
  split; [exact A'|]. split; [now rewrite B'|congruence].
Qed.

Lemma step_foreign (h : Host) (w : World) (x : ref) (ev : Event) :
  foreign w x ->
  foreign (step h w ev) x /\
  (In x (children (step h w ev)) <-> In x (children w)) /\
  is_indicator (step h w ev) x = is_indicator w x.
Proof.
  intros Hx. destruct ev; cbn [step].
  - now apply init_foreign.
  - now apply destroy_foreign.
  - unfold updateConfig. now apply (init_foreign h (set_config _ w) x).
  - destruct Hx as [Hx Hlt]. destruct (frame_flag w) as (Hf & Hn & He & _).
    split; [split; [now rewrite Hf|now rewrite Hn]|].
    split; [now apply frame_children|].
    unfold is_indicator. now rewrite He.
  - now apply destroy_foreign.
  - unfold handleKeydown.
    destruct (String.eqb key "Enter" || String.eqb key " ");
      [now apply destroy_foreign|split; [exact Hx|now split]].
  - unfold handleMouseEnter.
    destruct (flagElement w) eqn:Hf; [|split; [exact Hx|now split]].
    split; [exact Hx|]. split; [reflexivity|].
    now rewrite !is_indicator_mutate.
  - unfold handleMouseLeave.
    destruct (flagElement w) eqn:Hf; [|split; [exact Hx|now split]].
    split; [exact Hx|]. split; [reflexivity|].
    now rewrite !is_indicator_mutate.
Qed.

(** X5: a node of the document that is not the component's element is
    never removed, never becomes the component's element, and keeps its
    identifier, whatever calls, frames and events follow. *)
Theorem foreign_nodes_kept (h : Host) (w : World) (x : ref) (evs : list Event) :
  flagElement w <> Some x ->
  x < next_ref w ->
  flagElement (run h evs w) <> Some x /\
  (In x (children (run h evs w)) <-> In x (children w)) /\
  is_indicator (run h evs w) x = is_indicator w x.
Proof.
  intros Hx Hlt. assert (foreign w x) as Hfo by (split; assumption). clear Hx Hlt.
  unfold run. revert w Hfo. induction evs as [|ev evs IH]; intros w Hfo; cbn [fold_left].
  - destruct Hfo. now repeat split.
  - destruct (step_foreign h w x ev Hfo) as (A & B & C).
    destruct (IH _ A) as (A' & B' & C').
    split; [exact A'|]. split; [now rewrite B'|congruence].
Qed.

Lemma foreign_nodes_kept_witness :
  let store : gmap ref Element :=
    {[ 0 := mkElement "main" "app" ∅ ∅ None [] ]} in
  let w := constructor empty_config store 1 (Some [0]) in
  In 0 (children (run (page "localhost") [Init; Frame; Click; Init; Frame; Destroy] w)).
Proof.
  intros store w.
  apply (proj1 (proj2 (foreign_nodes_kept (page "localhost") w 0
                         [Init; Frame; Click; Init; Frame; Destroy]
                         ltac:(discriminate) ltac:(cbn; lia)))).
  left. reflexivity.
Defined.

(** *** A second indicator *)

Lemma createFlag_body (h : Host) (w : World) :
  body (snd (createFlag h w)) = body w.
Proof.
  destruct (createFlag_cases h w) as [[-> _]|[(_ & _ & _ & Hb & _) _]];
    [reflexivity|exact Hb].
Qed.

Lemma init_created (h : Host) (w : World) :
  browser h = true ->
  truthy_bool (enabled (config w)) = true ->
  defined (size (config w)) = true ->
  fst (init h w) = Normal tt /\
  created (snd (destroy h w)) (snd (init h w)) /\
  frames (snd (init h w)) = S (frames w).
Proof.
  intros Hb He Hs.
  pose proof (browser_spec h Hb) as (Hw & Hd & Hn & Hr).
  rewrite init_unfold by (assumption || (unfold isValidEnvironment; now rewrite Hw, Hd)).
  unfold andThen.
  pose proof (destroy_normal h w Hd) as Hnormal.
  destruct (destroy_stable h w) as (Hcfg & _ & Hfr & _).
  destruct (destroy h w) as [c wd]. cbn [fst snd] in *. subst c.
  assert (defined (size (config wd)) = true) as Hs' by now rewrite Hcfg.
  pose proof (createFlag_normal h wd Hb Hs') as Hcn.
  destruct (createFlag_cases h wd) as [[_ [e He']]|[Hcr [[_ Hf]|[[e He'] _]]]];
    try congruence.
  split; [exact Hcn|]. split; [exact Hcr|congruence].
Qed.

Lemma frame_keeps_flag (w : World) (r : ref) :
  flagElement w = Some r -> In r (children w) -> In r (children (frame w)).
Proof.
  intros Hf Hin. unfold frame. destruct (frames w); [exact Hin|].
  unfold insertFlag.
  change (flagElement (set_frames n w)) with (flagElement w).
  change (body (set_frames n w)) with (body w).
  rewrite Hf. unfold children in *.
  destruct (body w) as [kids|] eqn:Hb; [|cbn in Hin; destruct Hin].
  cbn [body set_body default from_option id]. apply appendChild_In. now right.
Qed.

Lemma frame_inserts_flag (w : World) (r : ref) :
  flagElement w = Some r -> defined (body w) = true -> 0 < frames w ->
  In r (children (frame w)).
Proof.
  intros Hf Hb Hfr. unfold frame. destruct (frames w); [lia|].
  unfold insertFlag.
  change (flagElement (set_frames n w)) with (flagElement w).
  change (body (set_frames n w)) with (body w).
  rewrite Hf. unfold children.
  destruct (body w) as [kids|]; [|discriminate].
  cbn [body set_body default from_option id]. apply appendChild_In. now right.
Qed.

Lemma run_frames_keeps_flag (n : nat) (w : World) (r : ref) :
  flagElement w = Some r -> In r (children w) -> In r (children (run_frames n w)).
Proof.
  revert w. induction n as [|n IH]; intros w Hf Hin; cbn [run_frames]; [exact Hin|].
  apply IH; [now destruct (frame_flag w) as (-> & _)|now apply frame_keeps_flag].
Qed.

Lemma run_frames_inserts_flag (n : nat) (w : World) (r : ref) :
  flagElement w = Some r -> defined (body w) = true -> 0 < n -> 0 < frames w ->
  In r (children (run_frames n w)).
Proof.
  intros Hf Hb Hn Hfr. destruct n as [|n]; [lia|]. cbn [run_frames].
  apply run_frames_keeps_flag; [now destruct (frame_flag w) as (-> & _)|].
  now apply frame_inserts_flag.
Qed.

Lemma run_frames_is_indicator (n : nat) (w : World) (x : ref) :
  is_indicator (run_frames n w) x = is_indicator w x.
Proof. unfold is_indicator. now destruct (run_frames_flag n w) as (_ & _ & -> & _). Qed.

Lemma two_members {A : Type} (a b : A) (l : list A) :
  In a l -> In b l -> a <> b -> 2 <= length l.
Proof.
  intros Ha Hb Hne. destruct l as [|x [|y l]]; cbn in *; try lia.
  destruct Ha as [<-|[]], Hb as [<-|[]]. congruence.
Qed.

Lemma init_beside_foreign (h : Host) (w : World) (x : ref) :
  browser h = true ->
  truthy_bool (enabled (config w)) = true ->
  defined (size (config w)) = true ->
  defined (body w) = true ->
  flagElement w <> Some x ->
  x < next_ref w ->
  In x (children w) ->
  is_indicator w x = true ->
  In x (indicators (flush (snd (init h w)))) /\
  In (next_ref w) (indicators (flush (snd (init h w)))) /\
  2 <= length (indicators (flush (snd (init h w)))).
Proof.
  intros Hb He Hs Hbody Hx Hlt Hin Hi.
  destruct (init_created h w Hb He Hs) as (_ & Hcr & Hfr).
  destruct (init_foreign h w x (conj Hx Hlt)) as ([Hx' _] & Hch & Hi').
  destruct (destroy_stable h w) as (_ & Hnext & _ & Hbd & Hid).
  destruct Hcr as (_ & Hflag & _ & Hb' & Hind).
  rewrite Hnext in Hflag, Hind.
  set (w1 := snd (init h w)) in *.
  assert (In x (indicators (flush w1))) as H1.
  { unfold indicators. apply filter_In. split.
    - unfold flush. apply run_frames_children; [exact Hx'|]. now apply Hch.
    - unfold flush. rewrite run_frames_is_indicator. congruence. }
  assert (In (next_ref w) (indicators (flush w1))) as H2.
  { unfold indicators. apply filter_In. split.
    - unfold flush. apply run_frames_inserts_flag; try assumption; try lia.
      now rewrite Hb', Hbd.
    - unfold flush. rewrite run_frames_is_indicator, Hind, Nat.eqb_refl. reflexivity. }
  split; [exact H1|]. split; [exact H2|].
  apply (two_members x (next_ref w)); [assumption..|lia].
Qed.


(** X6: the component does not look for an indicator that is already in
    the document: in a page that holds an indicator element of another
    owner, a successful [init] followed by the animation frame leaves two
    elements with the indicator identifier in the document. *)
Theorem second_indicator_beside_foreign (h : Host) (w : World) (x : ref) :
  browser h = true ->
  truthy_bool (enabled (config w)) = true ->
  defined (size (config w)) = true ->
  defined (body w) = true ->
  flagElement w <> Some x ->
  x < next_ref w ->
  In x (children w) ->
  is_indicator w x = true ->
  In x (indicators (flush (snd (init h w)))) /\
  In (next_ref w) (indicators (flush (snd (init h w)))) /\
  2 <= length (indicators (flush (snd (init h w)))).
Proof. apply init_beside_foreign. Qed.

Lemma second_indicator_beside_foreign_witness :
  let store : gmap ref Element :=
    {[ 0 := mkElement "div" ELEMENT_ID ∅ ∅ None [] ]} in
  let w := constructor empty_config store 1 (Some [0]) in
  2 <= length (indicators (flush (snd (init (page "localhost") w)))).
Proof.
  intros store w.
  refine (proj2 (proj2 (second_indicator_beside_foreign (page "localhost") w 0
                          eq_refl eq_refl eq_refl eq_refl _ _ _ eq_refl))).
  - discriminate.
  - cbn. lia.
  - left. reflexivity.
Defined.

(** *** Re-rendering *)

Lemma destroy_removes_flag (h : Host) (w : World) (r : ref) :
  document_declared h = true ->
  NoDup (children w) ->
  flagElement w = Some r ->
  ~ In r (children (snd (destroy h w))).
Proof.
  intros Hd Hnd Hf. rewrite destroy_unfold.
  pose proof (removeEventListeners_same_page w) as Hs.
  pose proof (same_page_children _ _ Hs) as Hch.
  destruct Hs as (_ & Hf' & _).
  set (w1 := removeEventListeners w) in *. rewrite Hf in Hf'.
  unfold removeFlagElement. rewrite Hf', Hd. cbn [negb].
  unfold children in *.
  destruct (body w1) as [kids|] eqn:Hb; [|cbn [snd ret]; rewrite Hb; intros []].
  destruct (contains kids r) eqn:Hc; cbn [snd ret].
  - cbn [body set_flagElement set_body default from_option id].
    rewrite removeChild_In. tauto.
  - rewrite Hb. cbn [default from_option id]. intros Hin.
    apply contains_In in Hin. congruence.
Qed.

(** X7: [updateConfig] re-renders: in a browser with a document body,
    when the merged configuration is enabled and has a size, the
    component's previous element is out of the document, and after the
    animation frame the only indicator there is a new element that shows
    the merged configuration, the font size and padding of its size
    included. *)
Theorem updateConfig_rerenders (h : Host) (p : EnvFlagConfig) (w : World)
    (environment : string) (sz : SizeStyles) :
  browser h = true ->
  page_ok w = true ->
  defined (body w) = true ->
  truthy_bool (enabled (object_assign (config w) p)) = true ->
  getCurrentEnvironment (object_assign (config w) p) h = Normal environment ->
  getSizeStyles (object_assign (config w) p) = Some sz ->
  let w' := flush (snd (updateConfig h p w)) in
  indicators w' = [next_ref w] /\
  (exists el, elements w' !! next_ref w = Some el /\
              renders (object_assign (config w) p) environment sz el) /\
  (forall r, flagElement w = Some r -> ~ In r (children w')).
Proof.
  intros Hb Hok Hbody He Henv Hs w'. subst w'. unfold updateConfig.
  set (w0 := set_config (object_assign (config w) p) w).
  assert (page_ok w0 = true) as Hok0 by exact Hok.
  assert (defined (body w0) = true) as Hbody0 by exact Hbody.
  pose proof (getSizeStyles_defined _ _ Hs) as Hsd.
  destruct (init_shown h w0 Hb He Hsd Hbody0 Hok0) as (_ & r & Hsh & _ & Hfr & _).
  destruct (init_builds h w0 environment sz Hb He Henv Hs) as (_ & Hflag & _ & el & Hcur & Hren).
  change (next_ref w0) with (next_ref w) in Hflag.
  assert (r = next_ref w) as -> by (destruct Hsh as (Hf & _); congruence).
  set (w1 := snd (init h w0)) in *.
  split; [|split].
  - unfold flush. apply (run_frames_shown (frames w1) w1 _ Hsh). right. split; assumption.
  - exists el. split; [|exact Hren].
    unfold flush. destruct (run_frames_flag (frames w1) w1) as (_ & _ & -> & _).
    unfold current in Hcur. rewrite Hflag in Hcur. exact Hcur.
  - intros r Hr Hin.
    pose proof (proj1 (page_ok_spec w) Hok) as (_ & (_ & Hlt) & Hnd).
    specialize (Hlt r Hr).
    assert (flagElement w1 <> Some r) as Hne by (rewrite Hflag; intros [= <-]; lia).
    unfold flush in Hin. apply (run_frames_children _ _ _ Hne) in Hin.
    pose proof (browser_spec h Hb) as (Hw & Hd & _).
    subst w1. rewrite init_unfold in Hin
      by (assumption || (unfold isValidEnvironment; now rewrite Hw, Hd)).
    unfold andThen in Hin.
    pose proof (destroy_removes_flag h w0 r Hd Hnd Hr) as Hout.
    pose proof (destroy_normal h w0 Hd) as Hn.
    destruct (destroy h w0) as [c wd]. cbn [fst snd] in *. subst c.
    unfold children in Hin, Hout. rewrite createFlag_body in Hin. contradiction.
Qed.

Lemma updateConfig_rerenders_witness :
  let h := page "localhost" in
  let p := mkPartial None None None None None None None None None
             (Some (Some large)) None None None None in
  let w := flush (snd (init h (constructor empty_config ∅ 0 (Some [])))) in
  let w' := flush (snd (updateConfig h p w)) in
  indicators w' = [1] /\
  exists el, elements w' !! 1 = Some el /\
             el_style el !! "fontSize" = Some (Some "14px") /\
             el_style el !! "padding" = Some (Some "8px 16px").
Proof.
  intros h p w w'.
  assert (page_ok w = true) as Hok by (vm_compute; reflexivity).
  destruct (updateConfig_rerenders h p w "development" (mkSizeStyles "14px" "8px 16px")
              eq_refl Hok eq_refl eq_refl eq_refl eq_refl) as (H1 & (el & H2 & H3) & _).
  split; [exact H1|]. exists el. split; [exact H2|].
  destruct H3 as (_ & _ & _ & _ & _ & _ & _ & _ & _ & _ & Hfs & Hpad & _).
  split; assumption.
Defined.

(** *** Dismissal *)

Lemma run_frames_without_flag (n : nat) (w : World) :
  flagElement w = None ->
  flagElement (run_frames n w) = None /\ body (run_frames n w) = body w.
Proof.
  revert w. induction n as [|n IH]; intros w Hf; cbn [run_frames]; [now split|].
  assert (flagElement (frame w) = None /\ body (frame w) = body w) as [A B].
  { unfold frame. destruct (frames w); [now split|]. unfold insertFlag.
    change (flagElement (set_frames n0 w)) with (flagElement w). rewrite Hf.
    now split. }
  destruct (IH _ A) as [A' B']. split; congruence.
Qed.

(** X8: once the indicator is in the document, [destroy] (and so a
    click, or Enter or Space on the indicator) is final: the component
    forgets its element, the registry is empty, and no animation frame
    still pending brings an indicator back. *)
Theorem destroy_attached_is_final (h : Host) (w : World) (r : ref) :
  document_declared h = true ->
  page_ok w = true ->
  flagElement w = Some r ->
  In r (children w) ->
  fst (destroy h w) = Normal tt /\
  handleClick h w = destroy h w /\
  handleKeydown h "Enter" w = destroy h w /\
  handleKeydown h " " w = destroy h w /\
  flagElement (snd (destroy h w)) = None /\
  eventListeners (snd (destroy h w)) = [] /\
  forall n, indicators (run_frames n (snd (destroy h w))) = [] /\
            ~ In r (children (run_frames n (snd (destroy h w)))).
Proof.
  intros Hd Hok Hf Hin.
  destruct (destroy_cleared h w Hd Hok) as [Hn Hc].
  pose proof (destroy_registry_empty h w) as Hreg.
  pose proof (proj1 (page_ok_spec w) Hok) as (_ & _ & Hnd).
  pose proof (destroy_removes_flag h w r Hd Hnd Hf) as Hout.
  assert (flagElement (snd (destroy h w)) = None) as Hnone.
  { rewrite destroy_unfold.
    pose proof (removeEventListeners_same_page w) as Hs.
    pose proof (same_page_children _ _ Hs) as Hch.
    destruct Hs as (_ & Hf' & _). rewrite Hf in Hf'.
    unfold removeFlagElement. rewrite Hf', Hd. cbn [negb].
    unfold children in Hch, Hin.
    destruct (body (removeEventListeners w)) as [kids|] eqn:Hb.
    - cbn [default from_option id] in Hch.
      assert (contains kids r = true) as -> by (apply contains_In; now rewrite Hch).
      reflexivity.
    - rewrite <- Hch in Hin. destruct Hin. }
  repeat (split; [first [assumption|reflexivity]|]).
  intros n. destruct (run_frames_without_flag n _ Hnone) as [_ Hb].
  unfold indicators, children in *. rewrite Hb.
  split; [|exact Hout].
  etransitivity; [|exact Hc]. apply filter_ext. intros x. apply run_frames_is_indicator.
Qed.

Lemma destroy_attached_is_final_witness :
  let h := page "localhost" in
  let w := frame (snd (init h (snd (init h (constructor empty_config ∅ 0 (Some [])))))) in
  indicators (run_frames 2 (snd (destroy h w))) = [].
Proof.
  intros h w.
  assert (page_ok w = true) as Hok by (vm_compute; reflexivity).
  refine (proj1 (proj2 (proj2 (proj2 (proj2 (proj2 (proj2
    (destroy_attached_is_final h w 1 eq_refl Hok eq_refl _)))))) 2)).
  vm_compute. left. reflexivity.
Defined.

(** X9: [destroy] is idempotent: a second call right after the first
    completes the same way and changes nothing. *)
Theorem destroy_idempotent (h : Host) (w : World) :
  destroy h (snd (destroy h w)) = destroy h w.
Proof.
  rewrite !destroy_unfold.
  set (w1 := removeEventListeners w).
  assert (forall u, eventListeners u = [] -> removeEventListeners u = u) as Hid.
  { intros [c f l m n b fr]. cbn. intros ->. reflexivity. }
  pose proof (removeFlagElement_registry h w1) as Hreg.
  rewrite (Hid (snd (removeFlagElement h w1))) by (rewrite Hreg; reflexivity).
  clearbody w1. clear Hreg.
  unfold removeFlagElement.
  destruct (flagElement w1) as [r|] eqn:Hf; [|cbn [snd ret]; rewrite Hf; reflexivity].
  destruct (negb (document_declared h)) eqn:Hd; [cbn [snd]; rewrite Hf; reflexivity|].
  destruct (body w1) as [kids|] eqn:Hb; [|cbn [snd ret]; rewrite Hf, Hb; reflexivity].
  destruct (contains kids r) eqn:Hc; cbn [snd ret]; [reflexivity|].
  rewrite Hf, Hb, Hc. reflexivity.
Qed.

(** *** Listeners *)

Lemma recorded_same (w w' : World) :
  elements w' = elements w -> eventListeners w' = eventListeners w ->
  recorded w -> recorded w'.
Proof. unfold recorded. intros -> ->. auto. Qed.

Lemma recorded_mutate (r : ref) (f : Element -> Element) (w : World) :
  (forall e, el_listeners (f e) = el_listeners e) ->
  recorded w -> recorded (mutate r f w).
Proof.
  intros Hf Hrec r' el event handler Hl Hin.
  unfold mutate in Hl. cbn [elements set_elements] in Hl.
  rewrite lookup_alter in Hl. change (eventListeners (mutate r f w)) with (eventListeners w).
  case_decide as Hd.
  - subst r'. destruct (elements w !! r) as [e0|] eqn:He; [|discriminate].
    injection Hl as <-. rewrite Hf in Hin. now apply (Hrec r e0).
  - now apply (Hrec r' el).
Qed.

Lemma attach_lookup (w : World) (r r' : ref) :
  flagElement w = Some r ->
  elements (attachEventListeners w) !! r' =
    if decide (r = r')
    then (fun e => setAttribute "tabindex" "0"
                     (addEventListener "keydown" bound_handleKeydown
                        (addEventListener "mouseleave" bound_handleMouseLeave
                           (addEventListener "mouseenter" bound_handleMouseEnter
                              (addEventListener "click" bound_handleClick e)))))
           <$> elements w !! r
    else elements w !! r'.
Proof.
  intros Hf. unfold attachEventListeners. rewrite Hf. unfold push, mutate.
  cbn [elements set_elements set_eventListeners].
  case_decide as Hd.
  - subst r'. rewrite !lookup_alter_eq. destruct (elements w !! r); reflexivity.
  - rewrite !lookup_alter_ne by exact Hd. reflexivity.
Qed.

Lemma recorded_attach (w : World) : recorded w -> recorded (attachEventListeners w).
Proof.
  intros Hrec. destruct (flagElement w) as [r|] eqn:Hf;
    [|unfold attachEventListeners; now rewrite Hf].
  intros r' el event handler Hl Hin.
  rewrite (attachEventListeners_registry w r Hf).
  rewrite (attach_lookup w r r' Hf) in Hl. apply in_or_app.
  case_decide as Hd.
  - subst r'. destruct (elements w !! r) as [e0|] eqn:He; [|discriminate].
    injection Hl as <-.
    cbn [setAttribute addEventListener el_listeners] in Hin.
    rewrite <- !app_assoc in Hin. apply in_app_or in Hin as [Hin|Hin].
    + left. now apply (Hrec r e0).
    + right. cbn in Hin. unfold flag_registrations, flag_handlers. cbn [map fst snd].
      repeat (destruct Hin as [[= <- <-]|Hin]; [cbn; tauto|]). destruct Hin.
  - left. now apply (Hrec r' el).
Qed.

Lemma strip_fold (l : list Registration) (w : World) (r : ref) (el' : Element) :
  elements (fold_left
              (fun acc reg => mutate (reg_element reg)
                                (removeEventListener (reg_event reg) (reg_handler reg)) acc)
              l w) !! r = Some el' ->
  exists el, elements w !! r = Some el /\
    forall event handler, In (event, handler) (el_listeners el') ->
      In (event, handler) (el_listeners el) /\ ~ In (mkRegistration r event handler) l.
Proof.
  revert w. induction l as [|reg rest IH]; intros w Hl; cbn [fold_left] in Hl.
  - exists el'. split; [exact Hl|]. intros event handler Hin. split; [exact Hin|intros []].
  - destruct (IH _ Hl) as (el1 & Hl1 & H1). clear IH Hl.
    unfold mutate in Hl1. cbn [elements set_elements] in Hl1.
    rewrite lookup_alter in Hl1. case_decide as Hd.
    + destruct (elements w !! reg_element reg) as [e0|] eqn:He; [|discriminate].
      injection Hl1 as <-. subst r. exists e0. split; [exact He|].
      intros event handler Hin. destruct (H1 event handler Hin) as [Hin1 Hnot].
      cbn [removeEventListener el_listeners] in Hin1.
      apply filter_In in Hin1 as [Hin0 Hne].
      apply negb_true_iff, bool_decide_eq_false in Hne.
      split; [exact Hin0|]. intros [Heq|Hin']; [|contradiction].
      apply Hne. rewrite Heq. reflexivity.
    + exists el1. split; [exact Hl1|].
      intros event handler Hin. destruct (H1 event handler Hin) as [Hin1 Hnot].
      split; [exact Hin1|]. intros [Heq|Hin']; [|contradiction].
      apply Hd. rewrite Heq. reflexivity.
Qed.

Lemma removeEventListeners_stripped (w : World) :
  recorded w -> stripped (removeEventListeners w).
Proof.
  intros Hrec r el' Hl. unfold removeEventListeners in Hl.
  cbn [elements set_eventListeners] in Hl.
  destruct (strip_fold _ _ _ _ Hl) as (el & He & H).
  destruct (el_listeners el') as [|[event handler] rest] eqn:Hls; [reflexivity|].
  exfalso. destruct (H event handler (or_introl eq_refl)) as [Hin Hnot].
  apply Hnot. now apply (Hrec r el).
Qed.

Lemma removeFlagElement_store (h : Host) (w : World) :
  elements (snd (removeFlagElement h w)) = elements w.
Proof.
  unfold removeFlagElement.
  destruct (flagElement w); [|reflexivity].
  destruct (negb (document_declared h)); [reflexivity|].
  destruct (body w) as [kids|]; [|reflexivity].
  destruct (contains kids r); reflexivity.
Qed.

Lemma destroy_stripped (h : Host) (w : World) :
  recorded w -> stripped (snd (destroy h w)).
Proof.
  intros Hrec. rewrite destroy_unfold. unfold stripped.
  rewrite removeFlagElement_store. now apply removeEventListeners_stripped.
Qed.

Lemma stripped_recorded (w : World) : stripped w -> recorded w.
Proof.
  intros Hs r el event handler Hl Hin. rewrite (Hs r el Hl) in Hin. destruct Hin.
Qed.

Lemma recorded_applyStyles (environment : string) (w : World) :
  recorded w -> recorded (snd (applyStyles environment w)).
Proof.
  intros Hrec. unfold applyStyles.
  destruct (flagElement w); [|exact Hrec].
  destruct (getEnvironmentStyles (config w) environment); [|exact Hrec].
  destruct (getSizeStyles (config w)); [|exact Hrec].
  cbn [snd ret]. apply recorded_mutate; [reflexivity|].
  apply recorded_mutate; [|exact Hrec].
  intros e. apply assign_style_frame.
Qed.

Lemma recorded_createFlag (h : Host) (w : World) :
  recorded w -> recorded (snd (createFlag h w)).
Proof.
  intros Hrec. unfold createFlag.
  destruct (getCurrentEnvironment (config w) h) as [environment|e]; [|exact Hrec].
  destruct (negb (document_declared h)); [exact Hrec|].
  cbv zeta. cbn [createElement].
  match goal with |- context [andThen _ _ ?x] => set (w5 := x) end.
  assert (recorded w5) as H5.
  { subst w5. repeat (apply recorded_mutate; [reflexivity|]).
    intros r el event handler Hl Hin.
    cbn [elements set_flagElement] in Hl.
    change (eventListeners (set_flagElement _ _)) with (eventListeners w).
    destruct (decide (next_ref w = r)) as [<-|Hne].
    - rewrite lookup_insert_eq in Hl. injection Hl as <-. destruct Hin.
    - rewrite lookup_insert_ne in Hl by exact Hne. now apply (Hrec r el). }
  clearbody w5. unfold andThen.
  pose proof (recorded_applyStyles environment w5 H5) as H6.
  destruct (applyStyles environment w5) as [[[]|e] w6]; cbn [snd] in *; [|exact H6].
  unfold ret, requestAnimationFrame.
  destruct (requestAnimationFrame_declared h); cbn [snd ret];
    [apply (recorded_same (attachEventListeners w6)); [reflexivity..|]|];
    now apply recorded_attach.
Qed.

Lemma recorded_destroy (h : Host) (w : World) :
  recorded w -> recorded (snd (destroy h w)).
Proof. intros H. now apply stripped_recorded, destroy_stripped. Qed.

Lemma recorded_init (h : Host) (w : World) :
  recorded w -> recorded (snd (init h w)).
Proof.
  intros Hrec. unfold init.
  destruct (negb (isValidEnvironment h)); [exact Hrec|].
  destruct (negb (truthy_bool (enabled (config w)))); [exact Hrec|].
  unfold andThen. pose proof (recorded_destroy h w Hrec) as Hd.
  destruct (destroy h w) as [[[]|e] wd]; cbn [snd] in *; [|exact Hd].
  now apply recorded_createFlag.
Qed.

Lemma recorded_step (h : Host) (w : World) (ev : Event) :
  recorded w -> recorded (step h w ev).
Proof.
  intros Hrec. destruct ev; cbn [step].
  - now apply recorded_init.
  - now apply recorded_destroy.
  - unfold updateConfig. now apply recorded_init.
  - destruct (frame_flag w) as (_ & _ & He & Hl). now apply (recorded_same w).
  - now apply recorded_destroy.
  - unfold handleKeydown.
    destruct (String.eqb key "Enter" || String.eqb key " ");
      [now apply recorded_destroy|exact Hrec].
  - unfold handleMouseEnter. destruct (flagElement w); [|exact Hrec].
    now repeat (apply recorded_mutate; [reflexivity|]).
  - unfold handleMouseLeave. destruct (flagElement w); [|exact Hrec].
    now repeat (apply recorded_mutate; [reflexivity|]).
Qed.

(** X10: the registry keeps track of every listener: if every listener
    on an element is registered to begin with, it stays so through any
    calls, frames and events, and a [destroy] at any later point leaves
    no listener on any element the component ever made, and an empty
    registry. *)
Theorem destroy_leaves_no_listener (h : Host) (w : World) (evs : list Event) :
  recorded w ->
  recorded (run h evs w) /\
  stripped (snd (destroy h (run h evs w))) /\
  eventListeners (snd (destroy h (run h evs w))) = [].
Proof.
  intros Hrec.
  assert (recorded (run h evs w)) as Hrun.
  { unfold run. revert w Hrec. induction evs as [|ev evs IH]; intros w Hrec;
      cbn [fold_left]; [exact Hrec|]. apply IH. now apply recorded_step. }
  split; [exact Hrun|]. split; [now apply destroy_stripped|apply destroy_registry_empty].
Qed.

Lemma destroy_leaves_no_listener_witness :
  let h := page "localhost" in
  let w := constructor empty_config ∅ 0 (Some []) in
  stripped (snd (destroy h (run h [Init; Init; Frame; MouseEnter; Init] w))).
Proof.
  intros h w.
  refine (proj1 (proj2 (destroy_leaves_no_listener h w
                          [Init; Init; Frame; MouseEnter; Init] _))).
  intros r el event handler Hl. unfold w, constructor in Hl. cbn [elements] in Hl.
  rewrite lookup_empty in Hl. discriminate.
Defined.

(** *** Hovering *)

Lemma mutate_lookup (r : ref) (f : Element -> Element) (w : World) (r' : ref) :
  elements (mutate r f w) !! r' =
    if decide (r = r') then f <$> elements w !! r else elements w !! r'.
Proof. unfold mutate. cbn [elements set_elements]. apply lookup_alter. Qed.

(** X11: hovering restyles the current element and nothing else:
    entering sets its opacity to 1 and its scale to 1.05, leaving sets
    them to 0.9 and 1; its other style properties, its attributes, text
    and listeners, the other elements, the registry and the document are
    as before.  Without a current element both handlers do nothing. *)
Theorem hover_restyles_only (w : World) :
  (flagElement w = None -> handleMouseEnter w = w /\ handleMouseLeave w = w) /\
  (forall r el,
     flagElement w = Some r -> elements w !! r = Some el ->
     let w1 := handleMouseEnter w in
     let w2 := handleMouseLeave w1 in
     (exists e1, elements w1 !! r = Some e1 /\
                 el_style e1 !! "opacity" = Some (Some "1") /\
                 el_style e1 !! "transform" = Some (Some "scale(1.05)")) /\
     (exists e2, elements w2 !! r = Some e2 /\
                 el_style e2 !! "opacity" = Some (Some "0.9") /\
                 el_style e2 !! "transform" = Some (Some "scale(1)") /\
                 (forall k, k <> "opacity" -> k <> "transform" ->
                            el_style e2 !! k = el_style el !! k) /\
                 el_id e2 = el_id el /\ el_attributes e2 = el_attributes el /\
                 el_textContent e2 = el_textContent el /\
                 el_listeners e2 = el_listeners el) /\
     (forall r', r' <> r -> elements w2 !! r' = elements w !! r') /\
     eventListeners w2 = eventListeners w /\ same_page w w2).
Proof.
  split.
  - intros Hf. unfold handleMouseEnter, handleMouseLeave. now rewrite Hf.
  - intros r el Hf Hl w1 w2. subst w2 w1.
    unfold handleMouseLeave, handleMouseEnter. rewrite Hf.
    change (flagElement (mutate r _ (mutate r _ w))) with (flagElement w). rewrite Hf.
    split; [|split; [|split; [|split]]].
    + rewrite !mutate_lookup. rewrite !decide_True by reflexivity. rewrite Hl.
      cbn [fmap option_fmap option_map]. eexists. split; [reflexivity|].
      cbn [set_style el_style]. split.
      * rewrite lookup_insert_ne by discriminate. apply lookup_insert_eq.
      * apply lookup_insert_eq.
    + rewrite !mutate_lookup. rewrite !decide_True by reflexivity. rewrite Hl.
      cbn [fmap option_fmap option_map]. eexists. split; [reflexivity|].
      cbn [set_style el_style el_id el_attributes el_textContent el_listeners].
      split; [|split; [|split]].
      * rewrite lookup_insert_ne by discriminate. apply lookup_insert_eq.
      * apply lookup_insert_eq.
      * intros k Ho Ht. rewrite !lookup_insert_ne by congruence. reflexivity.
      * now repeat split.
    + intros r' Hne. rewrite !mutate_lookup. rewrite !decide_False by congruence.
      reflexivity.
    + reflexivity.
    + repeat (eapply same_page_trans; [|apply same_page_mutate; reflexivity]).
      apply same_page_refl.
Qed.

Lemma hover_restyles_only_witness :
  let w := flush (snd (init (page "localhost") (constructor empty_config ∅ 0 (Some [])))) in
  exists e2, elements (handleMouseLeave (handleMouseEnter w)) !! 0 = Some e2 /\
             el_style e2 !! "opacity" = Some (Some "0.9").
Proof.
  intros w.
  assert (exists el, elements w !! 0 = Some el) as [el Hel]
    by (vm_compute; eexists; reflexivity).
  destruct (proj2 (hover_restyles_only w) 0 el eq_refl Hel)
    as (_ & (e2 & H1 & H2 & _) & _).
  exists e2. split; assumption.
Defined.

(** *** Construction and merging *)

Lemma object_assign_empty (c : Config) : object_assign c empty_config = c.
Proof. destruct c. reflexivity. Qed.

Lemma assign_prop_spread {A : Type} (old : option A) (p q : option (option A)) :
  assign_prop (assign_prop old p) q = assign_prop old (spread_prop p q).
Proof. destruct q; reflexivity. Qed.

Lemma object_assign_spread (c : Config) (p q : EnvFlagConfig) :
  object_assign (object_assign c p) q = object_assign c (spread p q).
Proof.
  unfold object_assign, spread. cbn. now rewrite !assign_prop_spread.
Qed.

(** X12: constructing a component renders nothing: it has no element,
    no listener and no scheduled insertion, and the page is untouched.
    Its configuration is the defaults with the named properties of the
    argument copied over them; it is resolved when those carry values,
    and it is exactly the defaults for the empty argument. *)
Theorem constructor_defaults (cfg : EnvFlagConfig) (store : gmap ref Element)
    (next : ref) (page : option (list ref)) :
  let w := constructor cfg store next page in
  flagElement w = None /\ eventListeners w = [] /\ frames w = 0 /\
  elements w = store /\ body w = page /\
  merged DEFAULT_CONFIG cfg (config w) /\
  (names_values cfg = true -> resolved (config w) = true) /\
  config (constructor empty_config store next page) = DEFAULT_CONFIG.
Proof.
  cbv zeta. unfold constructor. cbn [flagElement eventListeners frames elements body config].
  repeat (split; [reflexivity|]).
  split; [apply object_assign_merged|]. split; [|reflexivity].
  now apply object_assign_resolved.
Qed.

(** X13: two calls of [updateConfig] leave the configuration that one
    call with the two arguments spread together leaves; an empty
    argument leaves the configuration as it was, and repeating a call
    changes the configuration no further. *)
Theorem updateConfig_composes (h : Host) (p q : EnvFlagConfig) (w : World) :
  config (snd (updateConfig h q (snd (updateConfig h p w))))
    = config (snd (updateConfig h (spread p q) w)) /\
  config (snd (updateConfig h empty_config w)) = config w /\
  config (snd (updateConfig h p (snd (updateConfig h p w))))
    = config (snd (updateConfig h p w)).
Proof.
  unfold updateConfig. rewrite !init_config.
  cbn [config set_config]. rewrite ?init_config. cbn [config set_config].
  split; [apply object_assign_spread|]. split; [apply object_assign_empty|].
  rewrite object_assign_spread. f_equal.
  destruct p as [a1 a2 a3 a4 a5 a6 a7 a8 a9 a10 a11 a12 a13 a14].
  unfold spread. cbn.
  f_equal; match goal with |- spread_prop ?x ?x = ?x => destruct x; reflexivity end.
Qed.

(** ** Automatic initialisation *)

Lemma auto_instance (h : Host) (store : gmap ref Element) (next : ref) (kids : list ref) :
  browser h = true ->
  NoDup kids ->
  (forall x, In x kids -> x < next) ->
  (forall x e, In x kids -> store !! x = Some e -> el_id e <> ELEMENT_ID) ->
  let w := snd (init h (constructor debug_config store next (Some kids))) in
  fst (init h (constructor debug_config store next (Some kids))) = Normal tt /\
  config w = object_assign DEFAULT_CONFIG debug_config /\
  shown w next /\ next_ref w = S next /\ 0 < frames w /\
  indicators (flush w) = [next].
Proof.
  intros Hb Hnd Hlt Hid w.
  set (w0 := constructor debug_config store next (Some kids)) in *.
  destruct (constructor_ok debug_config store next kids Hnd Hlt Hid) as [Hok _].
  fold w0 in Hok.
  destruct (init_shown h w0 Hb eq_refl eq_refl eq_refl Hok)
    as (Hn & r & Hsh & _ & Hfr & Hcfg).
  destruct (init_created h w0 Hb eq_refl eq_refl) as (_ & (_ & Hflag & Hnext & _) & _).
  destruct (destroy_stable h w0) as (_ & Hnd' & _).
  rewrite Hnd' in Hflag, Hnext. change (next_ref w0) with next in Hflag, Hnext.
  assert (r = next) as -> by (destruct Hsh as (Hf & _); congruence).
  fold w in Hsh, Hfr, Hcfg, Hnext.
  split; [exact Hn|]. split; [exact Hcfg|]. split; [exact Hsh|].
  split; [exact Hnext|]. split; [exact Hfr|].
  unfold flush. apply (run_frames_shown (frames w) w next Hsh). right. split; assumption.
Qed.

(** X14: loading the module has an effect of its own.  Without a
    [window] nothing happens; with a [window] but no [document] the load
    throws; in a browser, whether the document is still loading or not,
    an instance with the default configuration and [debug] on is
    initialised, and after the animation frame its indicator is in the
    document of a page that had none. *)
Theorem auto_initialization_shows_indicator (h : Host) (readyState : string)
    (store : gmap ref Element) (next : ref) (kids : list ref) :
  let l := domContentLoaded h (autoInitialization h readyState store next (Some kids)) in
  (window_declared h = false ->
   l = mkLoad (Normal tt) None false) /\
  (window_declared h = true -> document_declared h = false ->
   load_completion l = Throw (ReferenceError "document")) /\
  (browser h = true ->
   NoDup kids ->
   (forall x, In x kids -> x < next) ->
   (forall x e, In x kids -> store !! x = Some e -> el_id e <> ELEMENT_ID) ->
   exists w, load_instance l = Some w /\ load_completion l = Normal tt /\
             load_waiting l = false /\
             config w = object_assign DEFAULT_CONFIG debug_config /\
             debug (config w) = Some true /\
             indicators (flush w) = [next]).
Proof.
  cbv zeta. unfold autoInitialization, domContentLoaded. split; [|split].
  - intros ->. reflexivity.
  - intros -> ->. reflexivity.
  - intros Hb Hnd Hlt Hid.
    destruct (auto_instance h store next kids Hb Hnd Hlt Hid) as (Hn & Hcfg & _ & _ & _ & Hone).
    assert (debug (config (snd (init h (constructor debug_config store next (Some kids)))))
            = Some true) as Hdbg by now rewrite Hcfg.
    pose proof (browser_spec h Hb) as (-> & -> & _).
    cbn [negb].
    destruct (String.eqb readyState "loading");
      cbn [load_waiting load_instance load_completion];
      eexists; (split; [reflexivity|]);
      (split; [exact Hn|]); (split; [reflexivity|]);
      (split; [exact Hcfg|]); (split; [exact Hdbg|exact Hone]).
Qed.

Lemma auto_initialization_shows_indicator_witness :
  let l := domContentLoaded (page "app.example.com")
             (autoInitialization (page "app.example.com") "loading" ∅ 0 (Some [])) in
  exists w, load_instance l = Some w /\ load_completion l = Normal tt /\
            load_waiting l = false /\
            config w = object_assign DEFAULT_CONFIG debug_config /\
            debug (config w) = Some true /\
            indicators (flush w) = [0].
Proof.
  intros l.
  refine (proj2 (proj2 (auto_initialization_shows_indicator (page "app.example.com")
                          "loading" ∅ 0 [])) eq_refl _ _ _).
  - apply NoDup_nil_2.
  - intros x [].
  - intros x e [].
Defined.

(** X15: the instance made when the module is loaded and an instance of
    the application share the page but not the element: once the
    automatic indicator is in the document, an enabled instance with a
    size that the application constructs and initialises adds a second
    element with the same identifier. *)
Theorem import_then_init_two_indicators (h : Host) (cfg : EnvFlagConfig)
    (store : gmap ref Element) (next : ref) (kids : list ref) :
  browser h = true ->
  NoDup kids ->
  (forall x, In x kids -> x < next) ->
  (forall x e, In x kids -> store !! x = Some e -> el_id e <> ELEMENT_ID) ->
  truthy_bool (enabled (object_assign DEFAULT_CONFIG cfg)) = true ->
  defined (size (object_assign DEFAULT_CONFIG cfg)) = true ->
  let auto := flush (snd (init h (constructor debug_config store next (Some kids)))) in
  let mine := constructor cfg (elements auto) (next_ref auto) (body auto) in
  indicators auto = [next] /\
  2 <= length (indicators (flush (snd (init h mine)))).
Proof.
  intros Hb Hnd Hlt Hid He Hs auto mine.
  destruct (auto_instance h store next kids Hb Hnd Hlt Hid)
    as (_ & _ & Hsh & Hnext & _ & Hone).
  fold auto in Hone. split; [exact Hone|].
  set (w := snd (init h (constructor debug_config store next (Some kids)))) in *.
  destruct (run_frames_flag (frames w) w) as (_ & Hn & _ & _).
  destruct (run_frames_shown (frames w) w next Hsh) as [(_ & Hi & Hbd & _) _].
  fold (flush w) in Hn, Hi, Hbd. fold auto in Hn, Hi, Hbd.
  assert (In next (indicators auto)) as Hin by (rewrite Hone; now left).
  unfold indicators in Hin. apply filter_In in Hin as [Hin _].
  apply (init_beside_foreign h mine next Hb He Hs).
  - exact Hbd.
  - discriminate.
  - change (next_ref mine) with (next_ref auto). rewrite Hn, Hnext. lia.
  - exact Hin.
  - exact Hi.
Qed.

Lemma import_then_init_two_indicators_witness :
  let h := page "localhost" in
  let auto := flush (snd (init h (constructor debug_config ∅ 0 (Some [])))) in
  let mine := constructor empty_config (elements auto) (next_ref auto) (body auto) in
  2 <= length (indicators (flush (snd (init h mine)))).
Proof.
  intros h auto mine.
  refine (proj2 (import_then_init_two_indicators h empty_config ∅ 0 []
                   eq_refl _ _ _ eq_refl eq_refl)).
  - apply NoDup_nil_2.
  - intros x [].
  - intros x e [].
Defined.

(** ** The packaged class's resolver *)

(** X16: in the packaged class the hostname outweighs the mode
    variable: on a page whose hostname has none of the markers
    "localhost", "127.0.0.1", "dev" and "staging" (the empty hostname
    included) the result is production whatever [process.env.NODE_ENV]
    holds; and on any page the result is one of the four names. *)
Theorem Published_hostname_outweighs_mode (cfg : Config) (h : Host) :
  window_declared h = true ->
  navigator_declared h = true ->
  (exists e, Published.getCurrentEnvironment cfg h = Normal (env_name e)) /\
  (forceEnv cfg = None ->
   truthy_bool (autoDetectEnv cfg) = true ->
   includes (hostname_of h) "localhost" = false ->
   includes (hostname_of h) "127.0.0.1" = false ->
   includes (hostname_of h) "dev" = false ->
   includes (hostname_of h) "staging" = false ->
   Published.getCurrentEnvironment cfg h = Normal "production").
Proof.
  intros Hw Hn. unfold Published.getCurrentEnvironment, Published.detectEnvironment.
  rewrite Hw, Hn. cbn [negb]. split.
  - destruct (forceEnv cfg) as [e|]; cbn.
    + rewrite env_name_truthy. now exists e.
    + destruct (truthy_bool (autoDetectEnv cfg)); cbn; [|now exists development].
      repeat match goal with |- context [if ?b then _ else _] => destruct b end;
        [exists production|exists staging|exists test|exists development]; reflexivity.
  - intros -> -> -> -> -> ->. cbn. now rewrite orb_true_r.
Qed.

Lemma Published_hostname_outweighs_mode_witness :
  Published.getCurrentEnvironment Published.DEFAULT_CONFIG
    (mkHost true true true true (Some "app.example.com") None
       (Some {[ "NODE_ENV" := "development" ]}))
  = Normal "production".
Proof.
  exact (proj2 (Published_hostname_outweighs_mode Published.DEFAULT_CONFIG
                  (mkHost true true true true (Some "app.example.com") None
                     (Some {[ "NODE_ENV" := "development" ]}))
                  eq_refl eq_refl) eq_refl eq_refl eq_refl eq_refl eq_refl eq_refl).
Defined.

(** ** Outside a browser *)

Lemma idle_removeEventListeners (w : World) :
  eventListeners w = [] -> removeEventListeners w = w.
Proof. destruct w as [c f l m n b fr]. cbn. intros ->. reflexivity. Qed.

Lemma idle_destroy (h : Host) (w : World) :
  flagElement w = None -> eventListeners w = [] -> destroy h w = (Normal tt, w).
Proof.
  intros Hf Hl. rewrite destroy_unfold, (idle_removeEventListeners w Hl).
  unfold removeFlagElement. now rewrite Hf.
Qed.

Lemma idle_step (h : Host) (w : World) (ev : Event) :
  isValidEnvironment h = false ->
  flagElement w = None -> eventListeners w = [] ->
  flagElement (step h w ev) = None /\ eventListeners (step h w ev) = [] /\
  elements (step h w ev) = elements w /\ body (step h w ev) = body w.
Proof.
  intros Hv Hf Hl. destruct ev; cbn [step].
  - unfold init. rewrite Hv. now repeat split.
  - rewrite idle_destroy by assumption. now repeat split.
  - unfold updateConfig, init. rewrite Hv. now repeat split.
  - unfold frame. destruct (frames w); [now repeat split|].
    unfold insertFlag. change (flagElement (set_frames n w)) with (flagElement w).
    rewrite Hf. now repeat split.
  - unfold handleClick. rewrite idle_destroy by assumption. now repeat split.
  - unfold handleKeydown. destruct (String.eqb key "Enter" || String.eqb key " ");
      [rewrite idle_destroy by assumption|]; now repeat split.
  - unfold handleMouseEnter. rewrite Hf. now repeat split.
  - unfold handleMouseLeave. rewrite Hf. now repeat split.
Qed.

(** X17: in a host without [window] or without [document] the
    lifecycle methods are safe: whatever is called on a new component,
    [init], [updateConfig] and [destroy] complete normally, the
    component never gets an element or a listener, and the element store
    and the body are never touched. *)
Theorem lifecycle_safe_outside_browser (h : Host) (w : World) (evs : list Event) :
  isValidEnvironment h = false ->
  flagElement w = None ->
  eventListeners w = [] ->
  let w' := run h evs w in
  flagElement w' = None /\ eventListeners w' = [] /\
  elements w' = elements w /\ body w' = body w /\
  init h w' = (Normal tt, w') /\
  destroy h w' = (Normal tt, w') /\
  forall p, fst (updateConfig h p w') = Normal tt.
Proof.
  intros Hv Hf Hl w'. subst w'.
  assert (flagElement (run h evs w) = None /\ eventListeners (run h evs w) = [] /\
          elements (run h evs w) = elements w /\ body (run h evs w) = body w)
    as (A & B & C & D).
  { unfold run. revert w Hf Hl. induction evs as [|ev evs IH]; intros w Hf Hl;
      cbn [fold_left]; [now repeat split|].
    destruct (idle_step h w ev Hv Hf Hl) as (A & B & C & D).
    destruct (IH _ A B) as (A' & B' & C' & D'). repeat split; congruence. }
  repeat (split; [assumption|]).
  split; [unfold init; now rewrite Hv|]. split; [now apply idle_destroy|].
  intros p. unfold updateConfig, init. now rewrite Hv.
Qed.

Lemma lifecycle_safe_outside_browser_witness :
  let h := mkHost false false false false None None (Some {[ "NODE_ENV" := "production" ]}) in
  let w := constructor empty_config ∅ 0 None in
  init h (run h [Init; UpdateConfig debug_config; Destroy; Init] w)
  = (Normal tt, run h [Init; UpdateConfig debug_config; Destroy; Init] w).
Proof.
  intros h w.
  exact (proj1 (proj2 (proj2 (proj2 (proj2
    (lifecycle_safe_outside_browser h w [Init; UpdateConfig debug_config; Destroy; Init]
       eq_refl eq_refl eq_refl)))))).
Defined.

(** ** Instances of the statements above *)

Lemma getCurrentEnvironment_throws_iff_witness :
  getCurrentEnvironment DEFAULT_CONFIG
    (mkHost false false false false None None (Some {[ "NODE_ENV" := "production" ]}))
  = Throw (ReferenceError "window").
Proof.
  apply (proj2 (getCurrentEnvironment_throws_iff DEFAULT_CONFIG
                  (mkHost false false false false None None
                     (Some {[ "NODE_ENV" := "production" ]}))
                  (ReferenceError "window"))).
  split; [reflexivity|]. split; [reflexivity|]. left. split; reflexivity.
Defined.

Lemma constructor_defaults_witness :
  resolved (config (constructor
                      (mkPartial None None None None None (Some (Some "DEVS")) None None
                         (Some (Some top_left)) (Some (Some large)) None None None
                         (Some (Some true)))
                      ∅ 0 (Some []))) = true.
Proof.
  exact (proj1 (proj2 (proj2 (proj2 (proj2 (proj2 (proj2
    (constructor_defaults
       (mkPartial None None None None None (Some (Some "DEVS")) None None
          (Some (Some top_left)) (Some (Some large)) None None None
          (Some (Some true)))
       ∅ 0 (Some [])))))))) eq_refl).
Defined.
